(** * QNN execution provider: op-builder pipeline and utilities

    A shallow embedding of
    - [onnxruntime/core/providers/qnn/builder/qnn_utils.cc],
    - [onnxruntime/core/providers/qnn/builder/opbuilder/base_op_builder.cc],
    - [onnxruntime/core/providers/qnn/builder/opbuilder/argmax_min_op_builder.cc],
    - [ParseProfilingLevel] of [onnxruntime/core/providers/qnn/qnn_execution_provider.h],
    followed by the properties of these functions that the design document
    states.

    Conventions.  Fixed-width C++ integers are [Z] with the conversion
    written out ([to_uint32], [to_int32], [to_int64]).  C enumerations are
    inductive types; since a C enumeration object can hold a value that is
    none of its enumerators (the [default:] branches of the source exist for
    those), each enumeration has one more constructor, [..._unlisted raw].
    A function that returns [Status] and may leave through an exception
    returns a [Result]; objects mutated through a pointer or a reference are
    passed in and returned. *)

From Stdlib Require Import ZArith NArith List Ascii String Bool Lia.
From stdpp Require Import base option list strings gmap.
Import ListNotations.

Local Open Scope string_scope.
Local Open Scope list_scope.
Local Open Scope Z_scope.

(** ** Fixed-width integers *)

Definition to_uint8 (z : Z) : Z := z mod 2 ^ 8.
Definition to_uint32 (z : Z) : Z := z mod 2 ^ 32.
Definition to_int32 (z : Z) : Z := (z + 2 ^ 31) mod 2 ^ 32 - 2 ^ 31.
Definition to_int64 (z : Z) : Z := (z + 2 ^ 63) mod 2 ^ 64 - 2 ^ 63.

Definition is_int32 (z : Z) : Prop := - 2 ^ 31 <= z < 2 ^ 31.
Definition is_uint32 (z : Z) : Prop := 0 <= z < 2 ^ 32.

(** [std::vector::size()] is a [size_t]. *)
Definition size {A : Type} (v : list A) : Z := Z.of_nat (length v).

(** ** Status, exceptions *)

Inductive StatusCategory := ONNXRUNTIME | SYSTEM | NONE.
Inductive StatusCode := FAIL | INVALID_ARGUMENT | NOT_IMPLEMENTED.

Inductive Status :=
| Status_OK
| Status_Error (category : StatusCategory) (code : StatusCode) (msg : string).

(** [ORT_MAKE_STATUS(ONNXRUNTIME, FAIL, msg)] *)
Definition ORT_MAKE_STATUS (category : StatusCategory) (code : StatusCode)
  (msg : string) : Status := Status_Error category code msg.

Definition IsOK (s : Status) : bool :=
  match s with Status_OK => true | Status_Error _ _ _ => false end.

(** How a call of a [Status]-returning function ends: it returns a status,
    an exception leaves it ([ORT_ENFORCE], [ORT_THROW], [unordered_map::at]),
    or it subscripts a vector out of range, which C++ leaves undefined. *)
Inductive Result :=
| Returns (s : Status)
| Throws (what : string)
| Undefined.

(** ** Accelerator enumerations (QnnTypes.h) *)

Inductive Qnn_DataType_t :=
| QNN_DATATYPE_INT_8
| QNN_DATATYPE_INT_16
| QNN_DATATYPE_INT_32
| QNN_DATATYPE_INT_64
| QNN_DATATYPE_UINT_8
| QNN_DATATYPE_UINT_16
| QNN_DATATYPE_UINT_32
| QNN_DATATYPE_UINT_64
| QNN_DATATYPE_FLOAT_16
| QNN_DATATYPE_FLOAT_32
| QNN_DATATYPE_SFIXED_POINT_8
| QNN_DATATYPE_SFIXED_POINT_16
| QNN_DATATYPE_SFIXED_POINT_32
| QNN_DATATYPE_UFIXED_POINT_8
| QNN_DATATYPE_UFIXED_POINT_16
| QNN_DATATYPE_UFIXED_POINT_32
| QNN_DATATYPE_BOOL_8
| QNN_DATATYPE_UNDEFINED
| QNN_DATATYPE_unlisted (raw : Z).

Inductive Qnn_Definition_t :=
| QNN_DEFINITION_IMPL_GENERATED
| QNN_DEFINITION_DEFINED
| QNN_DEFINITION_UNDEFINED
| QNN_DEFINITION_unlisted (raw : Z).

Inductive Qnn_QuantizationEncoding_t :=
| QNN_QUANTIZATION_ENCODING_SCALE_OFFSET
| QNN_QUANTIZATION_ENCODING_AXIS_SCALE_OFFSET
| QNN_QUANTIZATION_ENCODING_UNDEFINED
| QNN_QUANTIZATION_ENCODING_unlisted (raw : Z).

Inductive Qnn_TensorType_t :=
| QNN_TENSOR_TYPE_APP_WRITE
| QNN_TENSOR_TYPE_APP_READ
| QNN_TENSOR_TYPE_APP_READWRITE
| QNN_TENSOR_TYPE_NATIVE
| QNN_TENSOR_TYPE_STATIC
| QNN_TENSOR_TYPE_NULL
| QNN_TENSOR_TYPE_unlisted (raw : Z).

Inductive Qnn_TensorMemType_t :=
| QNN_TENSORMEMTYPE_RAW
| QNN_TENSORMEMTYPE_MEMHANDLE
| QNN_TENSORMEMTYPE_unlisted (raw : Z).

Inductive Qnn_ParamType_t :=
| QNN_PARAMTYPE_SCALAR
| QNN_PARAMTYPE_TENSOR
| QNN_PARAMTYPE_unlisted (raw : Z).

#[global] Instance Qnn_DataType_t_eq_dec : EqDecision Qnn_DataType_t.
Proof. solve_decision. Defined.
#[global] Instance Qnn_Definition_t_eq_dec : EqDecision Qnn_Definition_t.
Proof. solve_decision. Defined.
#[global] Instance Qnn_QuantizationEncoding_t_eq_dec :
  EqDecision Qnn_QuantizationEncoding_t.
Proof. solve_decision. Defined.
#[global] Instance Qnn_TensorType_t_eq_dec : EqDecision Qnn_TensorType_t.
Proof. solve_decision. Defined.
#[global] Instance Qnn_TensorMemType_t_eq_dec : EqDecision Qnn_TensorMemType_t.
Proof. solve_decision. Defined.
#[global] Instance Qnn_ParamType_t_eq_dec : EqDecision Qnn_ParamType_t.
Proof. solve_decision. Defined.

(** The seventeen data types the source names in its tables and switches. *)
Definition listed_data_type (t : Qnn_DataType_t) : bool :=
  match t with
  | QNN_DATATYPE_UNDEFINED | QNN_DATATYPE_unlisted _ => false
  | _ => true
  end.

(** ** Accelerator structures (QnnTypes.h)

    A [float] is carried as its 32-bit pattern; nothing here computes on it. *)
Definition float := Z.

(** [Qnn_Scalar_t]: the data type tag and the union of values.  The union is
    written as a record of the members the sources touch, so writing a member
    is a record update and reading one is a projection.  Every statement
    below reads back only the member that was written last, or holds whatever
    the members contain. *)
Record Qnn_Scalar_t := {
  dataType : Qnn_DataType_t;
  floatValue : float;
  int32Value : Z;
  uint32Value : Z;
  int16Value : Z;
  uint16Value : Z;
  int8Value : Z;
  uint8Value : Z;
  bool8Value : Z
}.

Definition set_dataType (s : Qnn_Scalar_t) (t : Qnn_DataType_t) : Qnn_Scalar_t :=
  {| dataType := t; floatValue := floatValue s; int32Value := int32Value s;
     uint32Value := uint32Value s; int16Value := int16Value s;
     uint16Value := uint16Value s; int8Value := int8Value s;
     uint8Value := uint8Value s; bool8Value := bool8Value s |}.

Definition set_int32Value (s : Qnn_Scalar_t) (v : Z) : Qnn_Scalar_t :=
  {| dataType := dataType s; floatValue := floatValue s; int32Value := v;
     uint32Value := uint32Value s; int16Value := int16Value s;
     uint16Value := uint16Value s; int8Value := int8Value s;
     uint8Value := uint8Value s; bool8Value := bool8Value s |}.

Definition set_uint32Value (s : Qnn_Scalar_t) (v : Z) : Qnn_Scalar_t :=
  {| dataType := dataType s; floatValue := floatValue s; int32Value := int32Value s;
     uint32Value := v; int16Value := int16Value s;
     uint16Value := uint16Value s; int8Value := int8Value s;
     uint8Value := uint8Value s; bool8Value := bool8Value s |}.

Definition set_bool8Value (s : Qnn_Scalar_t) (v : Z) : Qnn_Scalar_t :=
  {| dataType := dataType s; floatValue := floatValue s; int32Value := int32Value s;
     uint32Value := uint32Value s; int16Value := int16Value s;
     uint16Value := uint16Value s; int8Value := int8Value s;
     uint8Value := uint8Value s; bool8Value := v |}.

Record Qnn_ScaleOffset_t := { scale : float; offset : Z }.

Record Qnn_QuantizeParams_t := {
  encodingDefinition : Qnn_Definition_t;
  quantizationEncoding : Qnn_QuantizationEncoding_t;
  scaleOffsetEncoding : Qnn_ScaleOffset_t
}.

(** [Qnn_ClientBuffer_t]: [data] is a [void*]; it is modelled by what a
    subscript of it, taken as an array of 32-bit words, reads. *)
Record Qnn_ClientBuffer_t := { data : nat -> Z; dataSize : Z }.

(** [Qnn_Tensor_t]; [maxDimensions] is a [uint32_t*], modelled by what its
    subscripts read. *)
Record Qnn_Tensor_t := {
  id : Z;
  type : Qnn_TensorType_t;
  dataFormat : Z;
  tensor_dataType : Qnn_DataType_t;
  rank : Z;
  maxDimensions : nat -> Z;
  memType : Qnn_TensorMemType_t;
  clientBuf : Qnn_ClientBuffer_t;
  quantizeParams : Qnn_QuantizeParams_t
}.

(** [Qnn_Param_t]: [scalarParam] and [tensorParam] share a union; both are
    kept, the reader chooses by [paramType]. *)
Record Qnn_Param_t := {
  paramType : Qnn_ParamType_t;
  name : string;
  scalarParam : Qnn_Scalar_t;
  tensorParam : Qnn_Tensor_t
}.

(** [Qnn_OpConfig_t]; the three arrays are pointers with a count each. *)
Record Qnn_OpConfig_t := {
  op_name : string;
  packageName : string;
  typeName : string;
  numOfParams : Z;
  params : nat -> Qnn_Param_t;
  numOfInputs : Z;
  inputTensors : nat -> Qnn_Tensor_t;
  numOfOutputs : Z;
  outputTensors : nat -> Qnn_Tensor_t
}.

(** ** Output streams

    A [std::ostream] is the sequence of things inserted into it.  An
    insertion operator either returns the stream or is left by an exception
    ([ORT_THROW]), in which case what was inserted before stays in the
    stream. *)
Inductive token :=
| T_str (s : string)
| T_int (z : Z)
| T_float (f : float)
| T_endl.

Definition ostream := list token.

Inductive Stream :=
| Good (out : ostream)
| Thrown (what : string) (out : ostream).

Definition and_then (s : Stream) (k : ostream -> Stream) : Stream :=
  match s with
  | Good out => k out
  | Thrown what out => Thrown what out
  end.

Notation "s >>> k" := (and_then s k) (at level 55, right associativity).

Definition put (t : token) (out : ostream) : Stream := Good (out ++ [t]).

(** ** qnn_utils.cc *)

Module utils.

(** [std::accumulate(first, last, init, op)]: a left fold. *)
Definition accumulate {A B : Type} (v : list B) (init : A) (op : A -> B -> A) : A :=
  fold_left op v init.

(** [std::multiplies<uint32_t>] *)
Definition multiplies_uint32 (a b : Z) : Z := to_uint32 (a * b).

(** [int64_t GetDataSize(const std::vector<uint32_t>& dims)]: the
    accumulator has the type of the initial value, [uint32_t]; the result is
    widened to [int64_t] on return. *)
Definition GetDataSize (dims : list Z) : Z :=
  if size dims =? 0 then 0
  else to_int64 (accumulate dims (to_uint32 1) multiplies_uint32).

(** [size_t GetElementSizeByType(const Qnn_DataType_t& data_type)] *)
Definition data_type_to_size : list (Qnn_DataType_t * Z) :=
  [ (QNN_DATATYPE_INT_8, 1); (QNN_DATATYPE_INT_16, 2); (QNN_DATATYPE_INT_32, 4);
    (QNN_DATATYPE_INT_64, 8); (QNN_DATATYPE_UINT_8, 1); (QNN_DATATYPE_UINT_16, 2);
    (QNN_DATATYPE_UINT_32, 4); (QNN_DATATYPE_UINT_64, 8); (QNN_DATATYPE_FLOAT_16, 2);
    (QNN_DATATYPE_FLOAT_32, 4); (QNN_DATATYPE_BOOL_8, 1);
    (QNN_DATATYPE_SFIXED_POINT_8, 1); (QNN_DATATYPE_SFIXED_POINT_16, 2);
    (QNN_DATATYPE_SFIXED_POINT_32, 4); (QNN_DATATYPE_UFIXED_POINT_8, 1);
    (QNN_DATATYPE_UFIXED_POINT_16, 2); (QNN_DATATYPE_UFIXED_POINT_32, 4) ].

(** [unordered_map::find] on a table written as an initializer list. *)
Fixpoint find {K V : Type} `{EqDecision K} (table : list (K * V)) (key : K) : option V :=
  match table with
  | [] => None
  | (k, v) :: rest => if decide (k = key) then Some v else find rest key
  end.

Definition GetElementSizeByType (data_type : Qnn_DataType_t) : Z :=
  match find data_type_to_size data_type with
  | None => 0
  | Some sz => sz
  end.

(** [std::ostream& operator<<(std::ostream& out, const Qnn_Scalar_t& scalar)] *)
Definition operator_ltlt_Qnn_Scalar_t (out : ostream) (scalar : Qnn_Scalar_t) : Stream :=
  match dataType scalar with
  | QNN_DATATYPE_INT_8 => put (T_int (to_int32 (int8Value scalar))) out
  | QNN_DATATYPE_INT_16 => put (T_int (int16Value scalar)) out
  | QNN_DATATYPE_INT_32 => put (T_int (int32Value scalar)) out
  | QNN_DATATYPE_INT_64 => put (T_str "int64_t is not supported") out
  | QNN_DATATYPE_UINT_8 => put (T_int (to_int32 (uint8Value scalar))) out
  | QNN_DATATYPE_UINT_16 => put (T_int (uint16Value scalar)) out
  | QNN_DATATYPE_UINT_32 => put (T_int (uint32Value scalar)) out
  | QNN_DATATYPE_UINT_64 => put (T_str "uint64_t is not supported") out
  | QNN_DATATYPE_FLOAT_16 => Good out
  | QNN_DATATYPE_FLOAT_32 => put (T_float (floatValue scalar)) out
  | QNN_DATATYPE_SFIXED_POINT_8
  | QNN_DATATYPE_SFIXED_POINT_16
  | QNN_DATATYPE_SFIXED_POINT_32
  | QNN_DATATYPE_UFIXED_POINT_8
  | QNN_DATATYPE_UFIXED_POINT_16
  | QNN_DATATYPE_UFIXED_POINT_32 =>
      put (T_str "usigned fixedpoint data is not supported") out
  | QNN_DATATYPE_BOOL_8 => put (T_int (to_int32 (bool8Value scalar))) out
  | _ => Thrown "Unknown Qnn Data type" out
  end.

(** [std::ostream& operator<<(std::ostream& out, const Qnn_DataType_t& data_type)] *)
Definition operator_ltlt_Qnn_DataType_t (out : ostream) (data_type : Qnn_DataType_t) : Stream :=
  match data_type with
  | QNN_DATATYPE_INT_8 => put (T_str "QNN_DATATYPE_INT_8") out
  | QNN_DATATYPE_INT_16 => put (T_str "QNN_DATATYPE_INT_16") out
  | QNN_DATATYPE_INT_32 => put (T_str "QNN_DATATYPE_INT_32") out
  | QNN_DATATYPE_INT_64 => put (T_str "QNN_DATATYPE_INT_64") out
  | QNN_DATATYPE_UINT_8 => put (T_str "QNN_DATATYPE_UINT_8") out
  | QNN_DATATYPE_UINT_16 => put (T_str "QNN_DATATYPE_UINT_16") out
  | QNN_DATATYPE_UINT_32 => put (T_str "QNN_DATATYPE_UINT_32") out
  | QNN_DATATYPE_UINT_64 => put (T_str "QNN_DATATYPE_UINT_64") out
  | QNN_DATATYPE_FLOAT_16 => put (T_str "QNN_DATATYPE_FLOAT_16") out
  | QNN_DATATYPE_FLOAT_32 => put (T_str "QNN_DATATYPE_FLOAT_32") out
  | QNN_DATATYPE_SFIXED_POINT_8 => put (T_str "QNN_DATATYPE_SFIXED_POINT_8") out
  | QNN_DATATYPE_SFIXED_POINT_16 => put (T_str "QNN_DATATYPE_SFIXED_POINT_16") out
  | QNN_DATATYPE_SFIXED_POINT_32 => put (T_str "QNN_DATATYPE_SFIXED_POINT_32") out
  | QNN_DATATYPE_UFIXED_POINT_8 => put (T_str "QNN_DATATYPE_UFIXED_POINT_8") out
  | QNN_DATATYPE_UFIXED_POINT_16 => put (T_str "QNN_DATATYPE_UFIXED_POINT_16") out
  | QNN_DATATYPE_UFIXED_POINT_32 => put (T_str "QNN_DATATYPE_UFIXED_POINT_32") out
  | QNN_DATATYPE_BOOL_8 => put (T_str "QNN_DATATYPE_BOOL_8") out
  | _ => Thrown "Unknown Qnn Data type" out
  end.

(** [operator<<(std::ostream&, const Qnn_Definition_t&)] *)
Definition operator_ltlt_Qnn_Definition_t (out : ostream) (definition : Qnn_Definition_t) : Stream :=
  match definition with
  | QNN_DEFINITION_IMPL_GENERATED => put (T_str "QNN_DEFINITION_IMPL_GENERATED") out
  | QNN_DEFINITION_DEFINED => put (T_str "QNN_DEFINITION_DEFINED") out
  | QNN_DEFINITION_UNDEFINED => put (T_str "QNN_DEFINITION_UNDEFINED") out
  | _ => put (T_str "Undefined") out
  end.

(** [operator<<(std::ostream&, const Qnn_QuantizationEncoding_t&)] *)
Definition operator_ltlt_Qnn_QuantizationEncoding_t (out : ostream)
  (encoding : Qnn_QuantizationEncoding_t) : Stream :=
  match encoding with
  | QNN_QUANTIZATION_ENCODING_SCALE_OFFSET =>
      put (T_str "QNN_QUANTIZATION_ENCODING_SCALE_OFFSET") out
  | QNN_QUANTIZATION_ENCODING_AXIS_SCALE_OFFSET =>
      put (T_str "QNN_QUANTIZATION_ENCODING_AXIS_SCALE_OFFSET") out
  | _ => put (T_str "Uknown quantization encoding") out
  end.

(** [operator<<(std::ostream&, const Qnn_QuantizeParams_t&)] *)
Definition operator_ltlt_Qnn_QuantizeParams_t (out : ostream)
  (quantize_params : Qnn_QuantizeParams_t) : Stream :=
  put (T_str " encodingDefinition=") out >>> fun out =>
  operator_ltlt_Qnn_Definition_t out (encodingDefinition quantize_params) >>> fun out =>
  if bool_decide (encodingDefinition quantize_params = QNN_DEFINITION_IMPL_GENERATED)
     || bool_decide (encodingDefinition quantize_params = QNN_DEFINITION_DEFINED)
  then
    put (T_str " encoding=") out >>> fun out =>
    operator_ltlt_Qnn_QuantizationEncoding_t out (quantizationEncoding quantize_params)
    >>> fun out =>
    if bool_decide (quantizationEncoding quantize_params
                    = QNN_QUANTIZATION_ENCODING_SCALE_OFFSET)
    then
      put (T_str " scale=") out >>> fun out =>
      put (T_float (scale (scaleOffsetEncoding quantize_params))) out >>> fun out =>
      put (T_str " offset=") out >>> fun out =>
      put (T_int (offset (scaleOffsetEncoding quantize_params))) out
    else Good out
  else Good out.

(** [operator<<(std::ostream&, const Qnn_TensorType_t&)] *)
Definition operator_ltlt_Qnn_TensorType_t (out : ostream) (tensor_type : Qnn_TensorType_t) : Stream :=
  match tensor_type with
  | QNN_TENSOR_TYPE_APP_WRITE => put (T_str "QNN_TENSOR_TYPE_APP_WRITE") out
  | QNN_TENSOR_TYPE_APP_READ => put (T_str "QNN_TENSOR_TYPE_APP_READ") out
  | QNN_TENSOR_TYPE_APP_READWRITE => put (T_str "QNN_TENSOR_TYPE_APP_READWRITE") out
  | QNN_TENSOR_TYPE_NATIVE => put (T_str "QNN_TENSOR_TYPE_NATIVE") out
  | QNN_TENSOR_TYPE_STATIC => put (T_str "QNN_TENSOR_TYPE_STATIC") out
  | QNN_TENSOR_TYPE_NULL => put (T_str "QNN_TENSOR_TYPE_NULL") out
  | _ => put (T_str "Unsupported type") out
  end.

(** [operator<<(std::ostream&, const Qnn_TensorMemType_t&)] *)
Definition operator_ltlt_Qnn_TensorMemType_t (out : ostream) (mem_type : Qnn_TensorMemType_t) : Stream :=
  match mem_type with
  | QNN_TENSORMEMTYPE_RAW => put (T_str "QNN_TENSORMEMTYPE_RAW") out
  | QNN_TENSORMEMTYPE_MEMHANDLE => put (T_str "QNN_TENSORMEMTYPE_MEMHANDLE") out
  | _ => put (T_str "Unsupported mem type") out
  end.

(** [template <typename T> operator<<(std::ostream&, const Qnn_ClientBuffer_t&)],
    for a four-byte [T]; [as_T] reads a 32-bit word as a [T]. *)
Definition operator_ltlt_Qnn_ClientBuffer_t (as_T : Z -> Z) (out : ostream)
  (client_bufer : Qnn_ClientBuffer_t) : Stream :=
  let count := to_uint32 (dataSize client_bufer / 4) in
  let count := if count >? 100 then 100 else count in
  put (T_str " clientBuf=(") out >>> fun out =>
  fold_left
    (fun (s : Stream) (i : nat) =>
       s >>> fun out =>
       put (T_int (as_T (data client_bufer i))) out >>> fun out =>
       put (T_str " ") out)
    (seq 0 (Z.to_nat count)) (Good out) >>> fun out =>
  put (T_str ")") out.

(** [operator<<(std::ostream&, const Qnn_Tensor_t&)] *)
Definition operator_ltlt_Qnn_Tensor_t (out : ostream) (tensor : Qnn_Tensor_t) : Stream :=
  put (T_str " id=") out >>> fun out =>
  put (T_int (id tensor)) out >>> fun out =>
  put (T_str " type=") out >>> fun out =>
  operator_ltlt_Qnn_TensorType_t out (type tensor) >>> fun out =>
  put (T_str " dataFormat=") out >>> fun out =>
  put (T_int (dataFormat tensor)) out >>> fun out =>
  put (T_str " dataType=") out >>> fun out =>
  operator_ltlt_Qnn_DataType_t out (tensor_dataType tensor) >>> fun out =>
  put (T_str " rank=") out >>> fun out =>
  put (T_int (rank tensor)) out >>> fun out =>
  put (T_str " maxDimensions=(") out >>> fun out =>
  fold_left
    (fun (s : Stream) (i : nat) =>
       s >>> fun out =>
       put (T_int (maxDimensions tensor i)) out >>> fun out =>
       put (T_str " ") out)
    (seq 0 (Z.to_nat (rank tensor))) (Good out) >>> fun out =>
  put (T_str ")") out >>> fun out =>
  put (T_str " memType=") out >>> fun out =>
  operator_ltlt_Qnn_TensorMemType_t out (memType tensor) >>> fun out =>
  (if bool_decide (memType tensor = QNN_TENSORMEMTYPE_RAW) then
     if bool_decide (tensor_dataType tensor = QNN_DATATYPE_UINT_32)
     then operator_ltlt_Qnn_ClientBuffer_t to_uint32 out (clientBuf tensor)
     else operator_ltlt_Qnn_ClientBuffer_t to_int32 out (clientBuf tensor)
   else Good out) >>> fun out =>
  put (T_str " quantizeParams:") out >>> fun out =>
  operator_ltlt_Qnn_QuantizeParams_t out (quantizeParams tensor).

(** [operator<<(std::ostream&, const Qnn_ParamType_t&)] *)
Definition operator_ltlt_Qnn_ParamType_t (out : ostream) (param_type : Qnn_ParamType_t) : Stream :=
  match param_type with
  | QNN_PARAMTYPE_SCALAR => put (T_str "QNN_PARAMTYPE_SCALAR") out
  | QNN_PARAMTYPE_TENSOR => put (T_str "QNN_PARAMTYPE_TENSOR") out
  | _ => put (T_str "Unknown type") out
  end.

(** [operator<<(std::ostream&, const Qnn_Param_t&)] *)
Definition operator_ltlt_Qnn_Param_t (out : ostream) (qnn_param : Qnn_Param_t) : Stream :=
  put (T_str " type=") out >>> fun out =>
  operator_ltlt_Qnn_ParamType_t out (paramType qnn_param) >>> fun out =>
  put (T_str " name=") out >>> fun out =>
  put (T_str (name qnn_param)) out >>> fun out =>
  if bool_decide (paramType qnn_param = QNN_PARAMTYPE_TENSOR) then
    operator_ltlt_Qnn_Tensor_t out (tensorParam qnn_param)
  else
    put (T_str " value=") out >>> fun out =>
    operator_ltlt_Qnn_Scalar_t out (scalarParam qnn_param).

(** The three loops of the operator formatter: element, then [std::endl]. *)
Definition insert_each {A : Type} (insert : ostream -> A -> Stream)
  (array : nat -> A) (count : Z) (out : ostream) : Stream :=
  fold_left
    (fun (s : Stream) (i : nat) =>
       s >>> fun out => insert out (array i) >>> fun out => put T_endl out)
    (seq 0 (Z.to_nat count)) (Good out).

(** [operator<<(std::ostream&, const Qnn_OpConfig_t&)] *)
Definition operator_ltlt_Qnn_OpConfig_t (out : ostream) (op_definition : Qnn_OpConfig_t) : Stream :=
  put (T_str "Qnn_OpConfig node name: ") out >>> fun out =>
  put (T_str (op_name op_definition)) out >>> fun out =>
  put (T_str " package_name: ") out >>> fun out =>
  put (T_str (packageName op_definition)) out >>> fun out =>
  put (T_str " QNN_op_type: ") out >>> fun out =>
  put (T_str (typeName op_definition)) out >>> fun out =>
  put (T_str " num_of_params: ") out >>> fun out =>
  put (T_int (numOfParams op_definition)) out >>> fun out =>
  put (T_str " num_of_inputs: ") out >>> fun out =>
  put (T_int (numOfInputs op_definition)) out >>> fun out =>
  put (T_str " num_of_outputs: ") out >>> fun out =>
  put (T_int (numOfOutputs op_definition)) out >>> fun out =>
  put T_endl out >>> fun out =>
  put (T_str " node_inputs:") out >>> fun out =>
  put T_endl out >>> fun out =>
  insert_each operator_ltlt_Qnn_Tensor_t (inputTensors op_definition)
    (numOfInputs op_definition) out >>> fun out =>
  put (T_str " node_outputs:") out >>> fun out =>
  put T_endl out >>> fun out =>
  insert_each operator_ltlt_Qnn_Tensor_t (outputTensors op_definition)
    (numOfOutputs op_definition) out >>> fun out =>
  put (T_str " node_params:") out >>> fun out =>
  put T_endl out >>> fun out =>
  insert_each operator_ltlt_Qnn_Param_t (params op_definition)
    (numOfParams op_definition) out.

End utils.

(** ** The portable graph, as the builders read it

    [TensorProto_DataType] is the element type enumeration of onnx.proto; the
    builders handle it as an [int32_t]. *)

Module ONNX_NAMESPACE.
Definition TensorProto_DataType_FLOAT : Z := 1.
Definition TensorProto_DataType_UINT8 : Z := 2.
Definition TensorProto_DataType_INT8 : Z := 3.
Definition TensorProto_DataType_UINT16 : Z := 4.
Definition TensorProto_DataType_INT16 : Z := 5.
Definition TensorProto_DataType_INT32 : Z := 6.
Definition TensorProto_DataType_INT64 : Z := 7.
Definition TensorProto_DataType_STRING : Z := 8.
Definition TensorProto_DataType_BOOL : Z := 9.
Definition TensorProto_DataType_FLOAT16 : Z := 10.
Definition TensorProto_DataType_DOUBLE : Z := 11.
Definition TensorProto_DataType_UINT32 : Z := 12.
Definition TensorProto_DataType_UINT64 : Z := 13.
Definition TensorProto_DataType_BFLOAT16 : Z := 16.
End ONNX_NAMESPACE.
Import ONNX_NAMESPACE.

Record TypeProto := { has_elem_type : bool; elem_type : Z }.

Record NodeArg := {
  Name : string;
  TypeAsProto : option TypeProto;
  Shape : option (list Z)
}.

Record QuantParam := { scale_arg : NodeArg; zero_point_arg : option NodeArg }.

Record NodeUnitIODef := { node_arg : NodeArg; quant_param : option QuantParam }.

Record TensorProto := {
  tensor_data_type : Z;
  tensor_dims : list Z;
  tensor_raw_data : list Z
}.

(** A node unit as the builders read it: [Name()], [OpType()], [Inputs()],
    [Outputs()], and the integer attributes that [NodeAttrHelper] looks up by
    name. *)
Record NodeUnit := {
  NodeUnit_Name : string;
  OpType : string;
  Inputs : list NodeUnitIODef;
  Outputs : list NodeUnitIODef;
  attributes : gmap string Z
}.

(** Modelled from the spec: [NodeAttrHelper::Get(key, int32_t def_val)], of
    core/providers/shared/utils/utils.h, which is not among the sources.
    Section 6: "attribute accessors with typed defaults": the attribute's
    value as an [int32_t] when the node has the attribute, the default
    otherwise. *)
Definition NodeAttrHelper_Get (node_unit : NodeUnit) (key : string) (def_val : Z) : Z :=
  match attributes node_unit !! key with
  | Some v => to_int32 v
  | None => def_val
  end.

(** ** Wrappers of the accelerator descriptors *)

(** [QnnTensorWrapper(allocator, name, tensor_type, data_format, data_type,
    quantize_param, shape, client_buf)] *)
Record QnnTensorWrapper := {
  tensor_name : string;
  tensor_type : Qnn_TensorType_t;
  data_format : Z;
  data_type : Qnn_DataType_t;
  quantize_params : Qnn_QuantizeParams_t;
  shape : list Z;
  client_buf : list Z
}.

(** [QnnParamWrapper(allocator, name, scalar)] *)
Record QnnParamWrapper := {
  param_name : string;
  param_scalar : Qnn_Scalar_t
}.

(** Modelled from the spec: the operator descriptor the accumulator keeps
    (qnn_model_wrapper.h is not among the sources).  Section 3: "name,
    package identifier, accelerator op-type string, ordered parameter list,
    ordered input tensor name list, ordered output tensor descriptor list". *)
Record QnnOpProperty := {
  node_name : string;
  package_name : string;
  node_type : string;
  node_params : list QnnParamWrapper;
  input_names : list string;
  outputs : list QnnTensorWrapper
}.

(** ** The target-graph accumulator *)

(** Modelled from the spec: the state of [QnnModelWrapper]
    (qnn_model_wrapper.h and qnn_model_wrapper.cc are not among the sources).
    Section 3: "tensor registry (insertion-order irrelevant, names unique),
    set of initializer names, set of declared-output names, ordered operator
    list"; the initializers are kept with their tensors, which
    [GetInitializerTensors] hands out. *)
Record QnnModelWrapper := {
  model_tensors : gmap string QnnTensorWrapper;
  initializers : gmap string TensorProto;
  graph_outputs : gset string;
  op_list : list QnnOpProperty
}.

(** What the builders use and the sources do not contain: constants of
    qnn_def.h, initialisers of QnnTypes.h, helpers of the portable-graph
    layer, and the two accelerator-side acceptance checks behind
    [AddTensor] and [AddNode]. *)
Class Collaborators := {
  qnn_def_package_name : string;
  qnn_def_axis : string;
  qnn_def_keep_dims : string;
  QNN_QUANTIZE_PARAMS_INIT : Qnn_QuantizeParams_t;
  QNN_SCALAR_INIT : Qnn_Scalar_t;
  (** [InitializeQuantizeParam(quantize_param, is_quantized_model)] *)
  InitializeQuantizeParam : Qnn_QuantizeParams_t -> bool -> Qnn_QuantizeParams_t;
  (** [GetOnnxShape(node_arg, shape)]: [None] for [false] *)
  GetOnnxShape : QnnModelWrapper -> NodeArg -> option (list Z);
  (** [ProcessQuantizationParameter(quant_param, scale, offset)]: the
      [bool], then [scale] and [offset] as the call leaves them *)
  ProcessQuantizationParameter :
    QnnModelWrapper -> option QuantParam -> float -> Z -> bool * float * Z;
  (** [onnxruntime::utils::UnpackInitializerData(tensor, unpacked)] *)
  UnpackInitializerData : TensorProto -> Status * list Z;
  GetQnnOpType : string -> string;
  GetNodeName : NodeUnit -> string;
  tensor_accepted : QnnTensorWrapper -> bool;
  operator_accepted : QnnOpProperty -> bool
}.

(** Modelled from the spec: [QnnModelWrapper::QnnContainsTensor]. Section
    4.4: "ContainsTensor(name) -> bool", membership in the tensor registry. *)
Definition QnnContainsTensor (w : QnnModelWrapper) (tensor_name : string) : bool :=
  bool_decide (is_Some (model_tensors w !! tensor_name)).

(** Modelled from the spec: [QnnModelWrapper::IsInitializerInput]. Section
    4.4: "IsInitializer(name) -> bool", membership in the set of initializer
    names. *)
Definition IsInitializerInput (w : QnnModelWrapper) (input_name : string) : bool :=
  bool_decide (is_Some (initializers w !! input_name)).

(** Modelled from the spec: [QnnModelWrapper::IsGraphOutput]. Section 4.4:
    "IsGraphOutput(name) -> bool", membership in the set of declared-output
    names. *)
Definition IsGraphOutput (w : QnnModelWrapper) (output_name : string) : bool :=
  bool_decide (output_name ∈ graph_outputs w).

(** Modelled from the spec: [QnnModelWrapper::GetInitializerTensors], the
    initializers by name. *)
Definition GetInitializerTensors (w : QnnModelWrapper) : gmap string TensorProto :=
  initializers w.

(** Modelled from the spec: [QnnModelWrapper::AddTensor]. Section 4.4:
    "AddTensor(name, descriptor) -> bool (false if rejected, e.g. malformed
    descriptor; true and idempotent if name already present with an
    equivalent descriptor)"; section 3: "re-adding an existing name is a
    no-op, not an error". *)
Definition AddTensor `{Collaborators} (w : QnnModelWrapper) (tensor_name : string)
  (tensor_wrapper : QnnTensorWrapper) : bool * QnnModelWrapper :=
  if QnnContainsTensor w tensor_name then (true, w)
  else if tensor_accepted tensor_wrapper then
    (true, {| model_tensors := <[tensor_name := tensor_wrapper]> (model_tensors w);
              initializers := initializers w;
              graph_outputs := graph_outputs w;
              op_list := op_list w |})
  else (false, w).

(** Modelled from the spec: how the accumulator takes in the output
    descriptors of an operator it appends.  Section 3: the descriptors are
    "owned exclusively by the accumulator", names in the registry are unique
    and "re-adding an existing name is a no-op, not an error". *)
Definition register_outputs (tensors : gmap string QnnTensorWrapper)
  (output_wrappers : list QnnTensorWrapper) : gmap string QnnTensorWrapper :=
  fold_left
    (fun m t => match m !! tensor_name t with
                | Some _ => m
                | None => <[tensor_name t := t]> m
                end)
    output_wrappers tensors.

(** Modelled from the spec: [QnnModelWrapper::AddNode]. Section 4.4:
    "AddOperator(descriptor, validate_only) -> Result (fails if any
    referenced input tensor name is absent from the registry, or if the
    underlying accelerator validation rejects the operator's
    shape/type/param combination)"; section 4.2: validate-only runs the
    validation "without persisting state observable beyond the call", the
    other mode "performs a persisting build"; section 3: the operator list
    is in build order, and APP_WRITE is the role of "externally supplied
    subgraph inputs not already present": the tensors an appended operator
    produces are present, under the descriptors it was given, for the
    operators after it. *)
Definition AddNode `{Collaborators} (w : QnnModelWrapper)
  (qnn_node_name package_name qnn_node_type : string)
  (params : list QnnParamWrapper) (input_names : list string)
  (output_wrappers : list QnnTensorWrapper) (do_op_validation : bool)
  : bool * QnnModelWrapper :=
  let op := {| node_name := qnn_node_name; package_name := package_name;
               node_type := qnn_node_type; node_params := params;
               input_names := input_names; outputs := output_wrappers |} in
  if forallb (QnnContainsTensor w) input_names && operator_accepted op then
    if do_op_validation then (true, w)
    else (true, {| model_tensors := register_outputs (model_tensors w) output_wrappers;
                   initializers := initializers w;
                   graph_outputs := graph_outputs w;
                   op_list := op_list w ++ [op] |})
  else (false, w).

(** [ORT_RETURN_IF_NOT(condition, message)] returns this status when the
    condition is false; of the text the macro composes, the message the
    caller passes is kept. *)
Definition ORT_RETURN_IF_NOT_status (msg : string) : Status :=
  ORT_MAKE_STATUS ONNXRUNTIME FAIL msg.

(** ** base_op_builder.cc *)

Module BaseOpBuilder.

Definition onnx_to_qnn_data_type : list (Z * Qnn_DataType_t) :=
  [ (TensorProto_DataType_INT8, QNN_DATATYPE_INT_8);
    (TensorProto_DataType_INT16, QNN_DATATYPE_INT_16);
    (TensorProto_DataType_INT32, QNN_DATATYPE_INT_32);
    (TensorProto_DataType_INT64, QNN_DATATYPE_INT_64);
    (TensorProto_DataType_UINT8, QNN_DATATYPE_UINT_8);
    (TensorProto_DataType_UINT16, QNN_DATATYPE_UINT_16);
    (TensorProto_DataType_UINT32, QNN_DATATYPE_UINT_32);
    (TensorProto_DataType_UINT64, QNN_DATATYPE_UINT_64);
    (TensorProto_DataType_FLOAT16, QNN_DATATYPE_FLOAT_16);
    (TensorProto_DataType_FLOAT, QNN_DATATYPE_FLOAT_32);
    (TensorProto_DataType_BOOL, QNN_DATATYPE_BOOL_8) ].

Definition onnx_to_qnn_data_type_quantized : list (Z * Qnn_DataType_t) :=
  [ (TensorProto_DataType_INT8, QNN_DATATYPE_SFIXED_POINT_8);
    (TensorProto_DataType_INT16, QNN_DATATYPE_SFIXED_POINT_16);
    (TensorProto_DataType_INT32, QNN_DATATYPE_SFIXED_POINT_32);
    (TensorProto_DataType_INT64, QNN_DATATYPE_INT_64);
    (TensorProto_DataType_UINT8, QNN_DATATYPE_UFIXED_POINT_8);
    (TensorProto_DataType_UINT16, QNN_DATATYPE_UFIXED_POINT_16);
    (TensorProto_DataType_UINT32, QNN_DATATYPE_UFIXED_POINT_32);
    (TensorProto_DataType_UINT64, QNN_DATATYPE_UINT_64);
    (TensorProto_DataType_FLOAT16, QNN_DATATYPE_FLOAT_16);
    (TensorProto_DataType_FLOAT, QNN_DATATYPE_FLOAT_32);
    (TensorProto_DataType_BOOL, QNN_DATATYPE_BOOL_8) ].

(** The lambda [do_type_mapping]: the [bool] it returns and [qnn_data_type]
    as it leaves it (untouched on a miss). *)
Definition do_type_mapping (mapping_table : list (Z * Qnn_DataType_t))
  (onnx_data_type : Z) (qnn_data_type : Qnn_DataType_t) : bool * Qnn_DataType_t :=
  match utils.find mapping_table onnx_data_type with
  | None => (false, qnn_data_type)
  | Some pos_second => (true, pos_second)
  end.

(** [bool BaseOpBuilder::OnnxDataTypeToQnnDataType(onnx_data_type,
    qnn_data_type, is_quantized)] *)
Definition OnnxDataTypeToQnnDataType (onnx_data_type : Z)
  (qnn_data_type : Qnn_DataType_t) (is_quantized : bool) : bool * Qnn_DataType_t :=
  if is_quantized then
    do_type_mapping onnx_to_qnn_data_type_quantized onnx_data_type qnn_data_type
  else
    do_type_mapping onnx_to_qnn_data_type onnx_data_type qnn_data_type.

(** Modelled from the spec: [BaseOpBuilder::GetQnnDataType], defined in
    base_op_builder.h, which is not among the sources.  Section 4.2:
    "resolve accelerator element type (quantized-aware)"; section 4.1:
    "Lookup miss yields a diagnosable unsupported type result; callers must
    propagate this as a build failure rather than silently defaulting".  The
    status, and [tensor_data_type] as the call leaves it. *)
Definition GetQnnDataType (is_quantized_node : bool) (type_proto : option TypeProto)
  (tensor_data_type : Qnn_DataType_t) : Status * Qnn_DataType_t :=
  match type_proto with
  | None =>
      (ORT_MAKE_STATUS ONNXRUNTIME FAIL "unsupported type", tensor_data_type)
  | Some tp =>
      if has_elem_type tp then
        match OnnxDataTypeToQnnDataType (elem_type tp) tensor_data_type
                is_quantized_node with
        | (true, t) => (Status_OK, t)
        | (false, t) =>
            (ORT_MAKE_STATUS ONNXRUNTIME FAIL "unsupported type", t)
        end
      else
        (ORT_MAKE_STATUS ONNXRUNTIME FAIL "unsupported type", tensor_data_type)
  end.

Section Stages.
Context `{Collaborators}.

(** [this->output_count_] *)
Variable output_count_ : Z.

Definition with_scale_offset (q : Qnn_QuantizeParams_t) (sc : float) (off : Z)
  : Qnn_QuantizeParams_t :=
  {| encodingDefinition := encodingDefinition q;
     quantizationEncoding := quantizationEncoding q;
     scaleOffsetEncoding := {| scale := sc; offset := off |} |}.

(** The loop of [ProcessInputs], from input [input_i] on.  [quantize_param]
    and [qnn_data_type] are declared before the loop and live across its
    rounds.  [unordered_map::at] throws [std::out_of_range] for a missing
    key.  The result is how the function ends, the accumulator and
    [input_names] as it leaves them. *)
Fixpoint ProcessInputs_loop (is_quantized_model : bool) (inputs : list NodeUnitIODef)
  (qnn_model_wrapper : QnnModelWrapper) (input_names : list string)
  (quantize_param : Qnn_QuantizeParams_t) (qnn_data_type : Qnn_DataType_t)
  : Result * QnnModelWrapper * list string :=
  match inputs with
  | [] => (Returns Status_OK, qnn_model_wrapper, input_names)
  | input :: rest =>
    let input_name := Name (node_arg input) in
    if QnnContainsTensor qnn_model_wrapper input_name then
      ProcessInputs_loop is_quantized_model rest qnn_model_wrapper
        (input_names ++ [input_name]) quantize_param qnn_data_type
    else
      match GetQnnDataType is_quantized_model (TypeAsProto (node_arg input))
              qnn_data_type with
      | (Status_Error c e m, _) =>
          (Returns (Status_Error c e m), qnn_model_wrapper, input_names)
      | (Status_OK, qnn_data_type) =>
        match GetOnnxShape qnn_model_wrapper (node_arg input) with
        | None =>
            (Returns (ORT_RETURN_IF_NOT_status "Cannot get shape"),
             qnn_model_wrapper, input_names)
        | Some input_shape =>
          match ProcessQuantizationParameter qnn_model_wrapper (quant_param input)
                  (scale (scaleOffsetEncoding quantize_param))
                  (offset (scaleOffsetEncoding quantize_param)) with
          | (false, _, _) =>
              (Returns (ORT_RETURN_IF_NOT_status "Cannot get quantization parameter"),
               qnn_model_wrapper, input_names)
          | (true, sc, off) =>
            let quantize_param := with_scale_offset quantize_param sc off in
            let is_initializer_input := IsInitializerInput qnn_model_wrapper input_name in
            let unpacked : Result + list Z :=
              if is_initializer_input then
                match GetInitializerTensors qnn_model_wrapper !! input_name with
                | None => inl (Throws "unordered_map::at")
                | Some input_tensor =>
                    match UnpackInitializerData input_tensor with
                    | (Status_OK, unpacked_tensor) => inr unpacked_tensor
                    | (Status_Error c e m, _) => inl (Returns (Status_Error c e m))
                    end
                end
              else inr [] in
            match unpacked with
            | inl r => (r, qnn_model_wrapper, input_names)
            | inr unpacked_tensor =>
              let input_names := input_names ++ [input_name] in
              let tensor_type :=
                if is_initializer_input then QNN_TENSOR_TYPE_STATIC
                else QNN_TENSOR_TYPE_APP_WRITE in
              let data_format := 0 in
              let input_tensorwrapper :=
                {| tensor_name := input_name; tensor_type := tensor_type;
                   data_format := data_format; data_type := qnn_data_type;
                   quantize_params := quantize_param; shape := input_shape;
                   client_buf := unpacked_tensor |} in
              match AddTensor qnn_model_wrapper input_name input_tensorwrapper with
              | (false, qnn_model_wrapper) =>
                  (Returns (ORT_RETURN_IF_NOT_status "Failed to add tensor."),
                   qnn_model_wrapper, input_names)
              | (true, qnn_model_wrapper) =>
                  ProcessInputs_loop is_quantized_model rest qnn_model_wrapper
                    input_names quantize_param qnn_data_type
              end
            end
          end
        end
      end
  end.

(** [Status BaseOpBuilder::ProcessInputs(qnn_model_wrapper, node_unit, logger,
    is_quantized_model, input_names, do_op_validation)] *)
Definition ProcessInputs (qnn_model_wrapper : QnnModelWrapper) (node_unit : NodeUnit)
  (is_quantized_model : bool) (input_names : list string) (do_op_validation : bool)
  : Result * QnnModelWrapper * list string :=
  let quantize_param := QNN_QUANTIZE_PARAMS_INIT in
  let quantize_param := InitializeQuantizeParam quantize_param is_quantized_model in
  let qnn_data_type := QNN_DATATYPE_FLOAT_32 in
  let inputs := Inputs node_unit in
  ProcessInputs_loop is_quantized_model inputs qnn_model_wrapper input_names
    quantize_param qnn_data_type.

(** The loop of [ProcessOutputs], from output [output_i] on: how it ends
    (it leaves the function only on an error) and [qnn_outputs]. *)
Fixpoint ProcessOutputs_loop (qnn_model_wrapper : QnnModelWrapper)
  (is_quantized_model : bool) (outputs : list NodeUnitIODef) (output_i : Z)
  (qnn_outputs : list QnnTensorWrapper) : Result * list QnnTensorWrapper :=
  match outputs with
  | [] => (Returns Status_OK, qnn_outputs)
  | output :: rest =>
    if output_i <? output_count_ then
      let output_name := Name (node_arg output) in
      let quantize_param := QNN_QUANTIZE_PARAMS_INIT in
      let quantize_param := InitializeQuantizeParam quantize_param is_quantized_model in
      let qnn_data_type := QNN_DATATYPE_FLOAT_32 in
      match GetQnnDataType is_quantized_model (TypeAsProto (node_arg output))
              qnn_data_type with
      | (Status_Error c e m, _) => (Returns (Status_Error c e m), qnn_outputs)
      | (Status_OK, qnn_data_type) =>
        match ProcessQuantizationParameter qnn_model_wrapper (quant_param output)
                (scale (scaleOffsetEncoding quantize_param))
                (offset (scaleOffsetEncoding quantize_param)) with
        | (false, _, _) =>
            (Returns (ORT_RETURN_IF_NOT_status "Cannot get quantization parameter"),
             qnn_outputs)
        | (true, sc, off) =>
          let quantize_param := with_scale_offset quantize_param sc off in
          match GetOnnxShape qnn_model_wrapper (node_arg output) with
          | None =>
              (Returns (ORT_RETURN_IF_NOT_status "Cannot get shape"), qnn_outputs)
          | Some output_shape =>
            let is_graph_output := IsGraphOutput qnn_model_wrapper output_name in
            let tensor_type :=
              if is_graph_output then QNN_TENSOR_TYPE_APP_READ
              else QNN_TENSOR_TYPE_NATIVE in
            let data_format := 0 in
            let qnn_output :=
              {| tensor_name := output_name; tensor_type := tensor_type;
                 data_format := data_format; data_type := qnn_data_type;
                 quantize_params := quantize_param; shape := output_shape;
                 client_buf := [] |} in
            ProcessOutputs_loop qnn_model_wrapper is_quantized_model rest
              (output_i + 1) (qnn_outputs ++ [qnn_output])
          end
        end
      end
    else (Returns Status_OK, qnn_outputs)
  end.

(** [Status BaseOpBuilder::ProcessOutputs(qnn_model_wrapper, node_unit,
    input_names, node_params, logger, is_quantized_model, do_op_validation)] *)
Definition ProcessOutputs (qnn_model_wrapper : QnnModelWrapper) (node_unit : NodeUnit)
  (input_names : list string) (node_params : list QnnParamWrapper)
  (is_quantized_model : bool) (do_op_validation : bool) : Result * QnnModelWrapper :=
  let outputs := Outputs node_unit in
  match ProcessOutputs_loop qnn_model_wrapper is_quantized_model outputs 0 [] with
  | (Returns Status_OK, qnn_outputs) =>
    match AddNode qnn_model_wrapper (GetNodeName node_unit) qnn_def_package_name
            (GetQnnOpType (OpType node_unit)) node_params input_names qnn_outputs
            do_op_validation with
    | (false, qnn_model_wrapper) =>
        (Returns (ORT_RETURN_IF_NOT_status "Failed to add node."), qnn_model_wrapper)
    | (true, qnn_model_wrapper) => (Returns Status_OK, qnn_model_wrapper)
    end
  | (r, _) => (r, qnn_model_wrapper)
  end.

(** [Status BaseOpBuilder::ProcessAttributesAndOutputs(...)], the stage as
    the base class defines it. *)
Definition ProcessAttributesAndOutputs (qnn_model_wrapper : QnnModelWrapper)
  (node_unit : NodeUnit) (input_names : list string)
  (is_quantized_model : bool) (do_op_validation : bool) : Result * QnnModelWrapper :=
  if size input_names <? 1 then (Returns Status_OK, qnn_model_wrapper)
  else
    match ProcessOutputs qnn_model_wrapper node_unit input_names []
            is_quantized_model do_op_validation with
    | (Returns Status_OK, qnn_model_wrapper) => (Returns Status_OK, qnn_model_wrapper)
    | (r, qnn_model_wrapper) => (r, qnn_model_wrapper)
    end.

(** [Status BaseOpBuilder::ProcessAxisAttribute(qnn_model_wrapper, node_unit,
    node_params, default_axis_value)]: how it ends, [node_params] and
    [default_axis_value] as it leaves them. *)
Definition ProcessAxisAttribute (qnn_model_wrapper : QnnModelWrapper)
  (node_unit : NodeUnit) (node_params : list QnnParamWrapper)
  (default_axis_value : Z) : Result * list QnnParamWrapper * Z :=
  let inputs := Inputs node_unit in
  match inputs with
  | [] => (Undefined, node_params, default_axis_value)
  | inputs_0 :: _ =>
    match GetOnnxShape qnn_model_wrapper (node_arg inputs_0) with
    | None =>
        (Returns (ORT_RETURN_IF_NOT_status "Cannot get shape"),
         node_params, default_axis_value)
    | Some input_shape =>
      let rank := to_int32 (size input_shape) in
      let onnx_axis := NodeAttrHelper_Get node_unit "axis" default_axis_value in
      let onnx_axis :=
        if onnx_axis <? 0 then to_int32 (onnx_axis + rank) else onnx_axis in
      if (onnx_axis >=? 0) && (onnx_axis <? to_int32 (size input_shape)) then
        let default_axis_value := onnx_axis in
        let is_gather_op := bool_decide (OpType node_unit = "Gather") in
        let axis_qnn_scalar := QNN_SCALAR_INIT in
        let axis_qnn_scalar :=
          if is_gather_op then
            set_int32Value (set_dataType axis_qnn_scalar QNN_DATATYPE_INT_32) onnx_axis
          else
            set_uint32Value (set_dataType axis_qnn_scalar QNN_DATATYPE_UINT_32)
              (to_uint32 onnx_axis) in
        let axis_param :=
          {| param_name := qnn_def_axis; param_scalar := axis_qnn_scalar |} in
        (Returns Status_OK, node_params ++ [axis_param], default_axis_value)
      else
        (Throws "QNN requires axis range [0, rank-1].", node_params, default_axis_value)
    end
  end.

End Stages.

End BaseOpBuilder.

(** ** argmax_min_op_builder.cc *)

Module ArgMaxMinOpBuilder.

Section Stages.
Context `{Collaborators}.
Variable output_count_ : Z.

(** [Status ArgMaxMinOpBuilder::ProcessAttributesAndOutputs(...)] *)
Definition ProcessAttributesAndOutputs (qnn_model_wrapper : QnnModelWrapper)
  (node_unit : NodeUnit) (input_names : list string)
  (is_quantized_model : bool) (do_op_validation : bool) : Result * QnnModelWrapper :=
  let node_params : list QnnParamWrapper := [] in
  let default_axis_value := 0 in
  match BaseOpBuilder.ProcessAxisAttribute qnn_model_wrapper node_unit node_params
          default_axis_value with
  | (Returns Status_OK, node_params, default_axis_value) =>
    let select_last_index := NodeAttrHelper_Get node_unit "select_last_index" 0 in
    if negb (select_last_index =? 0) then
      (Returns (ORT_MAKE_STATUS ONNXRUNTIME FAIL
                  "QNN ArgMax/ArgMin only support select_last_index=0."),
       qnn_model_wrapper)
    else
      let onnx_keepdims := NodeAttrHelper_Get node_unit "keepdims" 1 in
      let keep_dims_scalar := QNN_SCALAR_INIT in
      let keep_dims_scalar := set_dataType keep_dims_scalar QNN_DATATYPE_BOOL_8 in
      let keep_dims_scalar :=
        set_bool8Value keep_dims_scalar
          (to_uint8 (if onnx_keepdims =? 0 then 0 else 1)) in
      let keep_dims_param :=
        {| param_name := qnn_def_keep_dims; param_scalar := keep_dims_scalar |} in
      let node_params := node_params ++ [keep_dims_param] in
      match BaseOpBuilder.ProcessOutputs output_count_ qnn_model_wrapper node_unit
              input_names node_params is_quantized_model do_op_validation with
      | (Returns Status_OK, qnn_model_wrapper) => (Returns Status_OK, qnn_model_wrapper)
      | (r, qnn_model_wrapper) => (r, qnn_model_wrapper)
      end
  | (r, _, _) => (r, qnn_model_wrapper)
  end.

End Stages.

End ArgMaxMinOpBuilder.

(** ** The translation entry points

    [ProcessAttributesAndOutputs] is virtual: a builder is its class name,
    its output count and its implementation of that stage. *)
Record OpBuilder `{Collaborators} := {
  op_builder_type_ : string;
  output_count_ : Z;
  virtual_ProcessAttributesAndOutputs :
    QnnModelWrapper -> NodeUnit -> list string -> bool -> bool -> Result * QnnModelWrapper
}.

Definition BaseOpBuilder_new `{Collaborators} (op_builder_type : string)
  (output_count : Z) : OpBuilder :=
  {| op_builder_type_ := op_builder_type;
     output_count_ := output_count;
     virtual_ProcessAttributesAndOutputs :=
       BaseOpBuilder.ProcessAttributesAndOutputs output_count |}.

Definition ArgMaxMinOpBuilder_new `{Collaborators} (output_count : Z) : OpBuilder :=
  {| op_builder_type_ := "ArgMaxMinOpBuilder";
     output_count_ := output_count;
     virtual_ProcessAttributesAndOutputs :=
       ArgMaxMinOpBuilder.ProcessAttributesAndOutputs output_count |}.

(** [std::string BaseOpBuilder::GetOpBuilderType() const] *)
Definition GetOpBuilderType `{Collaborators} (this : OpBuilder) : string :=
  op_builder_type_ this.

(** [Status BaseOpBuilder::AddToModelBuilder(qnn_model_wrapper, node_unit,
    logger, is_quantized_model, do_op_validation)] *)
Definition AddToModelBuilder `{Collaborators} (this : OpBuilder)
  (qnn_model_wrapper : QnnModelWrapper) (node_unit : NodeUnit)
  (is_quantized_model : bool) (do_op_validation : bool) : Result * QnnModelWrapper :=
  let input_names : list string := [] in
  match BaseOpBuilder.ProcessInputs qnn_model_wrapper node_unit is_quantized_model
          input_names do_op_validation with
  | (Returns Status_OK, qnn_model_wrapper, input_names) =>
    match virtual_ProcessAttributesAndOutputs this qnn_model_wrapper node_unit
            input_names is_quantized_model do_op_validation with
    | (Returns Status_OK, qnn_model_wrapper) => (Returns Status_OK, qnn_model_wrapper)
    | (r, qnn_model_wrapper) => (r, qnn_model_wrapper)
    end
  | (r, qnn_model_wrapper, _) => (r, qnn_model_wrapper)
  end.

(** [Status BaseOpBuilder::IsOpSupported(qnn_model_wrapper, node_unit, logger,
    is_quantized_model)] *)
Definition IsOpSupported `{Collaborators} (this : OpBuilder)
  (qnn_model_wrapper : QnnModelWrapper) (node_unit : NodeUnit)
  (is_quantized_model : bool) : Result * QnnModelWrapper :=
  AddToModelBuilder this qnn_model_wrapper node_unit is_quantized_model true.

(** ** Vocabulary of the properties *)

(** The classes of portable element types the design document speaks of. *)
Definition is_64bit_integer_type (t : Z) : bool :=
  (t =? TensorProto_DataType_INT64) || (t =? TensorProto_DataType_UINT64).

Definition is_boolean_type (t : Z) : bool := t =? TensorProto_DataType_BOOL.

Definition is_floating_type (t : Z) : bool :=
  (t =? TensorProto_DataType_FLOAT) || (t =? TensorProto_DataType_FLOAT16)
  || (t =? TensorProto_DataType_DOUBLE) || (t =? TensorProto_DataType_BFLOAT16).

Definition is_sub64_integer_type (t : Z) : bool :=
  (t =? TensorProto_DataType_INT8) || (t =? TensorProto_DataType_INT16)
  || (t =? TensorProto_DataType_INT32) || (t =? TensorProto_DataType_UINT8)
  || (t =? TensorProto_DataType_UINT16) || (t =? TensorProto_DataType_UINT32).

Definition is_fixed_point_type (q : Qnn_DataType_t) : bool :=
  match q with
  | QNN_DATATYPE_SFIXED_POINT_8 | QNN_DATATYPE_SFIXED_POINT_16
  | QNN_DATATYPE_SFIXED_POINT_32 | QNN_DATATYPE_UFIXED_POINT_8
  | QNN_DATATYPE_UFIXED_POINT_16 | QNN_DATATYPE_UFIXED_POINT_32 => true
  | _ => false
  end.

(** The product of the dimensions, over the integers. *)
Definition product (dims : list Z) : Z := fold_right Z.mul 1 dims.

(** A stream operation returned (it was not left by an exception). *)
Definition returns_normally (s : Stream) : Prop :=
  match s with Good _ => True | Thrown _ _ => False end.

(** The data types a descriptor makes the formatters visit: the one of a
    tensor; for a parameter the one of the member the formatter chooses; for
    an operator those of the tensors and parameters within its counts. *)
Definition tensor_data_type_listed (t : Qnn_Tensor_t) : bool :=
  listed_data_type (tensor_dataType t).

Definition param_data_type_listed (p : Qnn_Param_t) : bool :=
  if bool_decide (paramType p = QNN_PARAMTYPE_TENSOR)
  then tensor_data_type_listed (tensorParam p)
  else listed_data_type (dataType (scalarParam p)).

Definition op_config_data_types_listed (op : Qnn_OpConfig_t) : bool :=
  forallb (fun i => tensor_data_type_listed (inputTensors op i))
    (seq 0 (Z.to_nat (numOfInputs op)))
  && forallb (fun i => tensor_data_type_listed (outputTensors op i))
       (seq 0 (Z.to_nat (numOfOutputs op)))
  && forallb (fun i => param_data_type_listed (params op i))
       (seq 0 (Z.to_nat (numOfParams op))).

(** A stream operation was left by the exception "Unknown Qnn Data type". *)
Definition throws_unknown_data_type (s : Stream) : Prop :=
  exists out, s = Thrown "Unknown Qnn Data type" out.

(** The accumulator with one more tensor in its registry. *)
Definition with_model_tensor (w : QnnModelWrapper) (tensor_name : string)
  (tensor_wrapper : QnnTensorWrapper) : QnnModelWrapper :=
  {| model_tensors := <[tensor_name := tensor_wrapper]> (model_tensors w);
     initializers := initializers w;
     graph_outputs := graph_outputs w;
     op_list := op_list w |}.

(** The names of the inputs (or outputs) of a node unit, in order. *)
Definition arg_names (args : list NodeUnitIODef) : list string :=
  map (fun arg => Name (node_arg arg)) args.

(** The role an input tensor is registered with, and the role an output
    tensor is built with. *)
Definition input_role_of (w : QnnModelWrapper) (t : QnnTensorWrapper) : Prop :=
  (tensor_type t = QNN_TENSOR_TYPE_STATIC
   <-> IsInitializerInput w (tensor_name t) = true) /\
  (tensor_type t = QNN_TENSOR_TYPE_APP_WRITE
   <-> IsInitializerInput w (tensor_name t) = false).

Definition output_role_of (w : QnnModelWrapper) (t : QnnTensorWrapper) : Prop :=
  (tensor_type t = QNN_TENSOR_TYPE_APP_READ
   <-> IsGraphOutput w (tensor_name t) = true) /\
  (tensor_type t = QNN_TENSOR_TYPE_NATIVE
   <-> IsGraphOutput w (tensor_name t) = false).

(** ** One instance of the collaborators, for the examples *)

Definition sample_scalar_init : Qnn_Scalar_t :=
  {| dataType := QNN_DATATYPE_UNDEFINED; floatValue := 0; int32Value := 0;
     uint32Value := 0; int16Value := 0; uint16Value := 0; int8Value := 0;
     uint8Value := 0; bool8Value := 0 |}.

Definition sample_quantize_params_init : Qnn_QuantizeParams_t :=
  {| encodingDefinition := QNN_DEFINITION_UNDEFINED;
     quantizationEncoding := QNN_QUANTIZATION_ENCODING_UNDEFINED;
     scaleOffsetEncoding := {| scale := 0; offset := 0 |} |}.

Definition sample_collaborators : Collaborators :=
  {| qnn_def_package_name := "qti.aisw";
     qnn_def_axis := "axis";
     qnn_def_keep_dims := "keep_dims";
     QNN_QUANTIZE_PARAMS_INIT := sample_quantize_params_init;
     QNN_SCALAR_INIT := sample_scalar_init;
     InitializeQuantizeParam := fun q is_quantized_model =>
       {| encodingDefinition :=
            if is_quantized_model then QNN_DEFINITION_DEFINED
            else QNN_DEFINITION_UNDEFINED;
          quantizationEncoding :=
            if is_quantized_model then QNN_QUANTIZATION_ENCODING_SCALE_OFFSET
            else QNN_QUANTIZATION_ENCODING_UNDEFINED;
          scaleOffsetEncoding := {| scale := 0; offset := 0 |} |};
     GetOnnxShape := fun _ arg => Shape arg;
     ProcessQuantizationParameter := fun _ _ sc off => (true, sc, off);
     UnpackInitializerData := fun t => (Status_OK, tensor_raw_data t);
     GetQnnOpType := fun op_type => op_type;
     GetNodeName := fun node_unit => NodeUnit_Name node_unit;
     tensor_accepted := fun _ => true;
     operator_accepted := fun _ => true |}.

Definition float_arg (arg_name : string) (dims : list Z) : NodeUnitIODef :=
  {| node_arg :=
       {| Name := arg_name;
          TypeAsProto := Some {| has_elem_type := true;
                                 elem_type := TensorProto_DataType_FLOAT |};
          Shape := Some dims |};
     quant_param := None |}.

Definition int64_arg (arg_name : string) (dims : list Z) : NodeUnitIODef :=
  {| node_arg :=
       {| Name := arg_name;
          TypeAsProto := Some {| has_elem_type := true;
                                 elem_type := TensorProto_DataType_INT64 |};
          Shape := Some dims |};
     quant_param := None |}.

(** An ArgMax over the last axis of a rank-4 input. *)
Definition sample_argmax (select_last_index keepdims : option Z) : NodeUnit :=
  {| NodeUnit_Name := "argmax_0";
     OpType := "ArgMax";
     Inputs := [float_arg "X" [1; 3; 8; 8]];
     Outputs := [int64_arg "Y" [1; 3; 8; 1]];
     attributes :=
       let m : gmap string Z := {[ "axis" := -1 ]} in
       let m := match select_last_index with
                | Some v => <["select_last_index" := v]> m | None => m end in
       match keepdims with Some v => <["keepdims" := v]> m | None => m end |}.

(** A Gather along axis [-1] of a rank-4 input. *)
Definition sample_gather : NodeUnit :=
  {| NodeUnit_Name := "gather_0";
     OpType := "Gather";
     Inputs := [float_arg "X" [1; 3; 8; 8]; int64_arg "I" [2]];
     Outputs := [float_arg "Y" [1; 3; 8; 2]];
     attributes := {[ "axis" := -1 ]} |}.

(** A Relu node and a Sigmoid node that read the same tensor. *)
Definition sample_relu : NodeUnit :=
  {| NodeUnit_Name := "relu_0";
     OpType := "Relu";
     Inputs := [float_arg "X" [1; 3; 8; 8]];
     Outputs := [float_arg "R" [1; 3; 8; 8]];
     attributes := ∅ |}.

Definition sample_sigmoid : NodeUnit :=
  {| NodeUnit_Name := "sigmoid_0";
     OpType := "Sigmoid";
     Inputs := [float_arg "X" [1; 3; 8; 8]];
     Outputs := [float_arg "S" [1; 3; 8; 8]];
     attributes := ∅ |}.

(** An accumulator with nothing registered; ["R"] is a declared output. *)
Definition sample_wrapper : QnnModelWrapper :=
  {| model_tensors := ∅;
     initializers := ∅;
     graph_outputs := {[ "R" ]};
     op_list := [] |}.

(** The same accumulator once the inputs of the Relu node are registered. *)
Definition sample_wrapper_X : QnnModelWrapper :=
  (@BaseOpBuilder.ProcessInputs sample_collaborators sample_wrapper sample_relu
     false [] false).1.2.

(** ** The shape loop of [TransposeInitializer]

    [BaseOpBuilder::TransposeInitializer] builds the shape of the transposed
    tensor with the loop

      for (int64_t p : perm) {
        permutations.push_back(p);
        new_tensor_shape_dims.push_back(tensor_shape_dims[p]);
      }

    and hands tensors of the old and of the new shape to the framework
    ([TensorProtoToTensor], [Transpose::DoTranspose], [TensorToTensorProto],
    [UnpackInitializerData]), which is not among the sources.  The loop is
    embedded here: [permutations] and [new_tensor_shape_dims] as it leaves
    them, [None] when a subscript [tensor_shape_dims[p]] is out of range,
    which C++ leaves undefined.  An element of [perm] is a [size_t]. *)
Fixpoint TransposeInitializer_shape_loop (tensor_shape_dims : list Z) (perm : list Z)
  (permutations new_tensor_shape_dims : list Z) : option (list Z * list Z) :=
  match perm with
  | [] => Some (permutations, new_tensor_shape_dims)
  | p :: rest =>
    let p := to_int64 p in
    match (if 0 <=? p then tensor_shape_dims !! Z.to_nat p else None) with
    | Some d =>
        TransposeInitializer_shape_loop tensor_shape_dims rest
          (permutations ++ [p mod 2 ^ 64]) (new_tensor_shape_dims ++ [d])
    | None => None
    end
  end.

(** ** Further vocabulary *)

(** The portable element types that have an entry in the tables of
    [OnnxDataTypeToQnnDataType]. *)
Definition supported_onnx_type (t : Z) : bool :=
  is_sub64_integer_type t || is_64bit_integer_type t || is_boolean_type t
  || (t =? TensorProto_DataType_FLOAT) || (t =? TensorProto_DataType_FLOAT16).

(** What the client buffer formatter inserts for the words [0 .. n-1]. *)
Definition rendered_words (as_T : Z -> Z) (b : Qnn_ClientBuffer_t) (n : nat) : ostream :=
  flat_map (fun i => [T_int (as_T (data b i)); T_str " "]) (seq 0 n).

(** [perm] lists each index of a vector of [n] elements once. *)
Definition is_permutation_of_indices (perm : list Z) (n : nat) : Prop :=
  Permutation perm (map Z.of_nat (seq 0 n)).

(** A tensor name is in the registry. *)
Definition registered (w : QnnModelWrapper) (n : string) : Prop :=
  is_Some (model_tensors w !! n).

(** ** Further examples *)

(** An ArgMax over a rank-0 input. *)
Definition sample_argmax_rank_0 : NodeUnit :=
  {| NodeUnit_Name := "argmax_1";
     OpType := "ArgMax";
     Inputs := [float_arg "X0" []];
     Outputs := [int64_arg "Y0" []];
     attributes := ∅ |}.

(** A Split with three outputs, for a builder that keeps two of them; the
    third has no element type. *)
Definition untyped_arg (arg_name : string) : NodeUnitIODef :=
  {| node_arg := {| Name := arg_name; TypeAsProto := None; Shape := None |};
     quant_param := None |}.

Definition sample_split : NodeUnit :=
  {| NodeUnit_Name := "split_0";
     OpType := "Split";
     Inputs := [float_arg "X" [1; 3; 8; 8]];
     Outputs := [float_arg "A" [1; 3; 8; 4]; float_arg "R" [1; 3; 8; 4];
                 untyped_arg "C"];
     attributes := ∅ |}.

(** A Tanh that reads the output of the Relu node. *)
Definition sample_tanh : NodeUnit :=
  {| NodeUnit_Name := "tanh_0";
     OpType := "Tanh";
     Inputs := [float_arg "R" [1; 3; 8; 8]];
     Outputs := [float_arg "T" [1; 3; 8; 8]];
     attributes := ∅ |}.

(** An ArgMax with [select_last_index] 1 over axis 7 of a rank-4 input. *)
Definition sample_argmax_axis_7 : NodeUnit :=
  {| NodeUnit_Name := "argmax_2";
     OpType := "ArgMax";
     Inputs := [float_arg "X" [1; 3; 8; 8]];
     Outputs := [int64_arg "Y" [1; 3; 8; 1]];
     attributes := {[ "axis" := 7; "select_last_index" := 1 ]} |}.

(** A node unit without inputs. *)
Definition sample_constant : NodeUnit :=
  {| NodeUnit_Name := "constant_0";
     OpType := "Constant";
     Inputs := [];
     Outputs := [float_arg "K" [4]];
     attributes := ∅ |}.

(** An Add of a graph input and an input without shape. *)
Definition sample_add : NodeUnit :=
  {| NodeUnit_Name := "add_0";
     OpType := "Add";
     Inputs := [float_arg "X" [1; 3; 8; 8];
                {| node_arg :=
                     {| Name := "B";
                        TypeAsProto := Some {| has_elem_type := true;
                                               elem_type := TensorProto_DataType_FLOAT |};
                        Shape := None |};
                   quant_param := None |};
                float_arg "Z" [1]];
     Outputs := [float_arg "S" [1; 3; 8; 8]];
     attributes := ∅ |}.

(** ** qnn_execution_provider.h *)

Module QNNExecutionProvider.

(** [qnn::ProfilingLevel] *)
Inductive ProfilingLevel := OFF | BASIC | DETAILED.

(** [std::tolower] on an [unsigned char], in the "C" locale, which is the one
    a program starts in: the letters [A .. Z] go to [a .. z], every other
    character stays. *)
Definition tolower (c : ascii) : ascii :=
  let n := N_of_ascii c in
  if ((65 <=? n) && (n <=? 90))%N then ascii_of_N (n + 32) else c.

(** [std::transform(s.begin(), s.end(), s.begin(), f)] *)
Fixpoint transform (f : ascii -> ascii) (s : string) : string :=
  match s with
  | EmptyString => EmptyString
  | String c rest => String (f c) (transform f rest)
  end.

(** [void ParseProfilingLevel(std::string profiling_level_string)]: the
    value it leaves in [profiling_level_], and whether it has logged the
    warning "Profiling level not valid.". *)
Definition ParseProfilingLevel (profiling_level_string : string)
  : ProfilingLevel * bool :=
  let profiling_level_string := transform tolower profiling_level_string in
  let profiling_level_ := OFF in
  if String.eqb profiling_level_string "off" then (OFF, false)
  else if String.eqb profiling_level_string "basic" then (BASIC, false)
  else if String.eqb profiling_level_string "detailed" then (DETAILED, false)
  else (profiling_level_, true).

End QNNExecutionProvider.

(** A character is the lower-case letter [l] or its capital. *)
Definition letter_matches (c l : ascii) : bool :=
  Ascii.eqb c l || (N_of_ascii c + 32 =? N_of_ascii l)%N.

(** A string spells [pattern], capitals and small letters taken alike. *)
Fixpoint matches_ignoring_case (s pattern : string) : bool :=
  match s, pattern with
  | EmptyString, EmptyString => true
  | String c s', String l pattern' =>
      letter_matches c l && matches_ignoring_case s' pattern'
  | _, _ => false
  end.

Definition is_lower_case_letter (l : ascii) : Prop :=
  (97 <= N_of_ascii l <= 122)%N.

Fixpoint lower_case_word (pattern : string) : Prop :=
  match pattern with
  | EmptyString => True
  | String l pattern' => is_lower_case_letter l /\ lower_case_word pattern'
  end.

(** * Properties *)

Lemma accumulate_multiplies_mod (dims : list Z) (acc : Z) :
  utils.accumulate dims (to_uint32 acc) utils.multiplies_uint32
  = (acc * product dims) mod 2 ^ 32.
Proof.
  unfold utils.accumulate. revert acc.
  induction dims as [|d dims IH]; intros acc; simpl.
  - unfold to_uint32. f_equal. lia.
  - change (utils.multiplies_uint32 (to_uint32 acc) d)
      with (to_uint32 (to_uint32 acc * d)).
    rewrite IH. unfold to_uint32.
    rewrite <- Z.mul_assoc, Z.mul_mod_idemp_l by lia.
    reflexivity.
Qed.

(** C9. [GetDataSize] returns 0 for the empty list; for a non-empty list it
    returns the product of the dimensions reduced modulo 2^32 (the product is
    formed in [uint32_t] before it is widened to [int64_t]), so it differs from
    the element count as soon as that count reaches 2^32. *)
Theorem GetDataSize_uint32_product (dims : list Z) :
  (dims = [] -> utils.GetDataSize dims = 0) /\
  (dims <> [] -> utils.GetDataSize dims = product dims mod 2 ^ 32) /\
  (dims <> [] -> 2 ^ 32 <= product dims -> utils.GetDataSize dims <> product dims).
Proof.
  assert (Hne : dims <> [] -> utils.GetDataSize dims = product dims mod 2 ^ 32).
  { intros Hd. unfold utils.GetDataSize, size.
    destruct dims as [|d dims]; [congruence|].
    replace (Z.of_nat (length (d :: dims)) =? 0) with false
      by (symmetry; apply Z.eqb_neq; simpl; lia).
    rewrite accumulate_multiplies_mod. rewrite Z.mul_1_l.
    unfold to_int64.
    pose proof (Z.mod_pos_bound (product (d :: dims)) (2 ^ 32) ltac:(lia)) as Hb.
    rewrite Z.mod_small by lia. lia. }
  split; [|split].
  - intros ->. reflexivity.
  - exact Hne.
  - intros Hd Hbig. rewrite (Hne Hd).
    pose proof (Z.mod_pos_bound (product dims) (2 ^ 32) ltac:(lia)). lia.
Qed.

Lemma GetDataSize_uint32_product_witness :
  utils.GetDataSize [65536; 65536] = 0 /\
  utils.GetDataSize [65536; 65536] <> product [65536; 65536].
Proof.
  pose proof (GetDataSize_uint32_product [65536; 65536]) as (_ & Hmod & Hdiff).
  split.
  - rewrite Hmod by discriminate. reflexivity.
  - apply Hdiff; [discriminate | vm_compute; discriminate].
Defined.

(** ** Fixed-width conversions *)

Lemma to_int32_id (z : Z) : is_int32 z -> to_int32 z = z.
Proof.
  unfold is_int32, to_int32. intros Hz.
  rewrite Z.mod_small by lia. lia.
Qed.

Lemma to_int32_range (z : Z) : is_int32 (to_int32 z).
Proof.
  unfold is_int32, to_int32.
  pose proof (Z.mod_pos_bound (z + 2 ^ 31) (2 ^ 32) ltac:(lia)). lia.
Qed.

Lemma to_uint32_id (z : Z) : is_uint32 z -> to_uint32 z = z.
Proof. unfold is_uint32, to_uint32. intros Hz. apply Z.mod_small. lia. Qed.

Lemma NodeAttrHelper_Get_int32 (node_unit : NodeUnit) (key : string) (def_val : Z) :
  is_int32 def_val -> is_int32 (NodeAttrHelper_Get node_unit key def_val).
Proof.
  intros Hd. unfold NodeAttrHelper_Get.
  destruct (attributes node_unit !! key); [apply to_int32_range | exact Hd].
Qed.

(** ** The element type tables *)

(** C2. The quantized and the plain mapping of [OnnxDataTypeToQnnDataType]
    give the same answer on the 64-bit integer types, on the boolean type and
    on the floating-point types; whenever they differ the portable type is an
    integer type below 64 bits, and on those the quantized table gives a
    fixed-point accelerator type where the plain table gives an integer
    one. *)
Theorem OnnxDataTypeToQnnDataType_quantized_vs_plain (t : Z) (q0 : Qnn_DataType_t) :
  let quantized := BaseOpBuilder.OnnxDataTypeToQnnDataType t q0 true in
  let plain := BaseOpBuilder.OnnxDataTypeToQnnDataType t q0 false in
  (is_64bit_integer_type t || is_boolean_type t || is_floating_type t = true ->
   quantized = plain) /\
  (quantized <> plain -> is_sub64_integer_type t = true) /\
  (is_sub64_integer_type t = true ->
   exists q p, quantized = (true, q) /\ plain = (true, p) /\
               is_fixed_point_type q = true /\ is_fixed_point_type p = false).
Proof.
  cbv zeta.
  unfold BaseOpBuilder.OnnxDataTypeToQnnDataType, BaseOpBuilder.do_type_mapping,
    BaseOpBuilder.onnx_to_qnn_data_type_quantized,
    BaseOpBuilder.onnx_to_qnn_data_type,
    is_64bit_integer_type, is_boolean_type, is_floating_type, is_sub64_integer_type.
  unfold TensorProto_DataType_INT8, TensorProto_DataType_INT16,
    TensorProto_DataType_INT32, TensorProto_DataType_INT64,
    TensorProto_DataType_UINT8, TensorProto_DataType_UINT16,
    TensorProto_DataType_UINT32, TensorProto_DataType_UINT64,
    TensorProto_DataType_FLOAT16, TensorProto_DataType_FLOAT,
    TensorProto_DataType_BOOL, TensorProto_DataType_DOUBLE,
    TensorProto_DataType_BFLOAT16.
  cbn [utils.find].
  repeat case_decide; subst; cbn;
    (split; [| split]);
    intros Hc; try done;
    try (eexists _, _; repeat split; reflexivity);
    exfalso;
    try (rewrite ?orb_true_iff, ?Z.eqb_eq in Hc; lia).
Qed.

Lemma OnnxDataTypeToQnnDataType_quantized_vs_plain_witness :
  BaseOpBuilder.OnnxDataTypeToQnnDataType TensorProto_DataType_INT64
    QNN_DATATYPE_FLOAT_32 true
  = BaseOpBuilder.OnnxDataTypeToQnnDataType TensorProto_DataType_INT64
      QNN_DATATYPE_FLOAT_32 false
  /\ is_sub64_integer_type TensorProto_DataType_INT8 = true
  /\ exists q p,
      BaseOpBuilder.OnnxDataTypeToQnnDataType TensorProto_DataType_INT8
        QNN_DATATYPE_FLOAT_32 true = (true, q)
      /\ BaseOpBuilder.OnnxDataTypeToQnnDataType TensorProto_DataType_INT8
           QNN_DATATYPE_FLOAT_32 false = (true, p)
      /\ is_fixed_point_type q = true /\ is_fixed_point_type p = false.
Proof.
  split; [|split].
  - apply (OnnxDataTypeToQnnDataType_quantized_vs_plain
             TensorProto_DataType_INT64 QNN_DATATYPE_FLOAT_32).
    reflexivity.
  - apply (OnnxDataTypeToQnnDataType_quantized_vs_plain
             TensorProto_DataType_INT8 QNN_DATATYPE_FLOAT_32).
    discriminate.
  - apply (OnnxDataTypeToQnnDataType_quantized_vs_plain
             TensorProto_DataType_INT8 QNN_DATATYPE_FLOAT_32).
    reflexivity.
Defined.

(** ** Axis normalization *)

Section AxisAttribute.
Context `{Collaborators}.

(** What [ProcessAxisAttribute] does once the shape of the first input is
    known, with the rank and the attribute as it reads them. *)
Lemma ProcessAxisAttribute_unfold (w : QnnModelWrapper) (nu : NodeUnit)
  (node_params : list QnnParamWrapper) (default_axis_value : Z)
  (inputs_0 : NodeUnitIODef) (rest : list NodeUnitIODef) (input_shape : list Z) :
  Inputs nu = inputs_0 :: rest ->
  GetOnnxShape w (node_arg inputs_0) = Some input_shape ->
  let R := to_int32 (size input_shape) in
  let a := NodeAttrHelper_Get nu "axis" default_axis_value in
  let onnx_axis := if a <? 0 then to_int32 (a + R) else a in
  BaseOpBuilder.ProcessAxisAttribute w nu node_params default_axis_value
  = if (onnx_axis >=? 0) && (onnx_axis <? R) then
      (Returns Status_OK,
       node_params ++
         [ {| param_name := qnn_def_axis;
              param_scalar :=
                if bool_decide (OpType nu = "Gather") then
                  set_int32Value (set_dataType QNN_SCALAR_INIT QNN_DATATYPE_INT_32)
                    onnx_axis
                else
                  set_uint32Value (set_dataType QNN_SCALAR_INIT QNN_DATATYPE_UINT_32)
                    (to_uint32 onnx_axis) |} ],
       onnx_axis)
    else (Throws "QNN requires axis range [0, rank-1].", node_params,
          default_axis_value).
Proof.
  intros Hin Hshape. cbv zeta.
  unfold BaseOpBuilder.ProcessAxisAttribute. rewrite Hin, Hshape.
  reflexivity.
Qed.

(** C1. For an input of rank [R >= 1] and the axis attribute value [a] (the
    caller's default when the node has no such attribute),
    [ProcessAxisAttribute] adds [R] to a negative [a]; for [a] in
    [[-R, R-1]] the result lies in [[0, R-1]], the call succeeds and hands the
    normalized value back through [default_axis_value]; for [a] outside that
    range the call is left by the exception of [ORT_ENFORCE]; axis [-1] on
    rank 4 gives 3. *)
Theorem ProcessAxisAttribute_normalizes (w : QnnModelWrapper) (nu : NodeUnit)
  (node_params : list QnnParamWrapper) (default_axis_value : Z)
  (inputs_0 : NodeUnitIODef) (rest : list NodeUnitIODef) (input_shape : list Z) :
  Inputs nu = inputs_0 :: rest ->
  GetOnnxShape w (node_arg inputs_0) = Some input_shape ->
  is_int32 default_axis_value ->
  let R := to_int32 (size input_shape) in
  let a := NodeAttrHelper_Get nu "axis" default_axis_value in
  let normalized := if a <? 0 then a + R else a in
  1 <= R ->
  (attributes nu !! "axis" = None -> a = default_axis_value) /\
  (- R <= a <= R - 1 ->
   0 <= normalized <= R - 1 /\
   exists axis_param,
     BaseOpBuilder.ProcessAxisAttribute w nu node_params default_axis_value
     = (Returns Status_OK, node_params ++ [axis_param], normalized)) /\
  (a < - R \/ R - 1 < a ->
   BaseOpBuilder.ProcessAxisAttribute w nu node_params default_axis_value
   = (Throws "QNN requires axis range [0, rank-1].", node_params,
      default_axis_value)) /\
  (R = 4 -> a = -1 ->
   snd (BaseOpBuilder.ProcessAxisAttribute w nu node_params default_axis_value) = 3).
Proof.
  intros Hin Hshape Hd R a normalized HR.
  pose proof (ProcessAxisAttribute_unfold w nu node_params default_axis_value
                inputs_0 rest input_shape Hin Hshape) as Hrun.
  cbv zeta in Hrun. fold R a in Hrun.
  pose proof (to_int32_range (size input_shape)) as HRr. fold R in HRr.
  pose proof (NodeAttrHelper_Get_int32 nu "axis" default_axis_value Hd) as Ha.
  fold a in Ha. unfold is_int32 in HRr, Ha.
  assert (Hnorm : (if a <? 0 then to_int32 (a + R) else a) = normalized).
  { unfold normalized. destruct (Z.ltb_spec a 0); [|reflexivity].
    apply to_int32_id. unfold is_int32. lia. }
  rewrite Hnorm in Hrun.
  split; [|split; [|split]].
  - intros Hnone. unfold a, NodeAttrHelper_Get. rewrite Hnone. reflexivity.
  - intros Hrange.
    assert (Hn : 0 <= normalized <= R - 1).
    { unfold normalized. destruct (Z.ltb_spec a 0); lia. }
    split; [exact Hn|].
    rewrite Hrun.
    replace ((normalized >=? 0) && (normalized <? R)) with true
      by (symmetry; apply andb_true_iff; split; [apply Z.geb_le | apply Z.ltb_lt]; lia).
    eexists. reflexivity.
  - intros Hout. rewrite Hrun.
    replace ((normalized >=? 0) && (normalized <? R)) with false; [reflexivity|].
    symmetry. apply andb_false_iff. unfold normalized.
    destruct (Z.ltb_spec a 0).
    + left. rewrite Z.geb_leb. apply Z.leb_gt. lia.
    + right. apply Z.ltb_ge. lia.
  - intros HR4 Ha1. rewrite Hrun.
    assert (Hn : normalized = 3).
    { unfold normalized. rewrite Ha1, HR4. reflexivity. }
    rewrite Hn, HR4. reflexivity.
Qed.

End AxisAttribute.

Lemma ProcessAxisAttribute_normalizes_witness :
  snd (@BaseOpBuilder.ProcessAxisAttribute sample_collaborators sample_wrapper
         (sample_argmax None None) [] 0) = 3
  /\ exists axis_param,
       @BaseOpBuilder.ProcessAxisAttribute sample_collaborators sample_wrapper
         (sample_argmax None None) [] 0
       = (Returns Status_OK, [] ++ [axis_param], 3).
Proof.
  pose proof (@ProcessAxisAttribute_normalizes sample_collaborators sample_wrapper
                (sample_argmax None None) [] 0
                (float_arg "X" [1; 3; 8; 8]) [] [1; 3; 8; 8]
                eq_refl eq_refl ltac:(unfold is_int32; lia)
                ltac:(vm_compute; discriminate)) as (_ & Hin & _ & H3).
  split.
  - apply H3; reflexivity.
  - apply Hin. vm_compute. split; discriminate.
Defined.

(** ** The shared output stage *)

Section OutputStage.
Context `{Collaborators}.
Variable output_count : Z.

(** [ORT_RETURN_IF_ERROR(f(...)); return Status::OK();] ends as [f] ends. *)
Lemma return_if_error_then_ok (run : Result * QnnModelWrapper) :
  match run with
  | (Returns Status_OK, w) => (Returns Status_OK, w)
  | (r, w) => (r, w)
  end = run.
Proof. destruct run as [[[| ? ? ?] | ? |] w]; reflexivity. Qed.

(** The registry after the outputs of an operator are taken in: what was
    registered stays as it was, and every output name is registered, under a
    descriptor of the operator that carries the name when it is new. *)
Lemma register_outputs_keep (outs : list QnnTensorWrapper) :
  forall (m : gmap string QnnTensorWrapper) (n : string) (t : QnnTensorWrapper),
  m !! n = Some t -> register_outputs m outs !! n = Some t.
Proof.
  unfold register_outputs.
  induction outs as [|o outs IH]; intros m n t Hsome; [exact Hsome|].
  cbn [fold_left]. apply IH.
  destruct (m !! tensor_name o) eqn:Ho; [exact Hsome|].
  rewrite lookup_insert_ne; [exact Hsome|]. intros Heq. congruence.
Qed.

Lemma register_outputs_new (outs : list QnnTensorWrapper) :
  forall (m : gmap string QnnTensorWrapper) (n : string),
  m !! n = None -> In n (map tensor_name outs) ->
  exists t, register_outputs m outs !! n = Some t /\ In t outs /\ tensor_name t = n.
Proof.
  unfold register_outputs.
  induction outs as [|o outs IH]; intros m n Hnone Hin; [destruct Hin|].
  cbn [fold_left].
  destruct (decide (tensor_name o = n)) as [Heq | Hne].
  - subst n. rewrite Hnone. exists o.
    split; [|split; [left; reflexivity | reflexivity]].
    apply (register_outputs_keep outs). apply lookup_insert_eq.
  - destruct Hin as [Heq | Hin]; [congruence|].
    assert (Hstill : (match m !! tensor_name o with
                      | Some _ => m
                      | None => <[tensor_name o := o]> m
                      end) !! n = None).
    { destruct (m !! tensor_name o); [exact Hnone|].
      rewrite lookup_insert_ne; assumption. }
    destruct (IH _ n Hstill Hin) as (t & Hlook & Ht & Hname).
    exists t. split; [exact Hlook|]. split; [right; exact Ht | exact Hname].
Qed.

(** A successful [ProcessOutputs] leaves the initializers and the declared
    outputs as they were; in a persisting build it appends one operator that
    carries the given parameters and input names and the outputs its loop
    built, and takes these outputs into the tensor registry; in a validating
    run it appends and registers nothing. *)
Lemma ProcessOutputs_success (w w' : QnnModelWrapper) (nu : NodeUnit)
  (names : list string) (node_params : list QnnParamWrapper)
  (is_quantized_model do_op_validation : bool) :
  BaseOpBuilder.ProcessOutputs output_count w nu names node_params
    is_quantized_model do_op_validation = (Returns Status_OK, w') ->
  exists qnn_outputs,
    BaseOpBuilder.ProcessOutputs_loop output_count w is_quantized_model
      (Outputs nu) 0 [] = (Returns Status_OK, qnn_outputs) /\
    model_tensors w' =
      (if do_op_validation then model_tensors w
       else register_outputs (model_tensors w) qnn_outputs) /\
    initializers w' = initializers w /\
    graph_outputs w' = graph_outputs w /\
    op_list w' =
      if do_op_validation then op_list w
      else op_list w ++
           [ {| node_name := GetNodeName nu;
                package_name := qnn_def_package_name;
                node_type := GetQnnOpType (OpType nu);
                node_params := node_params;
                input_names := names;
                outputs := qnn_outputs |} ].
Proof.
  unfold BaseOpBuilder.ProcessOutputs.
  destruct (BaseOpBuilder.ProcessOutputs_loop output_count w is_quantized_model
              (Outputs nu) 0 []) as [r qnn_outputs].
  destruct r as [[| c e m] | what |]; try discriminate.
  unfold AddNode.
  destruct (forallb (QnnContainsTensor w) names && operator_accepted _);
    [|discriminate].
  destruct do_op_validation; intros Heq; injection Heq as <-;
    exists qnn_outputs; repeat split; reflexivity.
Qed.

(** C7. The stage [ProcessAttributesAndOutputs] as the base class defines
    it: with no resolved input name it returns OK and leaves the accumulator
    as it was (no operator, no tensor); otherwise it is [ProcessOutputs]
    called with an empty parameter list. *)
Theorem ProcessAttributesAndOutputs_default (w : QnnModelWrapper) (nu : NodeUnit)
  (names : list string) (is_quantized_model do_op_validation : bool) :
  (names = [] ->
   BaseOpBuilder.ProcessAttributesAndOutputs output_count w nu names
     is_quantized_model do_op_validation = (Returns Status_OK, w)) /\
  (names <> [] ->
   BaseOpBuilder.ProcessAttributesAndOutputs output_count w nu names
     is_quantized_model do_op_validation
   = BaseOpBuilder.ProcessOutputs output_count w nu names []
       is_quantized_model do_op_validation).
Proof.
  unfold BaseOpBuilder.ProcessAttributesAndOutputs. split.
  - intros ->. reflexivity.
  - intros Hne.
    replace (size names <? 1) with false.
    + apply return_if_error_then_ok.
    + symmetry. apply Z.ltb_ge. unfold size.
      destruct names; [congruence | simpl; lia].
Qed.

(** What the ArgMax/ArgMin stage does after a successful
    [ProcessAxisAttribute]. *)
Lemma ArgMaxMin_after_axis (w : QnnModelWrapper) (nu : NodeUnit)
  (names : list string) (is_quantized_model do_op_validation : bool)
  (axis_params : list QnnParamWrapper) (axis : Z) :
  BaseOpBuilder.ProcessAxisAttribute w nu [] 0 = (Returns Status_OK, axis_params, axis) ->
  ArgMaxMinOpBuilder.ProcessAttributesAndOutputs output_count w nu names
    is_quantized_model do_op_validation
  = if negb (NodeAttrHelper_Get nu "select_last_index" 0 =? 0) then
      (Returns (Status_Error ONNXRUNTIME FAIL
                  "QNN ArgMax/ArgMin only support select_last_index=0."), w)
    else
      BaseOpBuilder.ProcessOutputs output_count w nu names
        (axis_params ++
           [ {| param_name := qnn_def_keep_dims;
                param_scalar :=
                  set_bool8Value
                    (set_dataType QNN_SCALAR_INIT QNN_DATATYPE_BOOL_8)
                    (to_uint8 (if NodeAttrHelper_Get nu "keepdims" 1 =? 0
                               then 0 else 1)) |} ])
        is_quantized_model do_op_validation.
Proof.
  intros Haxis. unfold ArgMaxMinOpBuilder.ProcessAttributesAndOutputs.
  rewrite Haxis. cbv zeta.
  destruct (negb (NodeAttrHelper_Get nu "select_last_index" 0 =? 0)); [reflexivity|].
  apply return_if_error_then_ok.
Qed.

(** With a [select_last_index] other than 0 the ArgMax/ArgMin stage does not
    return OK, whatever [ProcessAxisAttribute] does before the check. *)
Lemma ArgMaxMin_stage_not_ok (w : QnnModelWrapper) (nu : NodeUnit)
  (names : list string) (is_quantized_model do_op_validation : bool) :
  NodeAttrHelper_Get nu "select_last_index" 0 <> 0 ->
  (ArgMaxMinOpBuilder.ProcessAttributesAndOutputs output_count w nu names
     is_quantized_model do_op_validation).1 <> Returns Status_OK.
Proof.
  intros Hsli.
  destruct (BaseOpBuilder.ProcessAxisAttribute w nu [] 0) as [[r ps] ax] eqn:Haxis.
  destruct r as [[| c e m] | what |].
  - rewrite (ArgMaxMin_after_axis _ _ _ _ _ _ _ Haxis).
    replace (NodeAttrHelper_Get nu "select_last_index" 0 =? 0) with false
      by (symmetry; apply Z.eqb_neq; exact Hsli).
    discriminate.
  - unfold ArgMaxMinOpBuilder.ProcessAttributesAndOutputs. rewrite Haxis.
    discriminate.
  - unfold ArgMaxMinOpBuilder.ProcessAttributesAndOutputs. rewrite Haxis.
    discriminate.
  - unfold ArgMaxMinOpBuilder.ProcessAttributesAndOutputs. rewrite Haxis.
    discriminate.
Qed.

(** C4, as the code has it.  The ArgMax/ArgMin stage normalizes the axis
    before it looks at [select_last_index].  For a node unit whose axis
    attribute is accepted, a [select_last_index] other than 0 makes the stage
    return the status FAIL "QNN ArgMax/ArgMin only support
    select_last_index=0." with the accumulator untouched, whereas the value
    0, which is also what an absent attribute reads as, lets the stage go on
    to [ProcessOutputs].  When the axis is not accepted the stage ends as
    [ProcessAxisAttribute] ends, whatever [select_last_index] is.  In every
    case a [select_last_index] other than 0 keeps the stage and
    [AddToModelBuilder] from returning OK. *)
Theorem ArgMaxMin_select_last_index (w : QnnModelWrapper) (nu : NodeUnit)
  (names : list string) (is_quantized_model do_op_validation : bool) :
  let select_last_index := NodeAttrHelper_Get nu "select_last_index" 0 in
  let run := ArgMaxMinOpBuilder.ProcessAttributesAndOutputs output_count w nu
               names is_quantized_model do_op_validation in
  (attributes nu !! "select_last_index" = None -> select_last_index = 0) /\
  (select_last_index <> 0 ->
   run.1 <> Returns Status_OK /\
   (AddToModelBuilder (ArgMaxMinOpBuilder_new output_count) w nu
      is_quantized_model do_op_validation).1 <> Returns Status_OK) /\
  (forall axis_params axis,
     BaseOpBuilder.ProcessAxisAttribute w nu [] 0
     = (Returns Status_OK, axis_params, axis) ->
     (select_last_index <> 0 ->
      run = (Returns (ORT_MAKE_STATUS ONNXRUNTIME FAIL
                        "QNN ArgMax/ArgMin only support select_last_index=0."), w)) /\
     (select_last_index = 0 ->
      exists keep_dims_param,
        run = BaseOpBuilder.ProcessOutputs output_count w nu names
                (axis_params ++ [keep_dims_param])
                is_quantized_model do_op_validation)) /\
  (forall r axis_params axis,
     BaseOpBuilder.ProcessAxisAttribute w nu [] 0 = (r, axis_params, axis) ->
     r <> Returns Status_OK ->
     run = (r, w)).
Proof.
  cbv zeta. split; [|split; [|split]].
  - intros Hnone. unfold NodeAttrHelper_Get. rewrite Hnone. reflexivity.
  - intros Hsli. split; [apply ArgMaxMin_stage_not_ok; exact Hsli|].
    unfold AddToModelBuilder.
    destruct (BaseOpBuilder.ProcessInputs w nu is_quantized_model []
                do_op_validation) as [[r w1] names1].
    destruct r as [[| c e m] | what |]; try (cbn; discriminate).
    cbn [virtual_ProcessAttributesAndOutputs ArgMaxMinOpBuilder_new].
    pose proof (ArgMaxMin_stage_not_ok w1 nu names1 is_quantized_model
                  do_op_validation Hsli) as Hstage.
    rewrite return_if_error_then_ok. exact Hstage.
  - intros axis_params axis Haxis.
    rewrite (ArgMaxMin_after_axis _ _ _ _ _ _ _ Haxis).
    split; intros Hsli.
    + replace (NodeAttrHelper_Get nu "select_last_index" 0 =? 0) with false
        by (symmetry; apply Z.eqb_neq; exact Hsli).
      reflexivity.
    + rewrite Hsli. eexists. reflexivity.
  - intros r axis_params axis Haxis Hr.
    unfold ArgMaxMinOpBuilder.ProcessAttributesAndOutputs. rewrite Haxis.
    destruct r as [[| c e m] | what |]; [congruence | reflexivity ..].
Qed.

(** C10. For an ArgMax/ArgMin node whose axis attribute is accepted and
    whose [select_last_index] reads 0, the stage calls [ProcessOutputs] with
    the axis parameter followed by a parameter named [qnn_def::keep_dims]: a
    scalar of data type [QNN_DATATYPE_BOOL_8] whose [bool8Value] is 0 exactly
    when [keepdims] reads 0 and 1 for every other value, in particular when
    the attribute is absent (it then reads as 1); in a persisting build that
    succeeds, these are the parameters of the operator appended. *)
Theorem ArgMaxMin_keep_dims (w : QnnModelWrapper) (nu : NodeUnit)
  (names : list string) (is_quantized_model do_op_validation : bool)
  (axis_params : list QnnParamWrapper) (axis : Z) :
  BaseOpBuilder.ProcessAxisAttribute w nu [] 0 = (Returns Status_OK, axis_params, axis) ->
  NodeAttrHelper_Get nu "select_last_index" 0 = 0 ->
  let keepdims := NodeAttrHelper_Get nu "keepdims" 1 in
  let run := ArgMaxMinOpBuilder.ProcessAttributesAndOutputs output_count w nu
               names is_quantized_model do_op_validation in
  exists keep_dims_param,
    run = BaseOpBuilder.ProcessOutputs output_count w nu names
            (axis_params ++ [keep_dims_param]) is_quantized_model do_op_validation /\
    param_name keep_dims_param = qnn_def_keep_dims /\
    dataType (param_scalar keep_dims_param) = QNN_DATATYPE_BOOL_8 /\
    (bool8Value (param_scalar keep_dims_param) = 0 <-> keepdims = 0) /\
    (keepdims <> 0 -> bool8Value (param_scalar keep_dims_param) = 1) /\
    (attributes nu !! "keepdims" = None ->
     bool8Value (param_scalar keep_dims_param) = 1) /\
    (do_op_validation = false -> fst run = Returns Status_OK ->
     exists op, op_list (snd run) = op_list w ++ [op] /\
                node_params op = axis_params ++ [keep_dims_param]).
Proof.
  intros Haxis Hsli. cbv zeta.
  rewrite (ArgMaxMin_after_axis _ _ _ _ _ _ _ Haxis), Hsli.
  change (negb (0 =? 0)) with false. cbv iota.
  eexists. split; [reflexivity|].
  split; [reflexivity|]. split; [reflexivity|]. cbn.
  split; [|split; [|split]].
  - destruct (Z.eqb_spec (NodeAttrHelper_Get nu "keepdims" 1) 0) as [->|Hne];
      split; intros; try reflexivity; try done.
  - intros Hne.
    destruct (Z.eqb_spec (NodeAttrHelper_Get nu "keepdims" 1) 0); [done|reflexivity].
  - intros Hnone. unfold NodeAttrHelper_Get. rewrite Hnone. reflexivity.
  - intros -> Hok.
    match goal with
    | |- context [BaseOpBuilder.ProcessOutputs ?c ?w0 ?n ?ns ?ps ?q false] =>
        destruct (BaseOpBuilder.ProcessOutputs c w0 n ns ps q false)
          as [r w'] eqn:Hrun
    end.
    simpl in Hok. subst r.
    apply ProcessOutputs_success in Hrun as (outs & _ & _ & _ & _ & Hops).
    eexists. split; [exact Hops | reflexivity].
Qed.

End OutputStage.

Lemma ProcessAttributesAndOutputs_default_witness :
  @BaseOpBuilder.ProcessAttributesAndOutputs sample_collaborators 1 sample_wrapper_X
    sample_relu [] false false = (Returns Status_OK, sample_wrapper_X)
  /\ @BaseOpBuilder.ProcessAttributesAndOutputs sample_collaborators 1
       sample_wrapper_X sample_relu ["X"] false false
     = @BaseOpBuilder.ProcessOutputs sample_collaborators 1 sample_wrapper_X
         sample_relu ["X"] [] false false.
Proof.
  split.
  - apply (@ProcessAttributesAndOutputs_default sample_collaborators 1
             sample_wrapper_X sample_relu [] false false).
    reflexivity.
  - apply (@ProcessAttributesAndOutputs_default sample_collaborators 1
             sample_wrapper_X sample_relu ["X"] false false).
    discriminate.
Defined.

Lemma ArgMaxMin_select_last_index_witness :
  @ArgMaxMinOpBuilder.ProcessAttributesAndOutputs sample_collaborators 1
    sample_wrapper_X (sample_argmax (Some 1) None) ["X"] false false
  = (Returns (ORT_MAKE_STATUS ONNXRUNTIME FAIL
                "QNN ArgMax/ArgMin only support select_last_index=0."),
     sample_wrapper_X)
  /\ exists keep_dims_param,
      @ArgMaxMinOpBuilder.ProcessAttributesAndOutputs sample_collaborators 1
        sample_wrapper_X (sample_argmax None None) ["X"] false false
      = @BaseOpBuilder.ProcessOutputs sample_collaborators 1 sample_wrapper_X
          (sample_argmax None None) ["X"]
          ((@BaseOpBuilder.ProcessAxisAttribute sample_collaborators
              sample_wrapper_X (sample_argmax None None) [] 0).1.2
           ++ [keep_dims_param]) false false.
Proof.
  pose proof (@ArgMaxMin_select_last_index sample_collaborators 1 sample_wrapper_X
                (sample_argmax (Some 1) None) ["X"] false false)
    as (_ & _ & Hrejected & _).
  pose proof (@ArgMaxMin_select_last_index sample_collaborators 1 sample_wrapper_X
                (sample_argmax None None) ["X"] false false)
    as (_ & _ & Haccepted & _).
  split.
  - destruct (Hrejected _ 3 eq_refl) as [Hfail _].
    apply Hfail. vm_compute. discriminate.
  - destruct (Haccepted _ 3 eq_refl) as [_ Hgo].
    apply Hgo. reflexivity.
Defined.

Lemma ArgMaxMin_keep_dims_witness :
  exists keep_dims_param,
    dataType (param_scalar keep_dims_param) = QNN_DATATYPE_BOOL_8 /\
    bool8Value (param_scalar keep_dims_param) = 0 /\
    exists op,
      op_list (@ArgMaxMinOpBuilder.ProcessAttributesAndOutputs sample_collaborators
                 1 sample_wrapper_X (sample_argmax None (Some 0)) ["X"]
                 false false).2
      = op_list sample_wrapper_X ++ [op] /\
      In keep_dims_param (node_params op).
Proof.
  destruct (@ArgMaxMin_keep_dims sample_collaborators 1 sample_wrapper_X
              (sample_argmax None (Some 0)) ["X"] false false _ 3
              eq_refl eq_refl)
    as (kdp & _ & _ & Hdt & H0 & _ & _ & Hop).
  exists kdp. split; [exact Hdt|]. split; [apply H0; reflexivity|].
  destruct (Hop eq_refl eq_refl) as (op & Hops & Hparams).
  exists op. split; [exact Hops|].
  rewrite Hparams. apply in_or_app. right. left. reflexivity.
Defined.

(** C4 as it is stated fails: with [select_last_index] 1 and axis 7 on a
    rank-4 input, the stage and [AddToModelBuilder] are left by the exception
    of [ORT_ENFORCE] in [ProcessAxisAttribute]; the status that names
    [select_last_index] is not returned. *)
Lemma select_last_index_error_counterexample :
  NodeAttrHelper_Get sample_argmax_axis_7 "select_last_index" 0 = 1 /\
  (@ArgMaxMinOpBuilder.ProcessAttributesAndOutputs sample_collaborators 1
     sample_wrapper_X sample_argmax_axis_7 ["X"] false false).1
  = Throws "QNN requires axis range [0, rank-1]." /\
  (@AddToModelBuilder sample_collaborators
     (@ArgMaxMinOpBuilder_new sample_collaborators 1)
     sample_wrapper sample_argmax_axis_7 false false).1
  = Throws "QNN requires axis range [0, rank-1]." /\
  (@ArgMaxMinOpBuilder.ProcessAttributesAndOutputs sample_collaborators 1
     sample_wrapper_X sample_argmax_axis_7 ["X"] false false).1
  <> Returns (ORT_MAKE_STATUS ONNXRUNTIME FAIL
                "QNN ArgMax/ArgMin only support select_last_index=0.").
Proof.
  split; [reflexivity|]. split; [reflexivity|]. split; [reflexivity|].
  discriminate.
Qed.

(** ** The axis parameter of an operator *)

Section AxisParameter.
Context `{Collaborators}.

(** C5. For a node unit whose axis attribute [a] passes normalization on a
    first input of rank [R], [ProcessAxisAttribute] appends one parameter,
    named [qnn_def::axis], that carries the normalized axis ([a + R] for a
    negative [a], [a] otherwise): as the [int32Value] of a scalar of data
    type [QNN_DATATYPE_INT_32] when the op type is "Gather", as the
    [uint32Value] of a scalar of data type [QNN_DATATYPE_UINT_32] for every
    other op type.  [ProcessOutputs] attaches the parameters it is given to
    the operator it appends, and so does the ArgMax/ArgMin stage, which puts
    the axis parameter first. *)
Theorem ProcessAxisAttribute_axis_param (w : QnnModelWrapper) (nu : NodeUnit)
  (params : list QnnParamWrapper) (default_axis_value : Z)
  (inputs_0 : NodeUnitIODef) (rest : list NodeUnitIODef) (input_shape : list Z) :
  Inputs nu = inputs_0 :: rest ->
  GetOnnxShape w (node_arg inputs_0) = Some input_shape ->
  is_int32 default_axis_value ->
  let R := to_int32 (size input_shape) in
  let a := NodeAttrHelper_Get nu "axis" default_axis_value in
  let normalized := if a <? 0 then a + R else a in
  - R <= a <= R - 1 ->
  exists axis_param,
    BaseOpBuilder.ProcessAxisAttribute w nu params default_axis_value
    = (Returns Status_OK, params ++ [axis_param], normalized) /\
    param_name axis_param = qnn_def_axis /\
    (OpType nu = "Gather" ->
     dataType (param_scalar axis_param) = QNN_DATATYPE_INT_32 /\
     int32Value (param_scalar axis_param) = normalized) /\
    (OpType nu <> "Gather" ->
     dataType (param_scalar axis_param) = QNN_DATATYPE_UINT_32 /\
     uint32Value (param_scalar axis_param) = normalized) /\
    (forall output_count names later_params is_quantized_model w',
       BaseOpBuilder.ProcessOutputs output_count w nu names
         (params ++ [axis_param] ++ later_params) is_quantized_model false
       = (Returns Status_OK, w') ->
       exists op,
         op_list w' = op_list w ++ [op] /\
         node_params op = params ++ [axis_param] ++ later_params) /\
    (forall output_count names is_quantized_model w',
       params = [] -> default_axis_value = 0 ->
       ArgMaxMinOpBuilder.ProcessAttributesAndOutputs output_count w nu names
         is_quantized_model false = (Returns Status_OK, w') ->
       exists op keep_dims_param,
         op_list w' = op_list w ++ [op] /\
         node_params op = [axis_param; keep_dims_param]).
Proof.
  intros Hin Hshape Hd R a normalized Hrange.
  pose proof (ProcessAxisAttribute_unfold w nu params default_axis_value
                inputs_0 rest input_shape Hin Hshape) as Hrun.
  cbv zeta in Hrun. fold R a in Hrun.
  pose proof (to_int32_range (size input_shape)) as HRr. fold R in HRr.
  pose proof (NodeAttrHelper_Get_int32 nu "axis" default_axis_value Hd) as Ha.
  fold a in Ha. unfold is_int32 in HRr, Ha.
  assert (Hnorm : (if a <? 0 then to_int32 (a + R) else a) = normalized).
  { unfold normalized. destruct (Z.ltb_spec a 0); [|reflexivity].
    apply to_int32_id. unfold is_int32. lia. }
  rewrite Hnorm in Hrun.
  assert (Hn : 0 <= normalized <= R - 1).
  { unfold normalized. destruct (Z.ltb_spec a 0); lia. }
  replace ((normalized >=? 0) && (normalized <? R)) with true in Hrun
    by (symmetry; apply andb_true_iff; split; [apply Z.geb_le | apply Z.ltb_lt]; lia).
  eexists. split; [exact Hrun|]. split; [reflexivity|]. cbn [param_scalar].
  split; [|split; [|split]].
  - intros Hop. rewrite bool_decide_eq_true_2 by exact Hop. split; reflexivity.
  - intros Hop. rewrite bool_decide_eq_false_2 by exact Hop.
    split; [reflexivity|]. cbn. apply to_uint32_id. unfold is_uint32. lia.
  - intros output_count names later_params is_quantized_model w' Hout.
    apply ProcessOutputs_success in Hout as (outs & _ & _ & _ & _ & Hops).
    eexists. split; [exact Hops | reflexivity].
  - intros output_count names is_quantized_model w' -> -> Hstage.
    cbn [app] in Hrun.
    rewrite (ArgMaxMin_after_axis _ _ _ _ _ _ _ _ Hrun) in Hstage.
    destruct (negb (NodeAttrHelper_Get nu "select_last_index" 0 =? 0));
      [discriminate|].
    apply ProcessOutputs_success in Hstage as (outs & _ & _ & _ & _ & Hops).
    eexists _, _. split; [exact Hops | reflexivity].
Qed.

End AxisParameter.

Lemma ProcessAxisAttribute_axis_param_witness :
  (exists axis_param,
     @BaseOpBuilder.ProcessAxisAttribute sample_collaborators sample_wrapper_X
       sample_gather [] 0 = (Returns Status_OK, [] ++ [axis_param], 3) /\
     dataType (param_scalar axis_param) = QNN_DATATYPE_INT_32 /\
     int32Value (param_scalar axis_param) = 3) /\
  (exists axis_param op keep_dims_param,
     @BaseOpBuilder.ProcessAxisAttribute sample_collaborators sample_wrapper_X
       (sample_argmax None None) [] 0 = (Returns Status_OK, [] ++ [axis_param], 3) /\
     dataType (param_scalar axis_param) = QNN_DATATYPE_UINT_32 /\
     uint32Value (param_scalar axis_param) = 3 /\
     op_list (@ArgMaxMinOpBuilder.ProcessAttributesAndOutputs sample_collaborators
                1 sample_wrapper_X (sample_argmax None None) ["X"] false false).2
     = op_list sample_wrapper_X ++ [op] /\
     node_params op = [axis_param; keep_dims_param]).
Proof.
  split.
  - destruct (@ProcessAxisAttribute_axis_param sample_collaborators sample_wrapper_X
                sample_gather [] 0 (float_arg "X" [1; 3; 8; 8])
                [int64_arg "I" [2]] [1; 3; 8; 8]
                eq_refl eq_refl ltac:(unfold is_int32; lia)
                ltac:(vm_compute; split; discriminate))
      as (axis_param & Hrun & _ & Hgather & _).
    exists axis_param. split; [exact Hrun|]. apply Hgather. reflexivity.
  - destruct (@ProcessAxisAttribute_axis_param sample_collaborators sample_wrapper_X
                (sample_argmax None None) [] 0 (float_arg "X" [1; 3; 8; 8])
                [] [1; 3; 8; 8]
                eq_refl eq_refl ltac:(unfold is_int32; lia)
                ltac:(vm_compute; split; discriminate))
      as (axis_param & Hrun & _ & _ & Hother & _ & Hstage).
    destruct (@ArgMaxMinOpBuilder.ProcessAttributesAndOutputs sample_collaborators
                1 sample_wrapper_X (sample_argmax None None) ["X"] false false)
      as [r w'] eqn:Hpao.
    assert (Hr : r = Returns Status_OK) by (vm_compute in Hpao; congruence).
    subst r.
    destruct (Hstage 1 ["X"] false w' eq_refl eq_refl Hpao)
      as (op & keep_dims_param & Hops & Hparams).
    exists axis_param, op, keep_dims_param.
    split; [exact Hrun|].
    destruct (Hother ltac:(discriminate)) as [Hdt Hval].
    split; [exact Hdt|]. split; [exact Hval|]. split; [exact Hops | exact Hparams].
Defined.

(** ** The shared input stage *)

Section InputStage.
Context `{Collaborators}.

Lemma QnnContainsTensor_true (w : QnnModelWrapper) (n : string) :
  QnnContainsTensor w n = true <-> is_Some (model_tensors w !! n).
Proof. unfold QnnContainsTensor. apply bool_decide_eq_true. Qed.

Lemma QnnContainsTensor_false (w : QnnModelWrapper) (n : string) :
  QnnContainsTensor w n = false <-> model_tensors w !! n = None.
Proof.
  unfold QnnContainsTensor. rewrite bool_decide_eq_false.
  rewrite eq_None_not_Some. reflexivity.
Qed.

(** The two ways [AddTensor] answers for a name that is not registered. *)
Lemma AddTensor_fresh (w : QnnModelWrapper) (n : string) (t : QnnTensorWrapper) :
  QnnContainsTensor w n = false ->
  AddTensor w n t = (true, with_model_tensor w n t) \/ AddTensor w n t = (false, w).
Proof.
  intros Hfresh. unfold AddTensor. rewrite Hfresh.
  destruct (tensor_accepted t); [left | right]; reflexivity.
Qed.

(** One round of the loop of [ProcessInputs]: it leaves the function with an
    error before the name is pushed, or after it is pushed (a rejected
    [AddTensor]); or the name is registered already and the round only pushes
    the name; or the round registers a descriptor of that name, with the role
    STATIC or APP_WRITE, and pushes the name. *)
Lemma ProcessInputs_loop_round (is_quantized_model : bool) (input : NodeUnitIODef)
  (rest : list NodeUnitIODef) (w : QnnModelWrapper) (names : list string)
  (quantize_param : Qnn_QuantizeParams_t) (qnn_data_type : Qnn_DataType_t) :
  let n := Name (node_arg input) in
  let run := BaseOpBuilder.ProcessInputs_loop is_quantized_model (input :: rest) w
               names quantize_param qnn_data_type in
  (exists r names', r <> Returns Status_OK /\ run = (r, w, names')) \/
  (QnnContainsTensor w n = true /\
   run = BaseOpBuilder.ProcessInputs_loop is_quantized_model rest w
           (names ++ [n]) quantize_param qnn_data_type) \/
  (exists t quantize_param' qnn_data_type',
     QnnContainsTensor w n = false /\
     tensor_name t = n /\
     tensor_type t = (if IsInitializerInput w n then QNN_TENSOR_TYPE_STATIC
                      else QNN_TENSOR_TYPE_APP_WRITE) /\
     run = BaseOpBuilder.ProcessInputs_loop is_quantized_model rest
             (with_model_tensor w n t) (names ++ [n])
             quantize_param' qnn_data_type').
Proof.
  cbv zeta. cbn [BaseOpBuilder.ProcessInputs_loop].
  destruct (QnnContainsTensor w (Name (node_arg input))) eqn:Hpresent.
  { right. left. split; reflexivity. }
  destruct (BaseOpBuilder.GetQnnDataType is_quantized_model
              (TypeAsProto (node_arg input)) qnn_data_type) as [[| c e m] dt'].
  2: { left. eexists _, _. split; [|reflexivity]. discriminate. }
  destruct (GetOnnxShape w (node_arg input)) as [input_shape|].
  2: { left. eexists _, _. split; [|reflexivity]. discriminate. }
  destruct (ProcessQuantizationParameter w (quant_param input)
              (scale (scaleOffsetEncoding quantize_param))
              (offset (scaleOffsetEncoding quantize_param))) as [[[|] sc] off].
  2: { left. eexists _, _. split; [|reflexivity]. discriminate. }
  cbv zeta.
  match goal with
  | |- context [match ?u with inl _ => _ | inr _ => _ end] =>
      destruct u as [r | unpacked_tensor] eqn:Hunpacked
  end.
  { left. exists r, names. split; [|reflexivity].
    destruct (IsInitializerInput w (Name (node_arg input))); [|discriminate].
    destruct (GetInitializerTensors w !! Name (node_arg input)) as [tp|].
    - destruct (UnpackInitializerData tp) as [[| c e m] bytes];
        [discriminate|].
      injection Hunpacked as <-. discriminate.
    - injection Hunpacked as <-. discriminate. }
  match goal with
  | |- context [AddTensor w ?n ?t] =>
      destruct (AddTensor_fresh w n t Hpresent) as [-> | ->]
  end.
  - right. right. eexists _, _, _.
    split; [reflexivity|].
    split; [| split; [| reflexivity]]; reflexivity.
  - left. eexists _, _. split; [|reflexivity]. discriminate.
Qed.

(** What a run of the loop of [ProcessInputs] leaves behind, however it
    ends: initializers, declared outputs and operators are untouched; a
    descriptor that was registered stays as it was; a descriptor that is new
    carries its name and the role STATIC or APP_WRITE; and when the loop ends
    with OK, every input name has been pushed, in order, and is registered. *)
Lemma ProcessInputs_loop_effect (is_quantized_model : bool)
  (inputs : list NodeUnitIODef) :
  forall (w : QnnModelWrapper) (names : list string)
    (quantize_param : Qnn_QuantizeParams_t) (qnn_data_type : Qnn_DataType_t)
    (r : Result) (w' : QnnModelWrapper) (names' : list string),
  BaseOpBuilder.ProcessInputs_loop is_quantized_model inputs w names
    quantize_param qnn_data_type = (r, w', names') ->
  initializers w' = initializers w /\
  graph_outputs w' = graph_outputs w /\
  op_list w' = op_list w /\
  (forall n t, model_tensors w !! n = Some t -> model_tensors w' !! n = Some t) /\
  (forall n t, model_tensors w !! n = None -> model_tensors w' !! n = Some t ->
     tensor_name t = n /\
     tensor_type t = (if IsInitializerInput w n then QNN_TENSOR_TYPE_STATIC
                      else QNN_TENSOR_TYPE_APP_WRITE)) /\
  (r = Returns Status_OK ->
   names' = names ++ arg_names inputs /\
   Forall (fun n => QnnContainsTensor w' n = true) (arg_names inputs)).
Proof.
  induction inputs as [|input rest IH]; intros w names qp dt r w' names' Hrun.
  - cbn in Hrun. injection Hrun as <- <- <-.
    split; [reflexivity|]. split; [reflexivity|]. split; [reflexivity|].
    split; [intros n t Hsome; exact Hsome|].
    split; [intros n t Hnone Hsome; congruence|].
    intros _. split; [rewrite app_nil_r; reflexivity | constructor].
  - destruct (ProcessInputs_loop_round is_quantized_model input rest w names qp dt)
      as [(r0 & names0 & Hr0 & Hstop) | [(Hpresent & Hskip)
         | (t & qp' & dt' & Hfresh & Hname & Hrole & Hadd)]];
      cbv zeta in *.
    + rewrite Hstop in Hrun. injection Hrun as <- <- <-.
      split; [reflexivity|]. split; [reflexivity|]. split; [reflexivity|].
      split; [intros n t Hsome; exact Hsome|].
      split; [intros n t Hnone Hsome; congruence|].
      intros Hok. congruence.
    + rewrite Hskip in Hrun.
      destruct (IH _ _ _ _ _ _ _ Hrun) as (Hi & Hg & Ho & Hkeep & Hnew & Hok).
      split; [exact Hi|]. split; [exact Hg|]. split; [exact Ho|].
      split; [exact Hkeep|]. split; [exact Hnew|].
      intros Hr. destruct (Hok Hr) as [-> Hall]. split.
      * cbn. rewrite <- app_assoc. reflexivity.
      * cbn. constructor; [|exact Hall].
        apply QnnContainsTensor_true in Hpresent as [t Ht].
        apply QnnContainsTensor_true. exists t. apply Hkeep. exact Ht.
    + rewrite Hadd in Hrun.
      apply QnnContainsTensor_false in Hfresh.
      destruct (IH _ _ _ _ _ _ _ Hrun) as (Hi & Hg & Ho & Hkeep & Hnew & Hok).
      cbn [with_model_tensor initializers graph_outputs op_list model_tensors]
        in Hi, Hg, Ho, Hkeep, Hnew.
      split; [exact Hi|]. split; [exact Hg|]. split; [exact Ho|].
      split; [|split].
      * intros n t0 Hsome. apply Hkeep.
        rewrite lookup_insert_ne; [exact Hsome|]. congruence.
      * intros n t0 Hnone Hsome.
        destruct (decide (Name (node_arg input) = n)) as [Heq|Hne].
        -- subst n.
           assert (Ht : model_tensors w' !! Name (node_arg input) = Some t)
             by (apply Hkeep; apply lookup_insert_eq).
           rewrite Ht in Hsome. injection Hsome as <-.
           split; assumption.
        -- assert (Hinit : IsInitializerInput
                             (with_model_tensor w (Name (node_arg input)) t) n
                           = IsInitializerInput w n) by reflexivity.
           rewrite <- Hinit. apply Hnew; [|exact Hsome].
           rewrite lookup_insert_ne; assumption.
      * intros Hr. destruct (Hok Hr) as [-> Hall]. split.
        -- cbn. rewrite <- app_assoc. reflexivity.
        -- cbn. constructor; [|exact Hall].
           apply QnnContainsTensor_true. exists t.
           apply Hkeep. apply lookup_insert_eq.
Qed.

(** When every input name is registered already, the loop ends with OK, the
    accumulator is the one it started from, and the names are pushed in
    order. *)
Lemma ProcessInputs_loop_all_registered (is_quantized_model : bool)
  (inputs : list NodeUnitIODef) (w : QnnModelWrapper) :
  Forall (fun n => QnnContainsTensor w n = true) (arg_names inputs) ->
  forall (names : list string) (quantize_param : Qnn_QuantizeParams_t)
    (qnn_data_type : Qnn_DataType_t),
  BaseOpBuilder.ProcessInputs_loop is_quantized_model inputs w names
    quantize_param qnn_data_type
  = (Returns Status_OK, w, names ++ arg_names inputs).
Proof.
  induction inputs as [|input rest IH]; intros Hall names qp dt.
  - cbn. rewrite app_nil_r. reflexivity.
  - cbn in Hall. apply Forall_cons in Hall as [Hhead Htail].
    cbn [BaseOpBuilder.ProcessInputs_loop]. rewrite Hhead.
    rewrite (IH Htail). cbn. rewrite <- app_assoc. reflexivity.
Qed.

End InputStage.

(** ** Idempotent registration and roles *)

Section Registry.
Context `{Collaborators}.

Lemma ProcessOutputs_loop_roles (output_count : Z) (w : QnnModelWrapper)
  (is_quantized_model : bool) (outs : list NodeUnitIODef) :
  forall (output_i : Z) (acc : list QnnTensorWrapper) (r : Result)
    (qnn_outputs : list QnnTensorWrapper),
  BaseOpBuilder.ProcessOutputs_loop output_count w is_quantized_model outs
    output_i acc = (r, qnn_outputs) ->
  Forall (output_role_of w) acc ->
  Forall (output_role_of w) qnn_outputs.
Proof.
  induction outs as [|output rest IH]; intros output_i acc r qnn_outputs Hrun Hacc.
  - cbn in Hrun. injection Hrun as <- <-. exact Hacc.
  - cbn [BaseOpBuilder.ProcessOutputs_loop] in Hrun.
    destruct (output_i <? output_count);
      [|injection Hrun as <- <-; exact Hacc].
    cbv zeta in Hrun.
    destruct (BaseOpBuilder.GetQnnDataType is_quantized_model
                (TypeAsProto (node_arg output)) QNN_DATATYPE_FLOAT_32)
      as [[| c e m] dt']; [|injection Hrun as <- <-; exact Hacc].
    destruct (ProcessQuantizationParameter w (quant_param output) _ _)
      as [[[|] sc] off]; [|injection Hrun as <- <-; exact Hacc].
    destruct (GetOnnxShape w (node_arg output)) as [output_shape|];
      [|injection Hrun as <- <-; exact Hacc].
    apply IH in Hrun; [exact Hrun|].
    apply Forall_app. split; [exact Hacc|].
    constructor; [|constructor].
    unfold output_role_of. cbn.
    destruct (IsGraphOutput w (Name (node_arg output))); split; split;
      intros; try reflexivity; discriminate.
Qed.

(** The loop of [ProcessOutputs] from output [output_i] on: when it ends
    with OK it has appended one descriptor for each of the next
    [output_count - output_i] outputs, as far as there are that many, named
    after them in order, without data. *)
Lemma ProcessOutputs_loop_names (output_count : Z) (w : QnnModelWrapper)
  (is_quantized_model : bool) (outs : list NodeUnitIODef) :
  forall (output_i : Z) (acc qnn_outputs : list QnnTensorWrapper),
  BaseOpBuilder.ProcessOutputs_loop output_count w is_quantized_model outs
    output_i acc = (Returns Status_OK, qnn_outputs) ->
  exists built,
    qnn_outputs = acc ++ built /\
    map tensor_name built = take (Z.to_nat (output_count - output_i)) (arg_names outs) /\
    Forall (fun t => client_buf t = [] /\ data_format t = 0) built.
Proof.
  induction outs as [|output rest IH]; intros output_i acc qnn_outputs Hrun.
  - cbn in Hrun. injection Hrun as <-. exists [].
    split; [rewrite app_nil_r; reflexivity|].
    split; [destruct (Z.to_nat (output_count - output_i)); reflexivity
           | constructor].
  - cbn [BaseOpBuilder.ProcessOutputs_loop] in Hrun.
    destruct (Z.ltb_spec output_i output_count) as [Hlt | Hge].
    2: { injection Hrun as <-. exists [].
         split; [rewrite app_nil_r; reflexivity|].
         replace (Z.to_nat (output_count - output_i)) with 0%nat by lia.
         split; [reflexivity | constructor]. }
    cbv zeta in Hrun.
    destruct (BaseOpBuilder.GetQnnDataType is_quantized_model
                (TypeAsProto (node_arg output)) QNN_DATATYPE_FLOAT_32)
      as [[| c e m] dt']; [|discriminate].
    destruct (ProcessQuantizationParameter w (quant_param output) _ _)
      as [[[|] sc] off]; [|discriminate].
    destruct (GetOnnxShape w (node_arg output)) as [output_shape|]; [|discriminate].
    apply IH in Hrun as (built & -> & Hnames & Hplain).
    eexists (_ :: built). split; [rewrite <- app_assoc; reflexivity|].
    split.
    + replace (Z.to_nat (output_count - output_i))
        with (S (Z.to_nat (output_count - (output_i + 1)))) by lia.
      cbn. rewrite Hnames. reflexivity.
    + constructor; [split; reflexivity | exact Hplain].
Qed.

(** C3. On the inputs: a tensor that [ProcessInputs] newly registers
    carries the role STATIC if and only if its name is an initializer of the
    graph, and APP_WRITE otherwise, and a call that returns OK has registered
    every input of the node unit that was not registered before, under its
    name and with that role.  On the outputs: the loop of [ProcessOutputs]
    builds one descriptor for each of the first [output_count_] outputs of
    the node unit, under its name, with the role APP_READ if and only if the
    name is a declared graph output, and NATIVE otherwise; a persisting build
    appends the operator with exactly these outputs and enters them in the
    registry, where a later [ProcessInputs] leaves them as they are. *)
Theorem tensor_role_assignment (output_count : Z) (w : QnnModelWrapper)
  (nu : NodeUnit) (is_quantized_model do_op_validation : bool) :
  (forall names n t,
     model_tensors w !! n = None ->
     model_tensors (BaseOpBuilder.ProcessInputs w nu is_quantized_model names
                      do_op_validation).1.2 !! n = Some t ->
     tensor_name t = n /\ input_role_of w t) /\
  (forall names n,
     (BaseOpBuilder.ProcessInputs w nu is_quantized_model names
        do_op_validation).1.1 = Returns Status_OK ->
     In n (arg_names (Inputs nu)) ->
     model_tensors w !! n = None ->
     exists t,
       model_tensors (BaseOpBuilder.ProcessInputs w nu is_quantized_model names
                        do_op_validation).1.2 !! n = Some t /\
       tensor_name t = n /\ input_role_of w t) /\
  (forall r qnn_outputs,
     BaseOpBuilder.ProcessOutputs_loop output_count w is_quantized_model
       (Outputs nu) 0 [] = (r, qnn_outputs) ->
     Forall (output_role_of w) qnn_outputs) /\
  (forall qnn_outputs,
     BaseOpBuilder.ProcessOutputs_loop output_count w is_quantized_model
       (Outputs nu) 0 [] = (Returns Status_OK, qnn_outputs) ->
     map tensor_name qnn_outputs
     = take (Z.to_nat output_count) (arg_names (Outputs nu))) /\
  (forall names node_params w',
     BaseOpBuilder.ProcessOutputs output_count w nu names node_params
       is_quantized_model false = (Returns Status_OK, w') ->
     exists op,
       op_list w' = op_list w ++ [op] /\
       map tensor_name (outputs op)
       = take (Z.to_nat output_count) (arg_names (Outputs nu)) /\
       Forall (output_role_of w) (outputs op) /\
       (forall n,
          In n (take (Z.to_nat output_count) (arg_names (Outputs nu))) ->
          model_tensors w !! n = None ->
          exists t, model_tensors w' !! n = Some t /\ In t (outputs op) /\
                    tensor_name t = n /\ output_role_of w t) /\
       (forall nu2 is_quantized_model2 do_op_validation2 names2 n t,
          model_tensors w' !! n = Some t ->
          model_tensors (BaseOpBuilder.ProcessInputs w' nu2 is_quantized_model2
                           names2 do_op_validation2).1.2 !! n = Some t)).
Proof.
  assert (Hrole : forall n t,
             tensor_name t = n ->
             tensor_type t = (if IsInitializerInput w n then QNN_TENSOR_TYPE_STATIC
                              else QNN_TENSOR_TYPE_APP_WRITE) ->
             input_role_of w t).
  { intros n t Hname Hrole. unfold input_role_of. rewrite Hname, Hrole.
    destruct (IsInitializerInput w n); split; split;
      intros; try reflexivity; discriminate. }
  split; [|split; [|split; [|split]]].
  - intros names n t Hnone Hsome.
    unfold BaseOpBuilder.ProcessInputs in Hsome.
    match type of Hsome with
    | context [BaseOpBuilder.ProcessInputs_loop ?q ?i ?w0 ?ns ?qp ?dt] =>
        destruct (BaseOpBuilder.ProcessInputs_loop q i w0 ns qp dt)
          as [[r w'] names'] eqn:Hrun
    end.
    cbn in Hsome.
    apply ProcessInputs_loop_effect in Hrun as (_ & _ & _ & _ & Hnew & _).
    destruct (Hnew n t Hnone Hsome) as [Hname Htype].
    split; [exact Hname | exact (Hrole n t Hname Htype)].
  - intros names n. unfold BaseOpBuilder.ProcessInputs.
    match goal with
    | |- context [BaseOpBuilder.ProcessInputs_loop ?q ?i ?w0 ?ns ?qp ?dt] =>
        destruct (BaseOpBuilder.ProcessInputs_loop q i w0 ns qp dt)
          as [[r w'] names'] eqn:Hrun
    end.
    cbn [fst snd]. intros Hr Hin Hnone.
    apply ProcessInputs_loop_effect in Hrun as (_ & _ & _ & _ & Hnew & Hok).
    destruct (Hok Hr) as [_ Hall].
    rewrite Forall_forall in Hall.
    specialize (Hall n (proj2 (list_elem_of_In _ _) Hin)).
    apply QnnContainsTensor_true in Hall as [t Ht].
    exists t. split; [exact Ht|].
    destruct (Hnew n t Hnone Ht) as [Hname Htype].
    split; [exact Hname | exact (Hrole n t Hname Htype)].
  - intros r qnn_outputs Hrun.
    apply (ProcessOutputs_loop_roles _ _ _ _ _ _ _ _ Hrun). constructor.
  - intros qnn_outputs Hrun.
    apply ProcessOutputs_loop_names in Hrun as (built & -> & Hnames & _).
    rewrite Z.sub_0_r in Hnames. exact Hnames.
  - intros names node_params w' Hrun.
    apply ProcessOutputs_success in Hrun
      as (outs & Hloop & Htensors & _ & _ & Hops).
    pose proof (ProcessOutputs_loop_roles _ _ _ _ _ _ _ _ Hloop
                  (List.Forall_nil _)) as Hroles.
    pose proof Hloop as Hnames.
    apply ProcessOutputs_loop_names in Hnames as (built & -> & Hnames & _).
    rewrite Z.sub_0_r in Hnames. cbn [app] in *.
    eexists. split; [exact Hops|]. cbn [outputs].
    split; [exact Hnames|]. split; [exact Hroles|]. split.
    + intros n Hin Hnone. rewrite <- Hnames in Hin.
      destruct (register_outputs_new built (model_tensors w) n Hnone Hin)
        as (t & Hlook & Ht & Hname).
      exists t. rewrite Htensors. split; [exact Hlook|].
      split; [exact Ht|]. split; [exact Hname|].
      rewrite Forall_forall in Hroles. apply Hroles.
      apply list_elem_of_In. exact Ht.
    + intros nu2 isq2 val2 names2 n t Hsome.
      unfold BaseOpBuilder.ProcessInputs.
      match goal with
      | |- context [BaseOpBuilder.ProcessInputs_loop ?q ?i ?w0 ?ns ?qp ?dt] =>
          destruct (BaseOpBuilder.ProcessInputs_loop q i w0 ns qp dt)
            as [[r2 w2] names2'] eqn:Hrun2
      end.
      cbn [fst snd].
      apply ProcessInputs_loop_effect in Hrun2 as (_ & _ & _ & Hkeep & _).
      apply Hkeep. exact Hsome.
Qed.

(** C6. An input whose name is in the tensor registry already is not
    registered again: the round of the loop of [ProcessInputs] leaves the
    accumulator as it is and pushes the name; over the whole call every
    descriptor that was registered stays as it was, and a call that returns
    OK has pushed every input name in order.  A node all of whose inputs are
    registered succeeds with the accumulator unchanged, so a node that shares
    its inputs with a node translated before it succeeds as well. *)
Theorem ProcessInputs_registered_input (w : QnnModelWrapper) (nu : NodeUnit)
  (is_quantized_model do_op_validation : bool) (names : list string) :
  let run := BaseOpBuilder.ProcessInputs w nu is_quantized_model names
               do_op_validation in
  (forall input rest w0 names0 quantize_param qnn_data_type,
     QnnContainsTensor w0 (Name (node_arg input)) = true ->
     BaseOpBuilder.ProcessInputs_loop is_quantized_model (input :: rest) w0 names0
       quantize_param qnn_data_type
     = BaseOpBuilder.ProcessInputs_loop is_quantized_model rest w0
         (names0 ++ [Name (node_arg input)]) quantize_param qnn_data_type) /\
  (forall n t, model_tensors w !! n = Some t ->
               model_tensors run.1.2 !! n = Some t) /\
  (run.1.1 = Returns Status_OK -> run.2 = names ++ arg_names (Inputs nu)) /\
  (Forall (fun n => QnnContainsTensor w n = true) (arg_names (Inputs nu)) ->
   run = (Returns Status_OK, w, names ++ arg_names (Inputs nu))) /\
  (forall nu2 is_quantized_model2 do_op_validation2 names2,
     run.1.1 = Returns Status_OK ->
     incl (arg_names (Inputs nu2)) (arg_names (Inputs nu)) ->
     BaseOpBuilder.ProcessInputs run.1.2 nu2 is_quantized_model2 names2
       do_op_validation2
     = (Returns Status_OK, run.1.2, names2 ++ arg_names (Inputs nu2))).
Proof.
  cbv zeta.
  remember (BaseOpBuilder.ProcessInputs w nu is_quantized_model names
              do_op_validation) as run eqn:Hrun.
  destruct run as [[r w'] names']. symmetry in Hrun.
  unfold BaseOpBuilder.ProcessInputs in Hrun.
  cbn [fst snd].
  pose proof (ProcessInputs_loop_effect _ _ _ _ _ _ _ _ _ Hrun)
    as (_ & _ & _ & Hkeep & _ & Hok).
  split; [|split; [|split; [|split]]].
  - intros input rest w0 names0 qp dt Hpresent.
    cbn [BaseOpBuilder.ProcessInputs_loop]. rewrite Hpresent. reflexivity.
  - exact Hkeep.
  - intros Hr. apply Hok. exact Hr.
  - intros Hall.
    rewrite ProcessInputs_loop_all_registered in Hrun by exact Hall.
    symmetry. exact Hrun.
  - intros nu2 isq2 val2 names2 Hr Hincl.
    unfold BaseOpBuilder.ProcessInputs.
    apply ProcessInputs_loop_all_registered.
    destruct (Hok Hr) as [_ Hall].
    rewrite Forall_forall in Hall |- *.
    intros n Hn. apply Hall.
    apply list_elem_of_In. apply Hincl. apply list_elem_of_In. exact Hn.
Qed.

End Registry.

Lemma tensor_role_assignment_witness :
  (exists t, model_tensors sample_wrapper_X !! "X" = Some t /\
             tensor_type t = QNN_TENSOR_TYPE_APP_WRITE) /\
  (exists op t,
     op_list (@BaseOpBuilder.ProcessOutputs sample_collaborators 1 sample_wrapper_X
                sample_relu ["X"] [] false false).2
     = op_list sample_wrapper_X ++ [op] /\
     map tensor_name (outputs op) = ["R"] /\
     model_tensors
       (@BaseOpBuilder.ProcessInputs sample_collaborators
          (@BaseOpBuilder.ProcessOutputs sample_collaborators 1 sample_wrapper_X
             sample_relu ["X"] [] false false).2
          sample_tanh false [] false).1.2 !! "R" = Some t /\
     tensor_type t = QNN_TENSOR_TYPE_APP_READ).
Proof.
  pose proof (@tensor_role_assignment sample_collaborators 1 sample_wrapper
                sample_relu false false) as (_ & Hinputs & _).
  pose proof (@tensor_role_assignment sample_collaborators 1 sample_wrapper_X
                sample_relu false false) as (_ & _ & _ & _ & Houtputs).
  split.
  - destruct (Hinputs [] "X" eq_refl ltac:(left; reflexivity) eq_refl)
      as (t & Hlook & Hname & _ & Hwrite).
    exists t. split; [exact Hlook|].
    apply Hwrite. rewrite Hname. reflexivity.
  - destruct (@BaseOpBuilder.ProcessOutputs sample_collaborators 1 sample_wrapper_X
                sample_relu ["X"] [] false false) as [r w'] eqn:Hrun.
    assert (Hr : r = Returns Status_OK) by (vm_compute in Hrun; congruence).
    subst r.
    destruct (Houtputs ["X"] [] w' Hrun)
      as (op & Hops & Hnames & _ & Hregistered & Hlater).
    destruct (Hregistered "R" ltac:(left; reflexivity) eq_refl)
      as (t & Hlook & _ & Hname & Hread & _).
    exists op, t. split; [exact Hops|]. split; [exact Hnames|].
    split; [apply Hlater; exact Hlook|].
    apply Hread. rewrite Hname. reflexivity.
Defined.

Lemma ProcessInputs_registered_input_witness :
  @BaseOpBuilder.ProcessInputs sample_collaborators sample_wrapper_X sample_sigmoid
    false [] false
  = (Returns Status_OK, sample_wrapper_X, [] ++ arg_names (Inputs sample_sigmoid)).
Proof.
  pose proof (@ProcessInputs_registered_input sample_collaborators sample_wrapper
                sample_relu false false []) as (_ & _ & _ & _ & Hshare).
  apply (Hshare sample_sigmoid false false []).
  - reflexivity.
  - intros n Hn. exact Hn.
Defined.

(** ** The diagnostic formatters *)

Lemma and_then_thrown (s : Stream) (k : ostream -> Stream) :
  throws_unknown_data_type s -> throws_unknown_data_type (s >>> k).
Proof. intros [out ->]. exists out. reflexivity. Qed.

Lemma operator_ltlt_Qnn_Definition_t_label (out : ostream) (d : Qnn_Definition_t) :
  exists label, utils.operator_ltlt_Qnn_Definition_t out d = Good (out ++ [T_str label]).
Proof. destruct d; eexists; reflexivity. Qed.

Lemma operator_ltlt_Qnn_QuantizationEncoding_t_label (out : ostream)
  (e : Qnn_QuantizationEncoding_t) :
  exists label,
    utils.operator_ltlt_Qnn_QuantizationEncoding_t out e = Good (out ++ [T_str label]).
Proof. destruct e; eexists; reflexivity. Qed.

Lemma operator_ltlt_Qnn_TensorType_t_label (out : ostream) (t : Qnn_TensorType_t) :
  exists label, utils.operator_ltlt_Qnn_TensorType_t out t = Good (out ++ [T_str label]).
Proof. destruct t; eexists; reflexivity. Qed.

Lemma operator_ltlt_Qnn_TensorMemType_t_label (out : ostream) (m : Qnn_TensorMemType_t) :
  exists label,
    utils.operator_ltlt_Qnn_TensorMemType_t out m = Good (out ++ [T_str label]).
Proof. destruct m; eexists; reflexivity. Qed.

Lemma operator_ltlt_Qnn_ParamType_t_label (out : ostream) (p : Qnn_ParamType_t) :
  exists label, utils.operator_ltlt_Qnn_ParamType_t out p = Good (out ++ [T_str label]).
Proof. destruct p; eexists; reflexivity. Qed.

Lemma operator_ltlt_Qnn_DataType_t_listed (out : ostream) (t : Qnn_DataType_t) :
  listed_data_type t = true ->
  exists label, utils.operator_ltlt_Qnn_DataType_t out t = Good (out ++ [T_str label]).
Proof. destruct t; intros Hl; try discriminate; eexists; reflexivity. Qed.

Lemma operator_ltlt_Qnn_DataType_t_unlisted (out : ostream) (t : Qnn_DataType_t) :
  listed_data_type t = false ->
  utils.operator_ltlt_Qnn_DataType_t out t = Thrown "Unknown Qnn Data type" out.
Proof. destruct t; intros Hl; try discriminate; reflexivity. Qed.

Lemma operator_ltlt_Qnn_Scalar_t_listed (out : ostream) (s : Qnn_Scalar_t) :
  listed_data_type (dataType s) = true ->
  (dataType s = QNN_DATATYPE_FLOAT_16 /\ utils.operator_ltlt_Qnn_Scalar_t out s = Good out)
  \/ exists t, utils.operator_ltlt_Qnn_Scalar_t out s = Good (out ++ [t]).
Proof.
  unfold utils.operator_ltlt_Qnn_Scalar_t.
  destruct (dataType s); intros Hl; try discriminate;
    first [ left; split; reflexivity | right; eexists; reflexivity ].
Qed.

Lemma operator_ltlt_Qnn_Scalar_t_unlisted (out : ostream) (s : Qnn_Scalar_t) :
  listed_data_type (dataType s) = false ->
  utils.operator_ltlt_Qnn_Scalar_t out s = Thrown "Unknown Qnn Data type" out.
Proof.
  unfold utils.operator_ltlt_Qnn_Scalar_t.
  destruct (dataType s); intros Hl; try discriminate; reflexivity.
Qed.

Lemma operator_ltlt_Qnn_QuantizeParams_t_good (out : ostream) (q : Qnn_QuantizeParams_t) :
  exists out', utils.operator_ltlt_Qnn_QuantizeParams_t out q = Good out'.
Proof.
  unfold utils.operator_ltlt_Qnn_QuantizeParams_t. cbn [put and_then].
  destruct (operator_ltlt_Qnn_Definition_t_label
              (out ++ [T_str " encodingDefinition="]) (encodingDefinition q))
    as [l ->].
  cbn [and_then].
  destruct (_ || _); [|eexists; reflexivity].
  cbn [put and_then].
  match goal with
  | |- context [utils.operator_ltlt_Qnn_QuantizationEncoding_t ?o ?e] =>
      destruct (operator_ltlt_Qnn_QuantizationEncoding_t_label o e) as [l' ->]
  end.
  cbn [and_then].
  destruct (bool_decide _); eexists; reflexivity.
Qed.

(** A loop that inserts tokens only returns. *)
Lemma token_loop_good (f : nat -> token) (l : list nat) (out : ostream) :
  exists out',
    fold_left (fun (s : Stream) (i : nat) =>
                 s >>> fun out => put (f i) out >>> fun out => put (T_str " ") out)
      l (Good out) = Good out'.
Proof.
  revert out. induction l as [|i l IH]; intros out; cbn.
  - eexists. reflexivity.
  - apply IH.
Qed.

Lemma operator_ltlt_Qnn_ClientBuffer_t_good (as_T : Z -> Z) (out : ostream)
  (b : Qnn_ClientBuffer_t) :
  exists out', utils.operator_ltlt_Qnn_ClientBuffer_t as_T out b = Good out'.
Proof.
  unfold utils.operator_ltlt_Qnn_ClientBuffer_t.
  match goal with
  | |- context [fold_left _ ?l (Good _)] =>
      destruct (token_loop_good (fun i => T_int (as_T (data b i))) l
                  (out ++ [T_str " clientBuf=("])) as [o' Ho']
  end.
  cbn [put and_then] in Ho' |- *.
  rewrite Ho'. eexists. reflexivity.
Qed.

Lemma operator_ltlt_Qnn_Tensor_t_spec (out : ostream) (t : Qnn_Tensor_t) :
  if tensor_data_type_listed t
  then exists out', utils.operator_ltlt_Qnn_Tensor_t out t = Good out'
  else throws_unknown_data_type (utils.operator_ltlt_Qnn_Tensor_t out t).
Proof.
  unfold utils.operator_ltlt_Qnn_Tensor_t, tensor_data_type_listed.
  cbn [put and_then].
  match goal with
  | |- context [utils.operator_ltlt_Qnn_TensorType_t ?o ?x] =>
      destruct (operator_ltlt_Qnn_TensorType_t_label o x) as [l1 ->]
  end.
  cbn [put and_then].
  destruct (listed_data_type (tensor_dataType t)) eqn:Hlisted.
  - match goal with
    | |- context [utils.operator_ltlt_Qnn_DataType_t ?o ?x] =>
        destruct (operator_ltlt_Qnn_DataType_t_listed o x Hlisted) as [l2 ->]
    end.
    cbn [put and_then].
    match goal with
    | |- context [fold_left _ ?l (Good ?o)] =>
        destruct (token_loop_good (fun i => T_int (maxDimensions t i)) l o)
          as [o3 Ho3]
    end.
    cbn [put and_then] in Ho3. rewrite Ho3. cbn [put and_then].
    match goal with
    | |- context [utils.operator_ltlt_Qnn_TensorMemType_t ?o ?x] =>
        destruct (operator_ltlt_Qnn_TensorMemType_t_label o x) as [l4 ->]
    end.
    cbn [put and_then].
    match goal with
    | |- context [(if ?c then ?a else Good ?o) >>> _] =>
        assert (Hbuf : exists o5, (if c then a else Good o) = Good o5)
    end.
    { destruct (bool_decide (memType t = QNN_TENSORMEMTYPE_RAW));
        [|eexists; reflexivity].
      destruct (bool_decide (tensor_dataType t = QNN_DATATYPE_UINT_32));
        apply operator_ltlt_Qnn_ClientBuffer_t_good. }
    destruct Hbuf as [o5 ->]. cbn [put and_then].
    apply operator_ltlt_Qnn_QuantizeParams_t_good.
  - rewrite operator_ltlt_Qnn_DataType_t_unlisted by exact Hlisted.
    cbn [and_then]. eexists. reflexivity.
Qed.

Lemma operator_ltlt_Qnn_Param_t_spec (out : ostream) (p : Qnn_Param_t) :
  if param_data_type_listed p
  then exists out', utils.operator_ltlt_Qnn_Param_t out p = Good out'
  else throws_unknown_data_type (utils.operator_ltlt_Qnn_Param_t out p).
Proof.
  unfold utils.operator_ltlt_Qnn_Param_t, param_data_type_listed.
  cbn [put and_then].
  match goal with
  | |- context [utils.operator_ltlt_Qnn_ParamType_t ?o ?x] =>
      destruct (operator_ltlt_Qnn_ParamType_t_label o x) as [l1 ->]
  end.
  cbn [put and_then].
  destruct (bool_decide (paramType p = QNN_PARAMTYPE_TENSOR)).
  - apply operator_ltlt_Qnn_Tensor_t_spec.
  - destruct (listed_data_type (dataType (scalarParam p))) eqn:Hlisted.
    + match goal with
      | |- context [utils.operator_ltlt_Qnn_Scalar_t ?o ?x] =>
          destruct (operator_ltlt_Qnn_Scalar_t_listed o x Hlisted)
            as [[_ ->] | [tok ->]]
      end; eexists; reflexivity.
    + rewrite operator_ltlt_Qnn_Scalar_t_unlisted by exact Hlisted.
      eexists. reflexivity.
Qed.

(** The loops of the operator formatter return when every element within
    the count is rendered, and are left by the exception of the first element
    that is not. *)
Lemma insert_each_spec {A : Type} (insert : ostream -> A -> Stream)
  (ok : A -> bool) (array : nat -> A) :
  (forall out a,
     if ok a then exists out', insert out a = Good out'
     else throws_unknown_data_type (insert out a)) ->
  forall (l : list nat) (s : Stream),
    let run := fold_left
                 (fun (s : Stream) (i : nat) =>
                    s >>> fun out => insert out (array i) >>> fun out => put T_endl out)
                 l s in
    (throws_unknown_data_type s -> throws_unknown_data_type run) /\
    ((exists out, s = Good out) ->
     if forallb (fun i => ok (array i)) l then exists out', run = Good out'
     else throws_unknown_data_type run).
Proof.
  intros Hinsert l. induction l as [|i l IH]; intros s; cbn.
  - split; [intros Ht; exact Ht|]. intros [out ->]. eexists. reflexivity.
  - specialize (IH (s >>> (fun out => insert out (array i) >>> (fun out => put T_endl out)))).
    cbv zeta in IH. destruct IH as [IHt IHg]. split.
    + intros Ht. apply IHt. apply and_then_thrown. exact Ht.
    + intros [out ->]. cbn [and_then] in IHt, IHg |- *.
      specialize (Hinsert out (array i)).
      destruct (ok (array i)); cbn [andb].
      * destruct Hinsert as [out' Hout']. rewrite Hout' in IHg |- *.
        apply IHg. eexists. reflexivity.
      * apply IHt. apply and_then_thrown. exact Hinsert.
Qed.

Lemma insert_each_cases {A : Type} (insert : ostream -> A -> Stream)
  (ok : A -> bool) (array : nat -> A) (count : Z) (out : ostream) :
  (forall out a,
     if ok a then exists out', insert out a = Good out'
     else throws_unknown_data_type (insert out a)) ->
  if forallb (fun i => ok (array i)) (seq 0 (Z.to_nat count))
  then exists out', utils.insert_each insert array count out = Good out'
  else throws_unknown_data_type (utils.insert_each insert array count out).
Proof.
  intros Hinsert. unfold utils.insert_each.
  apply (insert_each_spec insert ok array Hinsert). eexists. reflexivity.
Qed.

Lemma operator_ltlt_Qnn_OpConfig_t_spec (out : ostream) (op : Qnn_OpConfig_t) :
  if op_config_data_types_listed op
  then exists out', utils.operator_ltlt_Qnn_OpConfig_t out op = Good out'
  else throws_unknown_data_type (utils.operator_ltlt_Qnn_OpConfig_t out op).
Proof.
  unfold utils.operator_ltlt_Qnn_OpConfig_t, op_config_data_types_listed.
  cbn [put and_then].
  match goal with
  | |- context [utils.insert_each _ (inputTensors op) ?c ?o] =>
      pose proof (insert_each_cases utils.operator_ltlt_Qnn_Tensor_t
                    tensor_data_type_listed (inputTensors op) c o
                    operator_ltlt_Qnn_Tensor_t_spec) as Hin
  end.
  destruct (forallb _ (seq 0 (Z.to_nat (numOfInputs op)))); cbn [andb].
  2: { apply and_then_thrown. exact Hin. }
  destruct Hin as [o1 ->]. cbn [put and_then].
  match goal with
  | |- context [utils.insert_each _ (outputTensors op) ?c ?o] =>
      pose proof (insert_each_cases utils.operator_ltlt_Qnn_Tensor_t
                    tensor_data_type_listed (outputTensors op) c o
                    operator_ltlt_Qnn_Tensor_t_spec) as Hout
  end.
  destruct (forallb _ (seq 0 (Z.to_nat (numOfOutputs op)))); cbn [andb].
  2: { apply and_then_thrown. exact Hout. }
  destruct Hout as [o2 ->]. cbn [put and_then].
  apply (insert_each_cases utils.operator_ltlt_Qnn_Param_t
           param_data_type_listed (params op) _ _ operator_ltlt_Qnn_Param_t_spec).
Qed.

(** C8, as the code has it.  The formatters of the definition, the
    quantization encoding, the tensor type, the memory type and the parameter
    type return for every value, inserting one label (a fallback label for a
    value outside the enumeration), and so does the formatter of the
    quantization parameters.  The formatter of a data type returns with one
    label for each of the seventeen data types it lists and is left by the
    exception "Unknown Qnn Data type" for any other value; the formatter of a
    scalar likewise returns for those seventeen (inserting a value or a "not
    supported" marker, and nothing for FLOAT_16) and throws for any other;
    the formatters of a tensor, a parameter and an operator return exactly
    when every data type they visit is listed, and throw that exception
    otherwise. *)
Theorem formatters_return_or_throw :
  (forall out d, exists label,
     utils.operator_ltlt_Qnn_Definition_t out d = Good (out ++ [T_str label])) /\
  (forall out e, exists label,
     utils.operator_ltlt_Qnn_QuantizationEncoding_t out e
     = Good (out ++ [T_str label])) /\
  (forall out t, exists label,
     utils.operator_ltlt_Qnn_TensorType_t out t = Good (out ++ [T_str label])) /\
  (forall out m, exists label,
     utils.operator_ltlt_Qnn_TensorMemType_t out m = Good (out ++ [T_str label])) /\
  (forall out p, exists label,
     utils.operator_ltlt_Qnn_ParamType_t out p = Good (out ++ [T_str label])) /\
  (forall out q, returns_normally (utils.operator_ltlt_Qnn_QuantizeParams_t out q)) /\
  (forall out t,
     if listed_data_type t
     then exists label,
            utils.operator_ltlt_Qnn_DataType_t out t = Good (out ++ [T_str label])
     else utils.operator_ltlt_Qnn_DataType_t out t
          = Thrown "Unknown Qnn Data type" out) /\
  (forall out s,
     if listed_data_type (dataType s)
     then (dataType s = QNN_DATATYPE_FLOAT_16 /\
           utils.operator_ltlt_Qnn_Scalar_t out s = Good out)
          \/ exists t, utils.operator_ltlt_Qnn_Scalar_t out s = Good (out ++ [t])
     else utils.operator_ltlt_Qnn_Scalar_t out s
          = Thrown "Unknown Qnn Data type" out) /\
  (forall out t,
     if tensor_data_type_listed t
     then returns_normally (utils.operator_ltlt_Qnn_Tensor_t out t)
     else throws_unknown_data_type (utils.operator_ltlt_Qnn_Tensor_t out t)) /\
  (forall out p,
     if param_data_type_listed p
     then returns_normally (utils.operator_ltlt_Qnn_Param_t out p)
     else throws_unknown_data_type (utils.operator_ltlt_Qnn_Param_t out p)) /\
  (forall out op,
     if op_config_data_types_listed op
     then returns_normally (utils.operator_ltlt_Qnn_OpConfig_t out op)
     else throws_unknown_data_type (utils.operator_ltlt_Qnn_OpConfig_t out op)) /\
  (forall out s,
     dataType s = QNN_DATATYPE_FLOAT_16 ->
     utils.operator_ltlt_Qnn_Scalar_t out s = Good out) /\
  (forall out s,
     listed_data_type (dataType s) = true ->
     dataType s <> QNN_DATATYPE_FLOAT_16 ->
     exists t, utils.operator_ltlt_Qnn_Scalar_t out s = Good (out ++ [t])).
Proof.
  split; [exact operator_ltlt_Qnn_Definition_t_label|].
  split; [exact operator_ltlt_Qnn_QuantizationEncoding_t_label|].
  split; [exact operator_ltlt_Qnn_TensorType_t_label|].
  split; [exact operator_ltlt_Qnn_TensorMemType_t_label|].
  split; [exact operator_ltlt_Qnn_ParamType_t_label|].
  split.
  { intros out q.
    destruct (operator_ltlt_Qnn_QuantizeParams_t_good out q) as [out' ->].
    exact I. }
  split.
  { intros out t. destruct (listed_data_type t) eqn:Hlisted.
    - apply operator_ltlt_Qnn_DataType_t_listed. exact Hlisted.
    - apply operator_ltlt_Qnn_DataType_t_unlisted. exact Hlisted. }
  split.
  { intros out s. destruct (listed_data_type (dataType s)) eqn:Hlisted.
    - apply operator_ltlt_Qnn_Scalar_t_listed. exact Hlisted.
    - apply operator_ltlt_Qnn_Scalar_t_unlisted. exact Hlisted. }
  split.
  { intros out t. pose proof (operator_ltlt_Qnn_Tensor_t_spec out t) as Hspec.
    destruct (tensor_data_type_listed t); [|exact Hspec].
    destruct Hspec as [out' ->]. exact I. }
  split.
  { intros out p. pose proof (operator_ltlt_Qnn_Param_t_spec out p) as Hspec.
    destruct (param_data_type_listed p); [|exact Hspec].
    destruct Hspec as [out' ->]. exact I. }
  split.
  { intros out op. pose proof (operator_ltlt_Qnn_OpConfig_t_spec out op) as Hspec.
    destruct (op_config_data_types_listed op); [|exact Hspec].
    destruct Hspec as [out' ->]. exact I. }
  split.
  { intros out s Hhalf. unfold utils.operator_ltlt_Qnn_Scalar_t.
    rewrite Hhalf. reflexivity. }
  intros out s Hlisted Hhalf.
  destruct (operator_ltlt_Qnn_Scalar_t_listed out s Hlisted)
    as [[Hf _] | Htoken]; [congruence | exact Htoken].
Qed.

Lemma formatters_return_or_throw_witness :
  utils.operator_ltlt_Qnn_Scalar_t [T_str " value="]
    (set_dataType sample_scalar_init QNN_DATATYPE_FLOAT_16)
  = Good [T_str " value="]
  /\ exists t,
       utils.operator_ltlt_Qnn_Scalar_t [T_str " value="]
         (set_dataType sample_scalar_init QNN_DATATYPE_BOOL_8)
       = Good ([T_str " value="] ++ [t]).
Proof.
  pose proof formatters_return_or_throw as Hall.
  do 11 (destruct Hall as [_ Hall]). destruct Hall as [Hhalf Htoken].
  split.
  - apply Hhalf. reflexivity.
  - apply Htoken; [reflexivity | discriminate].
Defined.

(** C8 as it is stated fails: for the enumerator QNN_DATATYPE_UNDEFINED, and
    for a value outside the enumeration, the formatters of the data type and
    of the scalar are left by an exception. *)
Lemma formatters_always_return_counterexample :
  ~ returns_normally (utils.operator_ltlt_Qnn_DataType_t [] QNN_DATATYPE_UNDEFINED) /\
  ~ returns_normally (utils.operator_ltlt_Qnn_DataType_t [] (QNN_DATATYPE_unlisted 0)) /\
  ~ returns_normally (utils.operator_ltlt_Qnn_Scalar_t [] sample_scalar_init).
Proof. repeat split; intros Hreturns; exact Hreturns. Qed.

(** * Further properties of the code *)

(** ** Element sizes and the element type tables *)

(** X1. [GetElementSizeByType] returns 0 exactly for the data types that
    are not in its table (the enumerator UNDEFINED and values outside the
    enumeration); for each of the seventeen listed types it returns 1, 2, 4
    or 8. *)
Theorem GetElementSizeByType_zero_iff_unlisted (data_type : Qnn_DataType_t) :
  (utils.GetElementSizeByType data_type = 0 <-> listed_data_type data_type = false) /\
  (listed_data_type data_type = true ->
   In (utils.GetElementSizeByType data_type) [1; 2; 4; 8]).
Proof.
  destruct data_type; vm_compute;
    (split; [split; intros Hz; first [discriminate Hz | reflexivity]
            | intros Hl; first [discriminate Hl | auto 10]]).
Qed.

Lemma GetElementSizeByType_zero_iff_unlisted_witness :
  In (utils.GetElementSizeByType QNN_DATATYPE_SFIXED_POINT_16) [1; 2; 4; 8].
Proof.
  apply (GetElementSizeByType_zero_iff_unlisted QNN_DATATYPE_SFIXED_POINT_16).
  reflexivity.
Defined.

Ltac unfold_type_tables :=
  unfold BaseOpBuilder.OnnxDataTypeToQnnDataType, BaseOpBuilder.do_type_mapping,
    BaseOpBuilder.onnx_to_qnn_data_type_quantized,
    BaseOpBuilder.onnx_to_qnn_data_type,
    supported_onnx_type,
    is_64bit_integer_type, is_boolean_type, is_floating_type, is_sub64_integer_type,
    TensorProto_DataType_INT8, TensorProto_DataType_INT16,
    TensorProto_DataType_INT32, TensorProto_DataType_INT64,
    TensorProto_DataType_UINT8, TensorProto_DataType_UINT16,
    TensorProto_DataType_UINT32, TensorProto_DataType_UINT64,
    TensorProto_DataType_FLOAT16, TensorProto_DataType_FLOAT,
    TensorProto_DataType_BOOL, TensorProto_DataType_DOUBLE,
    TensorProto_DataType_BFLOAT16 in *;
  cbn [utils.find] in *.

(** X2. [OnnxDataTypeToQnnDataType] succeeds for the same eleven portable
    element types whether the model is quantized or not; on a miss it leaves
    [qnn_data_type] as the caller passed it; on a hit the accelerator type is
    one of the seventeen listed types, so its element size is not 0 and the
    data type formatter renders it. *)
Theorem OnnxDataTypeToQnnDataType_supported (onnx_data_type : Z)
  (qnn_data_type : Qnn_DataType_t) (is_quantized : bool) :
  let run := BaseOpBuilder.OnnxDataTypeToQnnDataType onnx_data_type qnn_data_type
               is_quantized in
  run.1 = supported_onnx_type onnx_data_type /\
  (run.1 = false -> run.2 = qnn_data_type) /\
  (run.1 = true ->
   listed_data_type run.2 = true /\
   0 < utils.GetElementSizeByType run.2 /\
   forall out, returns_normally (utils.operator_ltlt_Qnn_DataType_t out run.2)).
Proof.
  cbv zeta. destruct is_quantized; unfold_type_tables;
    repeat case_decide; subst; cbn;
    (split; [| split]); try reflexivity; try (intros; discriminate);
    try (intros _; split; [reflexivity | split; [reflexivity | intros; exact I]]).
  all: symmetry; rewrite !orb_false_iff, !Z.eqb_neq; repeat split; congruence.
Qed.

Lemma OnnxDataTypeToQnnDataType_supported_witness :
  (BaseOpBuilder.OnnxDataTypeToQnnDataType TensorProto_DataType_DOUBLE
     QNN_DATATYPE_FLOAT_32 true).2 = QNN_DATATYPE_FLOAT_32
  /\ 0 < utils.GetElementSizeByType
           (BaseOpBuilder.OnnxDataTypeToQnnDataType TensorProto_DataType_UINT8
              QNN_DATATYPE_FLOAT_32 true).2.
Proof.
  split.
  - apply (OnnxDataTypeToQnnDataType_supported TensorProto_DataType_DOUBLE
             QNN_DATATYPE_FLOAT_32 true).
    reflexivity.
  - apply (OnnxDataTypeToQnnDataType_supported TensorProto_DataType_UINT8
             QNN_DATATYPE_FLOAT_32 true).
    reflexivity.
Defined.

(** X3. The fixed-point type the quantized table gives for a portable
    element type has the element size of the type the plain table gives for
    it: the byte size of a tensor does not depend on the quantized flag. *)
Theorem element_size_independent_of_quantization (onnx_data_type : Z)
  (q0 p0 q p : Qnn_DataType_t) :
  BaseOpBuilder.OnnxDataTypeToQnnDataType onnx_data_type q0 true = (true, q) ->
  BaseOpBuilder.OnnxDataTypeToQnnDataType onnx_data_type p0 false = (true, p) ->
  utils.GetElementSizeByType q = utils.GetElementSizeByType p.
Proof.
  unfold_type_tables.
  repeat case_decide; subst; intros Hq Hp; try discriminate;
    injection Hq as <-; injection Hp as <-; reflexivity.
Qed.

Lemma element_size_independent_of_quantization_witness :
  utils.GetElementSizeByType QNN_DATATYPE_UFIXED_POINT_16
  = utils.GetElementSizeByType QNN_DATATYPE_UINT_16.
Proof.
  apply (element_size_independent_of_quantization TensorProto_DataType_UINT16
           QNN_DATATYPE_FLOAT_32 QNN_DATATYPE_FLOAT_32); reflexivity.
Defined.

(** X4. Each of the two tables maps distinct portable element types to
    distinct accelerator types: the portable type can be read back from the
    accelerator type and the quantized flag. *)
Theorem OnnxDataTypeToQnnDataType_injective (t1 t2 : Z) (q1 q2 q : Qnn_DataType_t)
  (is_quantized : bool) :
  BaseOpBuilder.OnnxDataTypeToQnnDataType t1 q1 is_quantized = (true, q) ->
  BaseOpBuilder.OnnxDataTypeToQnnDataType t2 q2 is_quantized = (true, q) ->
  t1 = t2.
Proof.
  destruct is_quantized; unfold_type_tables;
    repeat case_decide; subst; intros Hmap1 Hmap2; try discriminate;
    try reflexivity; injection Hmap1 as <-; discriminate.
Qed.

Lemma OnnxDataTypeToQnnDataType_injective_witness :
  TensorProto_DataType_INT32 = TensorProto_DataType_INT32.
Proof.
  apply (OnnxDataTypeToQnnDataType_injective TensorProto_DataType_INT32
           TensorProto_DataType_INT32 QNN_DATATYPE_FLOAT_32 QNN_DATATYPE_FLOAT_32
           QNN_DATATYPE_SFIXED_POINT_32 true); reflexivity.
Defined.

(** ** The element count *)

Lemma product_nonneg (dims : list Z) :
  Forall is_uint32 dims -> 0 <= product dims.
Proof.
  induction dims as [|d dims IH]; intros Hdims; [cbn; lia|].
  change (product (d :: dims)) with (d * product dims).
  apply Forall_cons in Hdims as [Hd Hrest]. unfold is_uint32 in Hd.
  apply Z.mul_nonneg_nonneg; [lia | apply IH; exact Hrest].
Qed.

Lemma product_zero (dims : list Z) : In 0 dims -> product dims = 0.
Proof.
  induction dims as [|d dims IH]; [intros []|].
  change (product (d :: dims)) with (d * product dims).
  intros [-> | Hin]; [reflexivity|]. rewrite (IH Hin). lia.
Qed.

Lemma GetDataSize_nonempty (dims : list Z) :
  dims <> [] -> utils.GetDataSize dims = product dims mod 2 ^ 32.
Proof.
  intros Hd. unfold utils.GetDataSize, size.
  destruct dims as [|d dims]; [congruence|].
  replace (Z.of_nat (length (d :: dims)) =? 0) with false
    by (symmetry; apply Z.eqb_neq; simpl; lia).
  rewrite accumulate_multiplies_mod. rewrite Z.mul_1_l.
  unfold to_int64.
  pose proof (Z.mod_pos_bound (product (d :: dims)) (2 ^ 32) ltac:(lia)) as Hb.
  rewrite Z.mod_small by lia. lia.
Qed.

(** X5. [GetDataSize] always returns a value in [[0, 2^32)]; for dimensions
    whose product is below 2^32 it returns the element count exactly; a
    dimension 0 anywhere in the list gives 0. *)
Theorem GetDataSize_exact_below_2_32 (dims : list Z) :
  Forall is_uint32 dims ->
  0 <= utils.GetDataSize dims < 2 ^ 32 /\
  (dims <> [] -> product dims < 2 ^ 32 -> utils.GetDataSize dims = product dims) /\
  (In 0 dims -> utils.GetDataSize dims = 0).
Proof.
  intros Hdims.
  destruct dims as [|d dims].
  { change (utils.GetDataSize []) with 0.
    split; [lia|]. split; [congruence | intros []]. }
  rewrite GetDataSize_nonempty by discriminate.
  pose proof (Z.mod_pos_bound (product (d :: dims)) (2 ^ 32) ltac:(lia)) as Hb.
  split; [exact Hb|]. split.
  - intros _ Hsmall. apply Z.mod_small.
    pose proof (product_nonneg _ Hdims). lia.
  - intros Hin. rewrite (product_zero _ Hin). reflexivity.
Qed.

Lemma GetDataSize_exact_below_2_32_witness :
  utils.GetDataSize [1; 3; 224; 224] = 150528 /\ utils.GetDataSize [7; 0; 9] = 0.
Proof.
  split.
  - apply (GetDataSize_exact_below_2_32 [1; 3; 224; 224]).
    + repeat constructor; unfold is_uint32; lia.
    + discriminate.
    + vm_compute. reflexivity.
  - apply (GetDataSize_exact_below_2_32 [7; 0; 9]).
    + repeat constructor; unfold is_uint32; lia.
    + right. left. reflexivity.
Defined.

(** ** The axis attribute: failures *)

Section AxisAttributeFailures.
Context `{Collaborators}.

(** X6. [ProcessAxisAttribute] either returns OK and has appended exactly
    one parameter, or it does not return OK and leaves both [node_params] and
    [default_axis_value] as they were; the only way it can end other than by
    a status or the exception of [ORT_ENFORCE] is the subscript [inputs[0]]
    of a node unit without inputs. *)
Theorem ProcessAxisAttribute_all_or_nothing (w : QnnModelWrapper) (nu : NodeUnit)
  (node_params node_params' : list QnnParamWrapper) (default_axis_value axis : Z)
  (r : Result) :
  BaseOpBuilder.ProcessAxisAttribute w nu node_params default_axis_value
  = (r, node_params', axis) ->
  ((r = Returns Status_OK /\ exists axis_param, node_params' = node_params ++ [axis_param])
   \/ (r <> Returns Status_OK /\ node_params' = node_params
       /\ axis = default_axis_value)) /\
  (r = Undefined <-> Inputs nu = []) /\
  (forall what, r = Throws what -> what = "QNN requires axis range [0, rank-1].") /\
  (forall s, r = Returns s -> s = Status_OK
                              \/ s = ORT_RETURN_IF_NOT_status "Cannot get shape").
Proof.
  unfold BaseOpBuilder.ProcessAxisAttribute.
  destruct (Inputs nu) as [|inputs_0 rest].
  { intros Heq. injection Heq as <- <- <-.
    split; [right; repeat split; discriminate|].
    split; [split; reflexivity|]. split; intros; discriminate. }
  destruct (GetOnnxShape w (node_arg inputs_0)) as [input_shape|].
  2: { intros Heq. injection Heq as <- <- <-.
       split; [right; repeat split; discriminate|].
       split; [split; discriminate|].
       split; [intros; discriminate|].
       intros s Hs. injection Hs as <-. right. reflexivity. }
  cbv zeta.
  match goal with
  | |- context [if ?c then _ else _] => destruct c
  end; intros Heq; injection Heq as <- <- <-.
  - split; [left; split; [reflexivity | eexists; reflexivity]|].
    split; [split; discriminate|].
    split; [intros; discriminate|].
    intros s Hs. injection Hs as <-. left. reflexivity.
  - split; [right; repeat split; discriminate|].
    split; [split; discriminate|].
    split; [intros what Hw; injection Hw as <-; reflexivity|].
    intros; discriminate.
Qed.

(** X7. For a first input of rank 0 (an empty shape) no axis value is
    accepted: [ProcessAxisAttribute] is left by the exception of
    [ORT_ENFORCE] whatever the attribute and the default are. *)
Theorem ProcessAxisAttribute_rank_0 (w : QnnModelWrapper) (nu : NodeUnit)
  (node_params : list QnnParamWrapper) (default_axis_value : Z)
  (inputs_0 : NodeUnitIODef) (rest : list NodeUnitIODef) :
  Inputs nu = inputs_0 :: rest ->
  GetOnnxShape w (node_arg inputs_0) = Some [] ->
  BaseOpBuilder.ProcessAxisAttribute w nu node_params default_axis_value
  = (Throws "QNN requires axis range [0, rank-1].", node_params, default_axis_value).
Proof.
  intros Hin Hshape.
  rewrite (ProcessAxisAttribute_unfold w nu node_params default_axis_value
             inputs_0 rest [] Hin Hshape).
  cbv zeta. change (to_int32 (size [])) with 0.
  match goal with
  | |- context [(?x >=? 0) && (?x <? 0)] =>
      replace ((x >=? 0) && (x <? 0)) with false; [reflexivity|];
      symmetry; apply andb_false_iff;
      destruct (Z.ltb_spec x 0); [left; rewrite Z.geb_leb; apply Z.leb_gt; lia
                                 | right; reflexivity]
  end.
Qed.

(** X8. The scalar formatter renders the axis parameter that
    [ProcessAxisAttribute] builds as the normalized axis, for a Gather (a
    signed scalar) as for any other op type (an unsigned one). *)
Theorem axis_param_rendered_as_normalized_axis (w : QnnModelWrapper) (nu : NodeUnit)
  (node_params node_params' : list QnnParamWrapper)
  (default_axis_value normalized : Z) :
  BaseOpBuilder.ProcessAxisAttribute w nu node_params default_axis_value
  = (Returns Status_OK, node_params', normalized) ->
  exists axis_param,
    node_params' = node_params ++ [axis_param] /\
    forall out,
      utils.operator_ltlt_Qnn_Scalar_t out (param_scalar axis_param)
      = Good (out ++ [T_int normalized]).
Proof.
  unfold BaseOpBuilder.ProcessAxisAttribute.
  destruct (Inputs nu) as [|inputs_0 rest]; [discriminate|].
  destruct (GetOnnxShape w (node_arg inputs_0)) as [input_shape|]; [|discriminate].
  cbv zeta.
  set (R := to_int32 (size input_shape)).
  set (onnx_axis := if NodeAttrHelper_Get nu "axis" default_axis_value <? 0
                    then _ else _).
  destruct ((onnx_axis >=? 0) && (onnx_axis <? R)) eqn:Hok; [|discriminate].
  intros Heq. injection Heq as <- <-.
  apply andb_true_iff in Hok as [Hge Hlt].
  rewrite Z.geb_leb in Hge. apply Z.leb_le in Hge. apply Z.ltb_lt in Hlt.
  pose proof (to_int32_range (size input_shape)) as HR. fold R in HR.
  unfold is_int32 in HR.
  eexists. split; [reflexivity|]. intros out.
  unfold utils.operator_ltlt_Qnn_Scalar_t. cbn [param_scalar].
  destruct (bool_decide (OpType nu = "Gather")); cbn; [reflexivity|].
  rewrite to_uint32_id by (unfold is_uint32; lia). reflexivity.
Qed.

End AxisAttributeFailures.

Lemma ProcessAxisAttribute_all_or_nothing_witness :
  exists axis_param,
    (@BaseOpBuilder.ProcessAxisAttribute sample_collaborators sample_wrapper
       sample_gather [] 0).1.2 = [] ++ [axis_param].
Proof.
  destruct (@ProcessAxisAttribute_all_or_nothing sample_collaborators sample_wrapper
              sample_gather [] _ 0 _ _ eq_refl)
    as ([[_ Happended] | [Hfail _]] & _).
  - exact Happended.
  - exfalso. apply Hfail. reflexivity.
Defined.

Lemma ProcessAxisAttribute_rank_0_witness :
  @BaseOpBuilder.ProcessAxisAttribute sample_collaborators sample_wrapper
    sample_argmax_rank_0 [] 0
  = (Throws "QNN requires axis range [0, rank-1].", [], 0).
Proof.
  apply (@ProcessAxisAttribute_rank_0 sample_collaborators sample_wrapper
           sample_argmax_rank_0 [] 0 (float_arg "X0" []) []); reflexivity.
Defined.

Lemma axis_param_rendered_as_normalized_axis_witness :
  exists axis_param,
    utils.operator_ltlt_Qnn_Scalar_t [T_str " value="] (param_scalar axis_param)
    = Good ([T_str " value="] ++ [T_int 3]).
Proof.
  destruct (@axis_param_rendered_as_normalized_axis sample_collaborators
              sample_wrapper sample_gather [] _ 0 3 eq_refl)
    as (axis_param & _ & Hrendered).
  exists axis_param. apply Hrendered.
Defined.

(** ** The outputs an operator gets *)

Section OutputLoop.
Context `{Collaborators}.
Variable output_count : Z.

(** Outputs at positions from [output_count] on do not enter the loop. *)
Lemma ProcessOutputs_loop_extra (w : QnnModelWrapper) (is_quantized_model : bool)
  (outs extra : list NodeUnitIODef) :
  forall (output_i : Z) (acc : list QnnTensorWrapper),
  output_count <= output_i + size outs ->
  BaseOpBuilder.ProcessOutputs_loop output_count w is_quantized_model
    (outs ++ extra) output_i acc
  = BaseOpBuilder.ProcessOutputs_loop output_count w is_quantized_model
      outs output_i acc.
Proof.
  unfold size.
  induction outs as [|output rest IH]; intros output_i acc Hcount.
  - cbn in Hcount. cbn [app BaseOpBuilder.ProcessOutputs_loop].
    destruct extra as [|e extra]; [reflexivity|].
    cbn [BaseOpBuilder.ProcessOutputs_loop].
    replace (output_i <? output_count) with false
      by (symmetry; apply Z.ltb_ge; lia).
    reflexivity.
  - cbn [app BaseOpBuilder.ProcessOutputs_loop].
    destruct (output_i <? output_count); [|reflexivity].
    cbv zeta.
    destruct (BaseOpBuilder.GetQnnDataType is_quantized_model
                (TypeAsProto (node_arg output)) QNN_DATATYPE_FLOAT_32)
      as [[| c e m] dt']; [|reflexivity].
    destruct (ProcessQuantizationParameter w (quant_param output) _ _)
      as [[[|] sc] off]; [|reflexivity].
    destruct (GetOnnxShape w (node_arg output)) as [output_shape|]; [|reflexivity].
    apply IH. cbn [length] in Hcount. lia.
Qed.

(** X9. When the loop of [ProcessOutputs] succeeds, the descriptors it has
    built are those of the first [min(size, output_count_)] outputs of the
    node unit, in order and under their names, each without data and with
    data format 0. *)
Theorem ProcessOutputs_builds_leading_outputs (w : QnnModelWrapper)
  (is_quantized_model : bool) (outs : list NodeUnitIODef)
  (qnn_outputs : list QnnTensorWrapper) :
  BaseOpBuilder.ProcessOutputs_loop output_count w is_quantized_model outs 0 []
  = (Returns Status_OK, qnn_outputs) ->
  map tensor_name qnn_outputs = take (Z.to_nat output_count) (arg_names outs) /\
  length qnn_outputs = Nat.min (Z.to_nat output_count) (length outs) /\
  Forall (fun t => client_buf t = [] /\ data_format t = 0) qnn_outputs.
Proof.
  intros Hrun.
  apply ProcessOutputs_loop_names in Hrun as (built & -> & Hnames & Hplain).
  rewrite Z.sub_0_r in Hnames. cbn [app].
  split; [exact Hnames|]. split; [|exact Hplain].
  rewrite <- (length_map tensor_name), Hnames, length_take.
  unfold arg_names. rewrite length_map. reflexivity.
Qed.

(** X10. Outputs of the node unit at positions from [output_count_] on are
    never looked at: the loop of [ProcessOutputs] ends the same way, with the
    same descriptors, whether they are there or not, even when their type or
    shape cannot be resolved. *)
Theorem ProcessOutputs_ignores_outputs_past_count (w : QnnModelWrapper)
  (is_quantized_model : bool) (outs extra : list NodeUnitIODef) :
  output_count <= size outs ->
  BaseOpBuilder.ProcessOutputs_loop output_count w is_quantized_model
    (outs ++ extra) 0 []
  = BaseOpBuilder.ProcessOutputs_loop output_count w is_quantized_model outs 0 [].
Proof. intros Hcount. apply ProcessOutputs_loop_extra. lia. Qed.

End OutputLoop.

Lemma ProcessOutputs_builds_leading_outputs_witness :
  map tensor_name
    (@BaseOpBuilder.ProcessOutputs_loop sample_collaborators 2 sample_wrapper false
       (Outputs sample_split) 0 []).2
  = ["A"; "R"].
Proof.
  apply (@ProcessOutputs_builds_leading_outputs sample_collaborators 2
           sample_wrapper false (Outputs sample_split)).
  reflexivity.
Defined.

Lemma ProcessOutputs_ignores_outputs_past_count_witness :
  @BaseOpBuilder.ProcessOutputs_loop sample_collaborators 2 sample_wrapper false
    ([float_arg "A" [1; 3; 8; 4]; float_arg "R" [1; 3; 8; 4]] ++ [untyped_arg "C"]) 0 []
  = @BaseOpBuilder.ProcessOutputs_loop sample_collaborators 2 sample_wrapper false
      [float_arg "A" [1; 3; 8; 4]; float_arg "R" [1; 3; 8; 4]] 0 [].
Proof.
  apply (@ProcessOutputs_ignores_outputs_past_count sample_collaborators 2).
  vm_compute. discriminate.
Defined.

(** ** What a translation leaves in the accumulator *)

Section Translation.
Context `{Collaborators}.

(** One round of the loop of [ProcessInputs], with what has been pushed when
    the round leaves the function. *)
Lemma ProcessInputs_loop_round_pushed (is_quantized_model : bool)
  (input : NodeUnitIODef) (rest : list NodeUnitIODef) (w : QnnModelWrapper)
  (names : list string) (quantize_param : Qnn_QuantizeParams_t)
  (qnn_data_type : Qnn_DataType_t) :
  let n := Name (node_arg input) in
  let run := BaseOpBuilder.ProcessInputs_loop is_quantized_model (input :: rest) w
               names quantize_param qnn_data_type in
  (exists r, r <> Returns Status_OK /\ run = (r, w, names)) \/
  (exists r, r <> Returns Status_OK /\ run = (r, w, names ++ [n])) \/
  (QnnContainsTensor w n = true /\
   run = BaseOpBuilder.ProcessInputs_loop is_quantized_model rest w
           (names ++ [n]) quantize_param qnn_data_type) \/
  (exists t quantize_param' qnn_data_type',
     QnnContainsTensor w n = false /\
     run = BaseOpBuilder.ProcessInputs_loop is_quantized_model rest
             (with_model_tensor w n t) (names ++ [n])
             quantize_param' qnn_data_type').
Proof.
  cbv zeta. cbn [BaseOpBuilder.ProcessInputs_loop].
  destruct (QnnContainsTensor w (Name (node_arg input))) eqn:Hpresent.
  { right. right. left. split; reflexivity. }
  destruct (BaseOpBuilder.GetQnnDataType is_quantized_model
              (TypeAsProto (node_arg input)) qnn_data_type) as [[| c e m] dt'].
  2: { left. eexists. split; [|reflexivity]. discriminate. }
  destruct (GetOnnxShape w (node_arg input)) as [input_shape|].
  2: { left. eexists. split; [|reflexivity]. discriminate. }
  destruct (ProcessQuantizationParameter w (quant_param input)
              (scale (scaleOffsetEncoding quantize_param))
              (offset (scaleOffsetEncoding quantize_param))) as [[[|] sc] off].
  2: { left. eexists. split; [|reflexivity]. discriminate. }
  cbv zeta.
  match goal with
  | |- context [match ?u with inl _ => _ | inr _ => _ end] =>
      destruct u as [r | unpacked_tensor] eqn:Hunpacked
  end.
  { left. exists r. split; [|reflexivity].
    destruct (IsInitializerInput w (Name (node_arg input))); [|discriminate].
    destruct (GetInitializerTensors w !! Name (node_arg input)) as [tp|].
    - destruct (UnpackInitializerData tp) as [[| c e m] bytes];
        [discriminate|].
      injection Hunpacked as <-. discriminate.
    - injection Hunpacked as <-. discriminate. }
  match goal with
  | |- context [AddTensor w ?n ?t] =>
      destruct (AddTensor_fresh w n t Hpresent) as [-> | ->]
  end.
  - right. right. right. eexists _, _, _. split; reflexivity.
  - right. left. eexists. split; [|reflexivity]. discriminate.
Qed.

(** The names pushed by a run of the loop are a leading part of the input
    names, and a tensor is in the registry afterwards only if it was there
    before or its name was pushed. *)
Lemma ProcessInputs_loop_pushed (is_quantized_model : bool)
  (inputs : list NodeUnitIODef) :
  forall (w : QnnModelWrapper) (names : list string)
    (quantize_param : Qnn_QuantizeParams_t) (qnn_data_type : Qnn_DataType_t)
    (r : Result) (w' : QnnModelWrapper) (names' : list string),
  BaseOpBuilder.ProcessInputs_loop is_quantized_model inputs w names
    quantize_param qnn_data_type = (r, w', names') ->
  exists k,
    names' = names ++ take k (arg_names inputs) /\
    forall n, registered w' n ->
              registered w n \/ In n (take k (arg_names inputs)).
Proof.
  induction inputs as [|input rest IH]; intros w names qp dt r w' names' Hrun.
  - cbn in Hrun. injection Hrun as <- <- <-. exists 0%nat.
    split; [rewrite app_nil_r; reflexivity|]. intros n Hn. left. exact Hn.
  - destruct (ProcessInputs_loop_round_pushed is_quantized_model input rest w
                names qp dt)
      as [(r0 & _ & Hstop) | [(r0 & _ & Hstop) | [(_ & Hskip)
         | (t & qp' & dt' & _ & Hadd)]]];
      cbv zeta in *.
    + rewrite Hstop in Hrun. injection Hrun as <- <- <-. exists 0%nat.
      split; [rewrite app_nil_r; reflexivity|]. intros n Hn. left. exact Hn.
    + rewrite Hstop in Hrun. injection Hrun as <- <- <-. exists 1%nat.
      split; [reflexivity|]. intros n Hn. left. exact Hn.
    + rewrite Hskip in Hrun.
      destruct (IH _ _ _ _ _ _ _ Hrun) as (k & -> & Hdom).
      exists (S k). split; [cbn; rewrite <- app_assoc; reflexivity|].
      intros n Hn. destruct (Hdom n Hn) as [Hold | Hpushed];
        [left; exact Hold | right; cbn; right; exact Hpushed].
    + rewrite Hadd in Hrun.
      destruct (IH _ _ _ _ _ _ _ Hrun) as (k & -> & Hdom).
      exists (S k). split; [cbn; rewrite <- app_assoc; reflexivity|].
      intros n Hn. destruct (Hdom n Hn) as [Hold | Hpushed];
        [|right; cbn; right; exact Hpushed].
      unfold registered in Hold. cbn [with_model_tensor model_tensors] in Hold.
      destruct (decide (Name (node_arg input) = n)) as [<- | Hne].
      * right. cbn. left. reflexivity.
      * left. rewrite lookup_insert_ne in Hold by exact Hne. exact Hold.
Qed.

(** X11. However [ProcessInputs] ends, what it has pushed to [input_names]
    is a leading part of the names of the inputs of the node unit, in order;
    a tensor is in the registry afterwards only if it was there before or
    its name has been pushed; and the initializers, the declared outputs and
    the operator list are as they were. *)
Theorem ProcessInputs_registers_pushed_names_only (w : QnnModelWrapper)
  (nu : NodeUnit) (is_quantized_model do_op_validation : bool)
  (names : list string) :
  let run := BaseOpBuilder.ProcessInputs w nu is_quantized_model names
               do_op_validation in
  initializers run.1.2 = initializers w /\
  graph_outputs run.1.2 = graph_outputs w /\
  op_list run.1.2 = op_list w /\
  exists k,
    run.2 = names ++ take k (arg_names (Inputs nu)) /\
    forall n, registered run.1.2 n ->
              registered w n \/ In n (take k (arg_names (Inputs nu))).
Proof.
  cbv zeta.
  remember (BaseOpBuilder.ProcessInputs w nu is_quantized_model names
              do_op_validation) as run eqn:Hrun.
  destruct run as [[r w'] names']. symmetry in Hrun.
  unfold BaseOpBuilder.ProcessInputs in Hrun. cbn [fst snd].
  pose proof (ProcessInputs_loop_effect _ _ _ _ _ _ _ _ _ Hrun)
    as (Hi & Hg & Ho & _).
  split; [exact Hi|]. split; [exact Hg|]. split; [exact Ho|].
  exact (ProcessInputs_loop_pushed _ _ _ _ _ _ _ _ _ Hrun).
Qed.

(** X12. For a node unit without inputs the base builder reports success
    and adds nothing: [AddToModelBuilder] returns OK and the accumulator is
    the one it was given, whatever the outputs and the op type are, in a
    validating run as in a persisting build. *)
Theorem AddToModelBuilder_without_inputs (op_builder_type : string)
  (output_count : Z) (w : QnnModelWrapper) (nu : NodeUnit)
  (is_quantized_model do_op_validation : bool) :
  Inputs nu = [] ->
  AddToModelBuilder (BaseOpBuilder_new op_builder_type output_count) w nu
    is_quantized_model do_op_validation = (Returns Status_OK, w).
Proof.
  intros Hin. unfold AddToModelBuilder, BaseOpBuilder.ProcessInputs.
  rewrite Hin. reflexivity.
Qed.

(** A successful [AddToModelBuilder] in a persisting build: the inputs were
    processed, the second stage returned OK from the accumulator the inputs
    left, and all input names are registered. *)
Lemma AddToModelBuilder_success (this : OpBuilder) (w w' : QnnModelWrapper)
  (nu : NodeUnit) (is_quantized_model do_op_validation : bool) :
  AddToModelBuilder this w nu is_quantized_model do_op_validation
  = (Returns Status_OK, w') ->
  exists w1,
    BaseOpBuilder.ProcessInputs w nu is_quantized_model [] do_op_validation
    = (Returns Status_OK, w1, arg_names (Inputs nu)) /\
    virtual_ProcessAttributesAndOutputs this w1 nu (arg_names (Inputs nu))
      is_quantized_model do_op_validation = (Returns Status_OK, w') /\
    op_list w1 = op_list w /\
    Forall (registered w1) (arg_names (Inputs nu)).
Proof.
  unfold AddToModelBuilder.
  destruct (BaseOpBuilder.ProcessInputs w nu is_quantized_model []
              do_op_validation) as [[r w1] names1] eqn:Hinputs.
  destruct r as [[| c e m] | what |]; try discriminate.
  rewrite return_if_error_then_ok. intros Hstage.
  unfold BaseOpBuilder.ProcessInputs in Hinputs.
  pose proof (ProcessInputs_loop_effect _ _ _ _ _ _ _ _ _ Hinputs)
    as (_ & _ & Ho & _ & _ & Hok).
  destruct (Hok eq_refl) as [-> Hall]. cbn [app] in *.
  exists w1. split; [reflexivity|]. split; [exact Hstage|].
  split; [exact Ho|].
  eapply Forall_impl; [exact Hall|].
  intros n Hn. apply QnnContainsTensor_true. exact Hn.
Qed.

(** X13. When [AddToModelBuilder] of the base builder returns OK in a
    persisting build of a node unit with inputs, it has appended exactly one
    operator: named by [GetNodeName], of the package [qnn_def::package_name]
    and the op type [GetQnnOpType] gives, without parameters, with the input
    names of the node unit in order, all of them registered, and with one
    output for each of the first [output_count_] outputs of the node unit. *)
Theorem AddToModelBuilder_appends_operator (op_builder_type : string)
  (output_count : Z) (w w' : QnnModelWrapper) (nu : NodeUnit)
  (is_quantized_model : bool) :
  Inputs nu <> [] ->
  AddToModelBuilder (BaseOpBuilder_new op_builder_type output_count) w nu
    is_quantized_model false = (Returns Status_OK, w') ->
  exists op,
    op_list w' = op_list w ++ [op] /\
    node_name op = GetNodeName nu /\
    package_name op = qnn_def_package_name /\
    node_type op = GetQnnOpType (OpType nu) /\
    node_params op = [] /\
    input_names op = arg_names (Inputs nu) /\
    Forall (registered w') (input_names op) /\
    map tensor_name (outputs op)
    = take (Z.to_nat output_count) (arg_names (Outputs nu)).
Proof.
  intros Hne Hrun.
  apply AddToModelBuilder_success in Hrun as (w1 & _ & Hstage & Ho & Hreg).
  cbn [virtual_ProcessAttributesAndOutputs BaseOpBuilder_new] in Hstage.
  unfold BaseOpBuilder.ProcessAttributesAndOutputs in Hstage.
  replace (size (arg_names (Inputs nu)) <? 1) with false in Hstage.
  2: { symmetry. apply Z.ltb_ge. unfold size, arg_names. rewrite length_map.
       destruct (Inputs nu); [congruence | cbn; lia]. }
  rewrite return_if_error_then_ok in Hstage.
  apply ProcessOutputs_success in Hstage
    as (outs & Hloop & Htensors & _ & _ & Hops).
  apply ProcessOutputs_loop_names in Hloop as (built & -> & Hnames & _).
  rewrite Z.sub_0_r in Hnames.
  eexists. split; [rewrite Hops, Ho; reflexivity|]. cbn.
  repeat (split; [reflexivity|]).
  split; [|exact Hnames].
  eapply Forall_impl; [exact Hreg|].
  intros n [t Ht]. unfold registered. rewrite Htensors.
  exists t. apply register_outputs_keep. exact Ht.
Qed.

(** The parameter a successful [ProcessAxisAttribute] appends. *)
Lemma ProcessAxisAttribute_success (w : QnnModelWrapper) (nu : NodeUnit)
  (node_params node_params' : list QnnParamWrapper) (default_axis_value axis : Z) :
  BaseOpBuilder.ProcessAxisAttribute w nu node_params default_axis_value
  = (Returns Status_OK, node_params', axis) ->
  exists axis_param,
    node_params' = node_params ++ [axis_param] /\
    param_name axis_param = qnn_def_axis.
Proof.
  unfold BaseOpBuilder.ProcessAxisAttribute.
  destruct (Inputs nu) as [|inputs_0 rest]; [discriminate|].
  destruct (GetOnnxShape w (node_arg inputs_0)) as [input_shape|]; [|discriminate].
  cbv zeta.
  match goal with
  | |- context [if ?c then _ else _] => destruct c
  end; [|discriminate].
  intros Heq. injection Heq as <- <-.
  eexists. split; reflexivity.
Qed.

(** X14. When [AddToModelBuilder] of the ArgMax/ArgMin builder returns OK
    in a persisting build, [select_last_index] reads 0 and exactly one
    operator has been appended, with the input names of the node unit and
    exactly two parameters: the one named [qnn_def::axis], then the one named
    [qnn_def::keep_dims], a BOOL_8 scalar holding 0 or 1. *)
Theorem AddToModelBuilder_ArgMaxMin_operator (output_count : Z)
  (w w' : QnnModelWrapper) (nu : NodeUnit) (is_quantized_model : bool) :
  AddToModelBuilder (ArgMaxMinOpBuilder_new output_count) w nu
    is_quantized_model false = (Returns Status_OK, w') ->
  NodeAttrHelper_Get nu "select_last_index" 0 = 0 /\
  exists op axis_param keep_dims_param,
    op_list w' = op_list w ++ [op] /\
    input_names op = arg_names (Inputs nu) /\
    node_params op = [axis_param; keep_dims_param] /\
    param_name axis_param = qnn_def_axis /\
    param_name keep_dims_param = qnn_def_keep_dims /\
    dataType (param_scalar keep_dims_param) = QNN_DATATYPE_BOOL_8 /\
    In (bool8Value (param_scalar keep_dims_param)) [0; 1].
Proof.
  intros Hrun.
  apply AddToModelBuilder_success in Hrun as (w1 & _ & Hstage & Ho & _).
  cbn [virtual_ProcessAttributesAndOutputs ArgMaxMinOpBuilder_new] in Hstage.
  destruct (BaseOpBuilder.ProcessAxisAttribute w1 nu [] 0)
    as [[r axis_params] axis] eqn:Haxis.
  destruct r as [[| c e m] | what |];
    try (unfold ArgMaxMinOpBuilder.ProcessAttributesAndOutputs in Hstage;
         rewrite Haxis in Hstage; discriminate).
  rewrite (ArgMaxMin_after_axis _ _ _ _ _ _ _ _ Haxis) in Hstage.
  destruct (Z.eqb_spec (NodeAttrHelper_Get nu "select_last_index" 0) 0)
    as [Hsli | Hsli]; [|discriminate].
  split; [exact Hsli|]. cbn [negb] in Hstage.
  apply ProcessAxisAttribute_success in Haxis as (axis_param & -> & Hname).
  apply ProcessOutputs_success in Hstage as (outs & _ & _ & _ & _ & Hops).
  eexists _, axis_param, _.
  split; [rewrite Hops, Ho; reflexivity|]. cbn.
  split; [reflexivity|]. split; [reflexivity|]. split; [exact Hname|].
  split; [reflexivity|]. split; [reflexivity|].
  destruct (NodeAttrHelper_Get nu "keepdims" 1 =? 0); cbn; auto.
Qed.

End Translation.

Lemma AddToModelBuilder_without_inputs_witness :
  @AddToModelBuilder sample_collaborators
    (@BaseOpBuilder_new sample_collaborators "SimpleOpBuilder" 1)
    sample_wrapper sample_constant false false
  = (Returns Status_OK, sample_wrapper).
Proof.
  apply (@AddToModelBuilder_without_inputs sample_collaborators). reflexivity.
Defined.

Lemma AddToModelBuilder_appends_operator_witness :
  exists op,
    op_list (@AddToModelBuilder sample_collaborators
               (@BaseOpBuilder_new sample_collaborators "SimpleOpBuilder" 1)
               sample_wrapper sample_relu false false).2
    = op_list sample_wrapper ++ [op] /\
    input_names op = ["X"] /\
    map tensor_name (outputs op) = ["R"].
Proof.
  destruct (@AddToModelBuilder sample_collaborators
              (@BaseOpBuilder_new sample_collaborators "SimpleOpBuilder" 1)
              sample_wrapper sample_relu false false) as [r w'] eqn:Hrun.
  assert (Hr : r = Returns Status_OK) by (vm_compute in Hrun; congruence).
  subst r.
  destruct (@AddToModelBuilder_appends_operator sample_collaborators
              "SimpleOpBuilder" 1 sample_wrapper w' sample_relu false
              ltac:(discriminate) Hrun)
    as (op & Hops & _ & _ & _ & _ & Hnames & _ & Houts).
  exists op. split; [exact Hops|]. split; [exact Hnames | exact Houts].
Defined.

Lemma AddToModelBuilder_ArgMaxMin_operator_witness :
  exists op axis_param keep_dims_param,
    op_list (@AddToModelBuilder sample_collaborators
               (@ArgMaxMinOpBuilder_new sample_collaborators 1)
               sample_wrapper (sample_argmax None None) false false).2
    = op_list sample_wrapper ++ [op] /\
    node_params op = [axis_param; keep_dims_param].
Proof.
  destruct (@AddToModelBuilder sample_collaborators
              (@ArgMaxMinOpBuilder_new sample_collaborators 1)
              sample_wrapper (sample_argmax None None) false false)
    as [r w'] eqn:Hrun.
  assert (Hr : r = Returns Status_OK) by (vm_compute in Hrun; congruence).
  subst r.
  destruct (@AddToModelBuilder_ArgMaxMin_operator sample_collaborators 1
              sample_wrapper w' (sample_argmax None None) false Hrun)
    as (_ & op & axis_param & keep_dims_param & Hops & _ & Hparams & _).
  exists op, axis_param, keep_dims_param. split; [exact Hops | exact Hparams].
Defined.

(** ** The formatters of buffers and quantization parameters *)

Lemma token_loop_rendered (f : nat -> token) (l : list nat) (s : Stream) :
  fold_left (fun (s : Stream) (i : nat) =>
               s >>> fun out => put (f i) out >>> fun out => put (T_str " ") out)
    l s
  = s >>> fun out => Good (out ++ flat_map (fun i => [f i; T_str " "]) l).
Proof.
  revert s. induction l as [|i l IH]; intros s; cbn [fold_left flat_map].
  - destruct s; cbn [and_then]; [rewrite app_nil_r|]; reflexivity.
  - rewrite IH. destruct s; cbn [and_then put]; [|reflexivity].
    rewrite <- !app_assoc. reflexivity.
Qed.

(** X15. The client buffer formatter renders the words [0 .. n-1] of the
    buffer between " clientBuf=(" and ")", each followed by a blank, where
    [n] is the number of whole four-byte words in [dataSize] bytes, capped at
    100: it never renders more than 100 words and never a word that is only
    partly within [dataSize]. *)
Theorem ClientBuffer_renders_at_most_100_words (as_T : Z -> Z) (out : ostream)
  (client_bufer : Qnn_ClientBuffer_t) :
  is_uint32 (dataSize client_bufer) ->
  let n := Z.to_nat (Z.min 100 (dataSize client_bufer / 4)) in
  (n <= 100)%nat /\
  4 * Z.of_nat n <= dataSize client_bufer /\
  utils.operator_ltlt_Qnn_ClientBuffer_t as_T out client_bufer
  = Good (out ++ [T_str " clientBuf=("] ++ rendered_words as_T client_bufer n
          ++ [T_str ")"]).
Proof.
  unfold is_uint32. intros Hsize. cbv zeta.
  assert (Hq : 0 <= dataSize client_bufer / 4 < 2 ^ 32).
  { split; [apply Z.div_pos; lia|].
    apply Z.div_lt_upper_bound; lia. }
  split; [lia|]. split.
  { pose proof (Z.mul_div_le (dataSize client_bufer) 4 ltac:(lia)). lia. }
  unfold utils.operator_ltlt_Qnn_ClientBuffer_t, rendered_words.
  unfold to_uint32. rewrite Z.mod_small by lia.
  replace (if dataSize client_bufer / 4 >? 100 then 100
           else dataSize client_bufer / 4)
    with (Z.min 100 (dataSize client_bufer / 4)).
  2: { destruct (Z.gtb_spec (dataSize client_bufer / 4) 100); lia. }
  unfold put at 1. cbn [and_then].
  rewrite token_loop_rendered. cbn [and_then]. unfold put.
  rewrite <- !app_assoc. reflexivity.
Qed.

Lemma ClientBuffer_renders_at_most_100_words_witness :
  utils.operator_ltlt_Qnn_ClientBuffer_t to_int32 []
    {| data := fun i => Z.of_nat i + 7; dataSize := 11 |}
  = Good ([] ++ [T_str " clientBuf=("] ++ [T_int 7; T_str " "; T_int 8; T_str " "]
          ++ [T_str ")"]).
Proof.
  apply (ClientBuffer_renders_at_most_100_words to_int32 []
           {| data := fun i => Z.of_nat i + 7; dataSize := 11 |}).
  unfold is_uint32. cbn. lia.
Defined.

(** X16. The formatter of the quantization parameters renders the
    definition, then the encoding only when the definition is IMPL_GENERATED
    or DEFINED, then scale and offset only when, in addition, the encoding
    is SCALE_OFFSET: for any other encoding (the per-axis one among them)
    scale and offset are not rendered. *)
Theorem QuantizeParams_rendering (out : ostream)
  (quantize_params : Qnn_QuantizeParams_t) :
  let defined :=
    bool_decide (encodingDefinition quantize_params = QNN_DEFINITION_IMPL_GENERATED)
    || bool_decide (encodingDefinition quantize_params = QNN_DEFINITION_DEFINED) in
  let scale_offset :=
    bool_decide (quantizationEncoding quantize_params
                 = QNN_QUANTIZATION_ENCODING_SCALE_OFFSET) in
  exists definition_label encoding_label,
    utils.operator_ltlt_Qnn_QuantizeParams_t out quantize_params
    = Good (out ++ [T_str " encodingDefinition="; T_str definition_label]
            ++ (if defined then [T_str " encoding="; T_str encoding_label] else [])
            ++ (if defined && scale_offset then
                  [T_str " scale=";
                   T_float (scale (scaleOffsetEncoding quantize_params));
                   T_str " offset=";
                   T_int (offset (scaleOffsetEncoding quantize_params))]
                else [])).
Proof.
  cbv zeta. unfold utils.operator_ltlt_Qnn_QuantizeParams_t. cbn [put and_then].
  destruct (operator_ltlt_Qnn_Definition_t_label
              (out ++ [T_str " encodingDefinition="])
              (encodingDefinition quantize_params)) as [dl ->].
  cbn [and_then].
  destruct (operator_ltlt_Qnn_QuantizationEncoding_t_label
              (((out ++ [T_str " encodingDefinition="]) ++ [T_str dl])
               ++ [T_str " encoding="])
              (quantizationEncoding quantize_params)) as [el Hel].
  exists dl, el.
  destruct (_ || _).
  - cbn [put and_then]. rewrite Hel. cbn [and_then andb].
    destruct (bool_decide _); cbn [put and_then]; unfold put;
      rewrite <- ?app_assoc; cbn [app]; rewrite ?app_nil_r; reflexivity.
  - cbn [andb]. rewrite <- ?app_assoc. cbn [app]. reflexivity.
Qed.

(** ** The shape of a transposed initializer *)

Lemma to_int64_id (z : Z) : - 2 ^ 63 <= z < 2 ^ 63 -> to_int64 z = z.
Proof.
  unfold to_int64. intros Hz. rewrite Z.mod_small by lia. lia.
Qed.

(** With every element of [perm] an index of the shape, the loop ends and
    has pushed the elements of [perm] and the dimensions they select. *)
Lemma TransposeInitializer_shape_loop_in_range (tensor_shape_dims : list Z)
  (perm : list Z) :
  size tensor_shape_dims <= 2 ^ 63 ->
  Forall (fun p => 0 <= p < size tensor_shape_dims) perm ->
  forall permutations new_tensor_shape_dims,
  TransposeInitializer_shape_loop tensor_shape_dims perm permutations
    new_tensor_shape_dims
  = Some (permutations ++ perm,
          new_tensor_shape_dims
          ++ map (fun p => nth (Z.to_nat p) tensor_shape_dims 0) perm).
Proof.
  intros Hsize. unfold size in *.
  induction perm as [|p perm IH]; intros Hperm acc1 acc2.
  - cbn. rewrite !app_nil_r. reflexivity.
  - apply Forall_cons in Hperm as [Hp Hrest].
    cbn [TransposeInitializer_shape_loop]. cbv zeta.
    rewrite to_int64_id by lia.
    replace (0 <=? p) with true by (symmetry; apply Z.leb_le; lia).
    destruct (nth_lookup_or_length tensor_shape_dims (Z.to_nat p) 0)
      as [Hlook | Hlen]; [|lia].
    rewrite Hlook. rewrite (IH Hrest).
    rewrite Z.mod_small by lia.
    rewrite <- !app_assoc. reflexivity.
Qed.

Lemma map_nth_seq_all (l : list Z) :
  map (fun i => nth i l 0) (seq 0 (length l)) = l.
Proof.
  induction l as [|a l IH]; [reflexivity|].
  cbn [length seq map nth]. f_equal.
  rewrite <- seq_shift, map_map. exact IH.
Qed.

Lemma product_Permutation (l1 l2 : list Z) :
  Permutation l1 l2 -> product l1 = product l2.
Proof.
  induction 1 as [| x l1 l2 _ IH | x y l | l1 l2 l3 _ IH1 _ IH2].
  - reflexivity.
  - change (x * product l1 = x * product l2). rewrite IH. reflexivity.
  - change (y * (x * product l) = x * (y * product l)). lia.
  - congruence.
Qed.

Lemma GetDataSize_Permutation (l1 l2 : list Z) :
  Permutation l1 l2 -> utils.GetDataSize l1 = utils.GetDataSize l2.
Proof.
  intros Hperm.
  destruct l1 as [|a l1].
  - apply Permutation_nil in Hperm. subst l2. reflexivity.
  - assert (Hne : l2 <> []).
    { intros ->. apply Permutation_sym, Permutation_nil in Hperm. discriminate. }
    rewrite !GetDataSize_nonempty by (assumption || discriminate).
    rewrite (product_Permutation _ _ Hperm). reflexivity.
Qed.

(** X17. When [perm] lists every index of the shape once, the shape loop of
    [TransposeInitializer] ends with [permutations] equal to [perm] and a
    new shape that has the dimension [tensor_shape_dims[perm[i]]] at position
    [i]: a rearrangement of the old shape, of the same rank and with the same
    element count ([GetDataSize] agrees on both); the identity permutation
    gives the old shape back. *)
Theorem TransposeInitializer_shape_is_permuted (tensor_shape_dims perm : list Z) :
  size tensor_shape_dims <= 2 ^ 63 ->
  is_permutation_of_indices perm (length tensor_shape_dims) ->
  exists new_tensor_shape_dims,
    TransposeInitializer_shape_loop tensor_shape_dims perm [] []
    = Some (perm, new_tensor_shape_dims) /\
    new_tensor_shape_dims
    = map (fun p => nth (Z.to_nat p) tensor_shape_dims 0) perm /\
    Permutation new_tensor_shape_dims tensor_shape_dims /\
    length new_tensor_shape_dims = length tensor_shape_dims /\
    product new_tensor_shape_dims = product tensor_shape_dims /\
    utils.GetDataSize new_tensor_shape_dims = utils.GetDataSize tensor_shape_dims /\
    (perm = map Z.of_nat (seq 0 (length tensor_shape_dims)) ->
     new_tensor_shape_dims = tensor_shape_dims).
Proof.
  unfold is_permutation_of_indices. intros Hsize Hperm.
  assert (Hrange : Forall (fun p => 0 <= p < size tensor_shape_dims) perm).
  { apply Forall_forall. intros p Hp.
    apply list_elem_of_In in Hp.
    apply (Permutation_in _ Hperm) in Hp.
    apply in_map_iff in Hp as (i & <- & Hi). apply in_seq in Hi.
    unfold size. lia. }
  assert (Hseq : map (fun p => nth (Z.to_nat p) tensor_shape_dims 0)
                   (map Z.of_nat (seq 0 (length tensor_shape_dims)))
                 = tensor_shape_dims).
  { rewrite map_map.
    rewrite (map_ext _ (fun i => nth i tensor_shape_dims 0))
      by (intros i; rewrite Nat2Z.id; reflexivity).
    apply map_nth_seq_all. }
  assert (Hnew : Permutation
                   (map (fun p => nth (Z.to_nat p) tensor_shape_dims 0) perm)
                   tensor_shape_dims).
  { eapply Permutation_trans; [apply Permutation_map; exact Hperm|].
    rewrite Hseq. apply Permutation_refl. }
  eexists. split.
  { rewrite (TransposeInitializer_shape_loop_in_range _ _ Hsize Hrange).
    reflexivity. }
  cbn [app]. split; [reflexivity|]. split; [exact Hnew|].
  split; [apply Permutation_length; exact Hnew|].
  split; [apply product_Permutation; exact Hnew|].
  split; [apply GetDataSize_Permutation; exact Hnew|].
  intros ->. exact Hseq.
Qed.

Lemma TransposeInitializer_shape_is_permuted_witness :
  TransposeInitializer_shape_loop [1; 3; 224; 224] [0; 2; 3; 1] [] []
  = Some ([0; 2; 3; 1], [1; 224; 224; 3])
  /\ utils.GetDataSize [1; 224; 224; 3] = utils.GetDataSize [1; 3; 224; 224].
Proof.
  destruct (TransposeInitializer_shape_is_permuted [1; 3; 224; 224] [0; 2; 3; 1])
    as (new_dims & Hloop & Hnew & _ & _ & _ & Hsize & _).
  - vm_compute. discriminate.
  - unfold is_permutation_of_indices. cbn.
    apply perm_skip.
    apply (Permutation_trans (l' := [2; 1; 3])).
    + apply perm_skip. apply perm_swap.
    + apply perm_swap.
  - subst new_dims. split; [exact Hloop | exact Hsize].
Defined.

(** X18. When some element of [perm] is not an index of the shape, the
    subscript [tensor_shape_dims[p]] of the shape loop of
    [TransposeInitializer] is out of range. *)
Theorem TransposeInitializer_index_out_of_range (tensor_shape_dims perm : list Z)
  (p : Z) :
  In p perm ->
  Forall (fun p => 0 <= p < 2 ^ 64) perm ->
  size tensor_shape_dims <= p ->
  forall permutations new_tensor_shape_dims,
  TransposeInitializer_shape_loop tensor_shape_dims perm permutations
    new_tensor_shape_dims = None.
Proof.
  intros Hin Hperm Hp.
  induction perm as [|p0 perm IH]; [destruct Hin|].
  intros acc1 acc2.
  apply Forall_cons in Hperm as [Hp0 Hrest].
  cbn [TransposeInitializer_shape_loop]. cbv zeta.
  destruct (0 <=? to_int64 p0) eqn:Hsign.
  - destruct (tensor_shape_dims !! Z.to_nat (to_int64 p0)) as [d|] eqn:Hlook;
      [|reflexivity].
    destruct Hin as [-> | Hin]; [|apply IH; assumption].
    exfalso. apply Z.leb_le in Hsign.
    apply lookup_lt_Some in Hlook. unfold size in Hp.
    assert (Hid : to_int64 p = p).
    { unfold to_int64 in *.
      destruct (Z_lt_le_dec p (2 ^ 63)) as [Hsmall | Hbig].
      - rewrite Z.mod_small by lia. lia.
      - exfalso.
        replace (p + 2 ^ 63) with (p - 2 ^ 63 + 1 * 2 ^ 64) in Hsign by lia.
        rewrite Z.mod_add in Hsign by lia.
        rewrite Z.mod_small in Hsign by lia. lia. }
    rewrite Hid in Hlook. lia.
  - reflexivity.
Qed.

Lemma TransposeInitializer_index_out_of_range_witness :
  TransposeInitializer_shape_loop [1; 3; 224; 224] [0; 4; 2; 1] [] [] = None.
Proof.
  apply (TransposeInitializer_index_out_of_range [1; 3; 224; 224] [0; 4; 2; 1] 4).
  - right. left. reflexivity.
  - repeat constructor; lia.
  - vm_compute. discriminate.
Defined.

(** ** The profiling level option *)

Lemma tolower_matches (c l : ascii) :
  is_lower_case_letter l ->
  Ascii.eqb (QNNExecutionProvider.tolower c) l = letter_matches c l.
Proof.
  unfold is_lower_case_letter, QNNExecutionProvider.tolower, letter_matches.
  intros Hl. cbv zeta.
  pose proof (N_ascii_bounded c) as Hc.
  destruct ((65 <=? N_of_ascii c) && (N_of_ascii c <=? 90))%N eqn:Hupper.
  - apply andb_true_iff in Hupper as [Hlo Hhi].
    apply N.leb_le in Hlo. apply N.leb_le in Hhi.
    replace (Ascii.eqb c l) with false.
    2: { symmetry. apply Ascii.eqb_neq. intros ->. lia. }
    cbn [orb].
    destruct (N.eqb_spec (N_of_ascii c + 32) (N_of_ascii l)) as [Heq | Hne].
    + apply Ascii.eqb_eq. rewrite Heq. apply ascii_N_embedding.
    + apply Ascii.eqb_neq. intros Heq. apply Hne. rewrite <- Heq.
      rewrite N_ascii_embedding by lia. reflexivity.
  - replace (N_of_ascii c + 32 =? N_of_ascii l)%N with false.
    + rewrite orb_false_r. reflexivity.
    + symmetry. apply N.eqb_neq. intros Heq.
      apply andb_false_iff in Hupper as [Hlo | Hhi].
      * apply N.leb_gt in Hlo. lia.
      * apply N.leb_gt in Hhi. lia.
Qed.

Lemma transform_tolower_matches (pattern : string) :
  lower_case_word pattern ->
  forall s,
    String.eqb (QNNExecutionProvider.transform QNNExecutionProvider.tolower s) pattern
    = matches_ignoring_case s pattern.
Proof.
  induction pattern as [|l pattern IH]; intros Hword s.
  - destruct s; reflexivity.
  - destruct Hword as [Hl Hrest]. destruct s as [|c s]; [reflexivity|].
    cbn [QNNExecutionProvider.transform String.eqb matches_ignoring_case].
    rewrite (tolower_matches c l Hl), (IH Hrest s).
    destruct (letter_matches c l); reflexivity.
Qed.

(** X19. [ParseProfilingLevel] reads its argument without regard to
    capitals: it leaves BASIC exactly for the spellings of "basic" and
    DETAILED exactly for the spellings of "detailed", capitals and small
    letters taken alike, and OFF for everything else; it logs the warning
    exactly when the argument spells none of "off", "basic" and "detailed". *)
Theorem ParseProfilingLevel_ignores_case (profiling_level_string : string) :
  let run := QNNExecutionProvider.ParseProfilingLevel profiling_level_string in
  (run.1 = QNNExecutionProvider.BASIC
   <-> matches_ignoring_case profiling_level_string "basic" = true) /\
  (run.1 = QNNExecutionProvider.DETAILED
   <-> matches_ignoring_case profiling_level_string "detailed" = true) /\
  (run.2 = false
   <-> matches_ignoring_case profiling_level_string "off" = true
       \/ matches_ignoring_case profiling_level_string "basic" = true
       \/ matches_ignoring_case profiling_level_string "detailed" = true) /\
  (run.2 = true -> run.1 = QNNExecutionProvider.OFF).
Proof.
  cbv zeta. unfold QNNExecutionProvider.ParseProfilingLevel. cbv zeta.
  assert (Hoff : lower_case_word "off") by (cbn; unfold is_lower_case_letter; cbn; lia).
  assert (Hbasic : lower_case_word "basic")
    by (cbn; unfold is_lower_case_letter; cbn; lia).
  assert (Hdetailed : lower_case_word "detailed")
    by (cbn; unfold is_lower_case_letter; cbn; lia).
  rewrite (transform_tolower_matches "off" Hoff),
    (transform_tolower_matches "basic" Hbasic),
    (transform_tolower_matches "detailed" Hdetailed).
  assert (Hlen : forall p q, matches_ignoring_case profiling_level_string p = true ->
                             matches_ignoring_case profiling_level_string q = true ->
                             String.length p = String.length q).
  { clear. induction profiling_level_string as [|c s IH]; intros [|l p] [|m q];
      cbn; try discriminate; try reflexivity.
    intros Hp Hq. apply andb_true_iff in Hp as [_ Hp].
    apply andb_true_iff in Hq as [_ Hq]. f_equal. exact (IH _ _ Hp Hq). }
  destruct (matches_ignoring_case profiling_level_string "off") eqn:Moff;
    destruct (matches_ignoring_case profiling_level_string "basic") eqn:Mbasic;
    destruct (matches_ignoring_case profiling_level_string "detailed") eqn:Mdetailed;
    try (specialize (Hlen _ _ Moff Mbasic); discriminate Hlen);
    try (specialize (Hlen _ _ Moff Mdetailed); discriminate Hlen);
    try (specialize (Hlen _ _ Mbasic Mdetailed); discriminate Hlen);
    cbn [fst snd]; clear;
    (split; [split; intros; first [discriminate | reflexivity]|]);
    (split; [split; intros; first [discriminate | reflexivity]|]);
    (split; [split; [intros Hw; first [discriminate Hw | tauto]
                    | intros Hm; first [reflexivity
                                       | destruct Hm as [Hm | [Hm | Hm]];
                                         discriminate Hm]]|]);
    intros; first [discriminate | reflexivity].
Qed.

Lemma ParseProfilingLevel_ignores_case_witness :
  (QNNExecutionProvider.ParseProfilingLevel "Detailed").1
  = QNNExecutionProvider.DETAILED
  /\ (QNNExecutionProvider.ParseProfilingLevel "verbose").1
     = QNNExecutionProvider.OFF.
Proof.
  split.
  - apply (ParseProfilingLevel_ignores_case "Detailed"). reflexivity.
  - apply (ParseProfilingLevel_ignores_case "verbose"). reflexivity.
Defined.
